(** * School exam application: session, attempt and scoring core

    A shallow embedding of the TypeScript sources

      - [lib/auth.ts]            (tokens, credentials, access policy),
      - [lib/db.ts]              (the SQLite schema and the prepared statements),
      - [app/api/auth/route.ts]  (login, registration),
      - [app/api/exams/[id]/route.ts] (fetch, start and submit of an exam),

    followed by the properties of the specification that concern them.

    Conventions of the embedding.
      - JavaScript numbers that hold row ids, points and counters are [Z];
        the one genuinely fractional quantity, the percentage, is an IEEE 754
        binary64 value ([PrimFloat.float]), computed with the same two
        operations, in the same order, as the source.
      - Strings are [string]; dates are [Z] (milliseconds since the epoch),
        which is what the comparison of two [Date] objects compares.
      - A table is the list of its rows in insertion order together with the
        AUTOINCREMENT counter of its primary key.
      - The libraries [jsonwebtoken] and [bcryptjs], [JSON.parse],
        [Math.random] and [Number.prototype.toString] are not part of the
        sources; the functions that use them take them as section variables.
      - Of the driver [better-sqlite3] the embedding keeps what decides the
        outcome of a [run]: the constraints of the schema, and the TypeError
        it throws when a bind parameter is a JavaScript boolean. *)

From Stdlib Require Import ZArith List String Ascii Bool Lia Floats Uint63 Permutation.
From stdpp Require Import base gmap strings pretty.
Import ListNotations.

Open Scope string_scope.
Open Scope Z_scope.

(* ===================================================================== *)
(** ** The data model ([types/exam.ts] and the schema of [lib/db.ts])     *)
(* ===================================================================== *)

Module Schema.

(** [role: 'admin' | 'teacher' | 'student'], also the CHECK constraint of
    the [users] table. *)
Inductive Role := admin | teacher | student.

Definition Role_eqb (a b : Role) : bool :=
  match a, b with
  | admin, admin | teacher, teacher | student, student => true
  | _, _ => false
  end.

Definition role_to_string (r : Role) : string :=
  match r with
  | admin => "admin"
  | teacher => "teacher"
  | student => "student"
  end.

(** The values the CHECK constraint [role IN ('admin','teacher','student')]
    lets through. *)
Definition role_of_string (s : string) : option Role :=
  if String.eqb s "admin" then Some admin
  else if String.eqb s "teacher" then Some teacher
  else if String.eqb s "student" then Some student
  else None.

(** A row of [users]; [password] holds the hash. *)
Record User := mkUser {
  id : Z;
  username : string;
  email : string;
  password : string;
  role : Role;
  fullName : string;
  class : option string;
  subject : option string;
  createdAt : string;
  updatedAt : string
}.

(** [Omit<User, 'password'>]. *)
Record PublicUser := mkPublicUser {
  pu_id : Z;
  pu_username : string;
  pu_email : string;
  pu_role : Role;
  pu_fullName : string;
  pu_class : option string;
  pu_subject : option string;
  pu_createdAt : string;
  pu_updatedAt : string
}.

Record Exam := mkExam {
  exam_id : Z;
  title : string;
  description : string;
  exam_subject : string;
  teacherId : Z;
  duration : Z;
  totalQuestions : Z;
  passingScore : Z;
  startTime : Z;
  endTime : Z;
  isActive : bool;
  allowReview : bool;
  shuffleQuestions : bool
}.

Inductive QuestionType := multiple_choice | true_false | essay.

(** A row of [questions]; [options] is the stored JSON text (NULL allowed),
    [correctAnswer] is TEXT NOT NULL. *)
Record Question := mkQuestion {
  q_id : Z;
  q_examId : Z;
  questionText : string;
  questionType : QuestionType;
  options : option string;
  correctAnswer : string;
  points : Z;
  explanation : option string;
  imageUrl : option string;
  order : Z
}.

Inductive AttemptStatus := in_progress | completed | abandoned | time_out.

Definition AttemptStatus_eqb (a b : AttemptStatus) : bool :=
  match a, b with
  | in_progress, in_progress | completed, completed
  | abandoned, abandoned | time_out, time_out => true
  | _, _ => false
  end.

Record ExamAttempt := mkAttempt {
  a_id : Z;
  a_examId : Z;
  a_studentId : Z;
  a_startTime : Z;
  a_endTime : option Z;
  a_status : AttemptStatus;
  a_score : option Z;
  a_totalPoints : option Z;
  a_percentage : option float;
  a_timeSpent : Z;
  a_ipAddress : string;
  a_userAgent : string
}.

Record ExamAnswer := mkAnswer {
  ans_id : Z;
  ans_attemptId : Z;
  ans_questionId : Z;
  ans_answer : string;
  ans_isCorrect : bool;
  ans_pointsEarned : Z;
  ans_timeSpent : Z
}.

Record ExamResult := mkResult {
  r_id : Z;
  r_attemptId : Z;
  r_studentId : Z;
  r_examId : Z;
  r_score : Z;
  r_totalPoints : Z;
  r_percentage : float;
  r_grade : string;
  r_passed : bool;
  r_completionTime : Z;
  r_correctAnswers : Z;
  r_wrongAnswers : Z;
  r_skippedAnswers : Z;
  r_feedback : string
}.

End Schema.
Import Schema.

(* ===================================================================== *)
(** ** [lib/auth.ts]: the access policy                                   *)
(* ===================================================================== *)

Module Policy.

Definition isAdmin (user : PublicUser) : bool := Role_eqb (pu_role user) admin.
Definition isTeacher (user : PublicUser) : bool := Role_eqb (pu_role user) teacher.
Definition isStudent (user : PublicUser) : bool := Role_eqb (pu_role user) student.

(** [teacherId?: number]: [None] is the omitted argument, and
    [undefined === user.id] is false. *)
Definition teacherId_is (teacherId : option Z) (user : PublicUser) : bool :=
  match teacherId with
  | Some t => t =? pu_id user
  | None => false
  end.

Definition canAccessExam (user : PublicUser) (teacherId : option Z) : bool :=
  if isAdmin user then true
  else if isTeacher user && teacherId_is teacherId user then true
  else if isStudent user then true
  else false.

Definition canManageExam (user : PublicUser) (teacherId : option Z) : bool :=
  if isAdmin user then true
  else if isTeacher user && teacherId_is teacherId user then true
  else false.

End Policy.

(* ===================================================================== *)
(** ** [lib/db.ts]: tables, constraints and prepared statements           *)
(* ===================================================================== *)

Module Db.

(** The database file.  [io_budget] is the environment of the storage
    layer: [None] when every write statement is accepted, [Some n] when
    the next [n] write statements are accepted and the one after raises
    (disk full, I/O error).  The sources open no transaction anywhere, so
    every [run] is its own statement and takes effect at once. *)
Record Store := mkStore {
  users : list User;
  users_seq : Z;
  exams : list Exam;
  questions : list Question;
  attempts : list ExamAttempt;
  attempts_seq : Z;
  answers : list ExamAnswer;
  answers_seq : Z;
  results : list ExamResult;
  results_seq : Z;
  clock : string;
  io_budget : option nat
}.

Inductive SqliteError :=
| SQLITE_CONSTRAINT_UNIQUE
| SQLITE_CONSTRAINT_CHECK
| SQLITE_CONSTRAINT_NOTNULL
| SQLITE_CONSTRAINT_FOREIGNKEY
| SQLITE_IOERR.

(** What [statement.run(...)] returns: the error it throws, or the store
    after the statement and [lastInsertRowid]. *)
Definition RunResult : Type := SqliteError + Store * Z.

Definition set_io (s : Store) (b : option nat) : Store :=
  mkStore (users s) (users_seq s) (exams s) (questions s) (attempts s)
          (attempts_seq s) (answers s) (answers_seq s) (results s)
          (results_seq s) (clock s) b.

(** [s'] differs from [s] in the [exam_attempts] table at most. *)
Definition same_catalog (s s' : Store) : Prop :=
  users s' = users s /\ exams s' = exams s /\ questions s' = questions s
  /\ results s' = results s /\ results_seq s' = results_seq s
  /\ answers s' = answers s /\ answers_seq s' = answers_seq s.

(** What the primary key, the two UNIQUE columns and the AUTOINCREMENT
    counter of [users] maintain. *)
Definition users_keyed (s : Store) : Prop :=
  List.NoDup (List.map id (users s))
  /\ List.NoDup (List.map username (users s))
  /\ List.NoDup (List.map email (users s))
  /\ Forall (fun u => id u <= users_seq s) (users s).

(** One write statement reaches the storage layer. *)
Definition write (s : Store) (stmt : Store -> RunResult) : RunResult :=
  match io_budget s with
  | None => stmt s
  | Some O => inl SQLITE_IOERR
  | Some (S n) => stmt (set_io s (Some n))
  end.

(** A JavaScript value handed to [run] as a bind parameter. *)
Inductive Param :=
| PNumber (n : Z)
| PReal (x : float)
| PText (t : string)
| PNull
| PBoolean (b : bool).

(** The driver, better-sqlite3, binds numbers, strings, bigints, buffers
    and [null]; for a parameter of any other type, a boolean included,
    [run] throws a TypeError before the statement reaches the database. *)
Definition binds (p : Param) : bool :=
  match p with
  | PBoolean _ => false
  | _ => true
  end.

(** What a [run] with parameters comes to: the TypeError of the driver,
    or what the statement does. *)
Inductive Bound :=
| BindTypeError
| Executed (r : RunResult).

Definition run_with (params : list Param) (r : RunResult) : Bound :=
  if forallb binds params then Executed r else BindTypeError.

Module userQueries.

(** [SELECT * FROM users WHERE username = ?] with [.get]: the first row. *)
Definition findByUsername (s : Store) (name : string) : option User :=
  find (fun u => String.eqb (username u) name) (users s).

Definition findByEmail (s : Store) (mail : string) : option User :=
  find (fun u => String.eqb (email u) mail) (users s).

Definition findById (s : Store) (uid : Z) : option User :=
  find (fun u => id u =? uid) (users s).

(** [INSERT INTO users (username, email, password, role, fullName, class,
    subject)]: the NOT NULL columns, the CHECK on [role], the two UNIQUE
    columns; the primary key is the AUTOINCREMENT counter. *)
Definition createUser (s : Store)
    (username_ email_ password_ role_ fullName_ : option string)
    (class_ subject_ : option string) : RunResult :=
  write s (fun s =>
    match username_, email_, password_, role_, fullName_ with
    | Some un, Some em, Some pw, Some ro, Some fn =>
        match role_of_string ro with
        | None => inl SQLITE_CONSTRAINT_CHECK
        | Some r =>
            if existsb (fun u => String.eqb (username u) un) (users s)
               || existsb (fun u => String.eqb (email u) em) (users s)
            then inl SQLITE_CONSTRAINT_UNIQUE
            else
              let rowid := users_seq s + 1 in
              let row := mkUser rowid un em pw r fn class_ subject_
                                (clock s) (clock s) in
              inr (mkStore (users s ++ [row]) rowid (exams s) (questions s)
                           (attempts s) (attempts_seq s) (answers s)
                           (answers_seq s) (results s) (results_seq s)
                           (clock s) (io_budget s), rowid)
        end
    | _, _, _, _, _ => inl SQLITE_CONSTRAINT_NOTNULL
    end).

End userQueries.

Module examQueries.

Definition findById (s : Store) (eid : Z) : option Exam :=
  find (fun e => exam_id e =? eid) (exams s).

End examQueries.

Module questionQueries.

(** Insertion of one row into a list ordered by the ["order"] column. *)
Fixpoint insert_by_order (q : Question) (l : list Question) : list Question :=
  match l with
  | [] => [q]
  | x :: l' => if order q <=? order x then q :: l
               else x :: insert_by_order q l'
  end.

Definition sort_by_order (l : list Question) : list Question :=
  fold_right insert_by_order [] l.

(** [SELECT * FROM questions WHERE examId = ? ORDER BY "order"] with
    [.all]; rows with equal ["order"] keep their insertion order. *)
Definition findByExam (s : Store) (eid : Z) : list Question :=
  sort_by_order (List.filter (fun q => q_examId q =? eid) (questions s)).

End questionQueries.

Module attemptQueries.

(** [INSERT INTO exam_attempts (examId, studentId, startTime, ipAddress,
    userAgent)]: [status] defaults to ['in_progress'], [timeSpent] to 0.
    The table declares two foreign keys and no UNIQUE constraint. *)
Definition createAttempt (s : Store) (examId studentId startTime_ : Z)
    (ipAddress userAgent : string) : RunResult :=
  write s (fun s =>
    if existsb (fun e => exam_id e =? examId) (exams s)
       && existsb (fun u => id u =? studentId) (users s)
    then
      let rowid := attempts_seq s + 1 in
      let row := mkAttempt rowid examId studentId startTime_ None in_progress
                           None None None 0 ipAddress userAgent in
      inr (mkStore (users s) (users_seq s) (exams s) (questions s)
                   (attempts s ++ [row]) rowid (answers s) (answers_seq s)
                   (results s) (results_seq s) (clock s) (io_budget s), rowid)
    else inl SQLITE_CONSTRAINT_FOREIGNKEY).

Definition findById (s : Store) (aid : Z) : option ExamAttempt :=
  find (fun a => a_id a =? aid) (attempts s).

(** [SELECT * FROM exam_attempts WHERE studentId = ? AND examId = ?]:
    no condition on [status]. *)
Definition findByStudentAndExam (s : Store) (studentId examId : Z)
    : option ExamAttempt :=
  find (fun a => (a_studentId a =? studentId) && (a_examId a =? examId))
       (attempts s).

(** [UPDATE exam_attempts SET endTime = ?, status = ?, score = ?,
    totalPoints = ?, percentage = ?, timeSpent = ? WHERE id = ?]. *)
Definition updateAttempt (s : Store) (endTime_ : Z) (status_ : AttemptStatus)
    (score_ totalPoints_ : Z) (percentage_ : float) (timeSpent_ : Z)
    (aid : Z) : RunResult :=
  write s (fun s =>
    let upd a :=
      if a_id a =? aid
      then mkAttempt (a_id a) (a_examId a) (a_studentId a) (a_startTime a)
                     (Some endTime_) status_ (Some score_) (Some totalPoints_)
                     (Some percentage_) timeSpent_ (a_ipAddress a)
                     (a_userAgent a)
      else a in
    inr (mkStore (users s) (users_seq s) (exams s) (questions s)
                 (List.map upd (attempts s)) (attempts_seq s) (answers s)
                 (answers_seq s) (results s) (results_seq s) (clock s)
                 (io_budget s), attempts_seq s)).

End attemptQueries.

Module answerQueries.

(** [createAnswer.run(attemptId, questionId, answer, isCorrect,
    pointsEarned, timeSpent)] on [INSERT INTO exam_answers (attemptId,
    questionId, answer, isCorrect, pointsEarned, timeSpent)]; the route
    passes a JavaScript boolean for [isCorrect]. *)
Definition createAnswer (s : Store) (attemptId questionId : Z)
    (answer : string) (isCorrect : bool) (pointsEarned timeSpent_ : Z)
    : Bound :=
  run_with [PNumber attemptId; PNumber questionId; PText answer;
            PBoolean isCorrect; PNumber pointsEarned; PNumber timeSpent_]
    (write s (fun s =>
       if existsb (fun a => a_id a =? attemptId) (attempts s)
          && existsb (fun q => q_id q =? questionId) (questions s)
       then
         let rowid := answers_seq s + 1 in
         let row := mkAnswer rowid attemptId questionId answer isCorrect
                             pointsEarned timeSpent_ in
         inr (mkStore (users s) (users_seq s) (exams s) (questions s)
                      (attempts s) (attempts_seq s) (answers s ++ [row]) rowid
                      (results s) (results_seq s) (clock s) (io_budget s),
              rowid)
       else inl SQLITE_CONSTRAINT_FOREIGNKEY)).

End answerQueries.

Module resultQueries.

(** [createResult.run(...)] on [INSERT INTO exam_results (...)], in which
    [attemptId] is UNIQUE and three foreign keys point to the attempt, the
    student and the exam; the route passes a JavaScript boolean for
    [passed]. *)
Definition createResult (s : Store) (attemptId studentId examId : Z)
    (score_ totalPoints_ : Z) (percentage_ : float) (grade : string)
    (passed : bool) (completionTime correct wrong skipped : Z)
    (feedback : string) : Bound :=
  run_with [PNumber attemptId; PNumber studentId; PNumber examId;
            PNumber score_; PNumber totalPoints_; PReal percentage_;
            PText grade; PBoolean passed; PNumber completionTime;
            PNumber correct; PNumber wrong; PNumber skipped; PText feedback]
    (write s (fun s =>
       if existsb (fun r => r_attemptId r =? attemptId) (results s)
       then inl SQLITE_CONSTRAINT_UNIQUE
       else if existsb (fun a => a_id a =? attemptId) (attempts s)
               && existsb (fun u => id u =? studentId) (users s)
               && existsb (fun e => exam_id e =? examId) (exams s)
       then
         let rowid := results_seq s + 1 in
         let row := mkResult rowid attemptId studentId examId score_
                             totalPoints_ percentage_ grade passed
                             completionTime correct wrong skipped feedback in
         inr (mkStore (users s) (users_seq s) (exams s) (questions s)
                      (attempts s) (attempts_seq s) (answers s) (answers_seq s)
                      (results s ++ [row]) rowid (clock s) (io_budget s),
              rowid)
       else inl SQLITE_CONSTRAINT_FOREIGNKEY)).

Definition findByAttempt (s : Store) (attemptId : Z) : option ExamResult :=
  find (fun r => r_attemptId r =? attemptId) (results s).

End resultQueries.

End Db.

(* ===================================================================== *)
(** ** Regular expressions of the validators                              *)
(* ===================================================================== *)

Module Regex.

(** The fragment the validators of [lib/auth.ts] use: character classes,
    concatenation and repetition, matched by derivatives.  A string is its
    sequence of code units, each below 256. *)
Inductive re :=
| Void
| Eps
| Class (p : ascii -> bool)
| Seq (r1 r2 : re)
| Alt (r1 r2 : re)
| Star (r : re).

Definition Plus (r : re) : re := Seq r (Star r).

Fixpoint nullable (r : re) : bool :=
  match r with
  | Void => false
  | Eps => true
  | Class _ => false
  | Seq r1 r2 => nullable r1 && nullable r2
  | Alt r1 r2 => nullable r1 || nullable r2
  | Star _ => true
  end.

Fixpoint deriv (c : ascii) (r : re) : re :=
  match r with
  | Void => Void
  | Eps => Void
  | Class p => if p c then Eps else Void
  | Seq r1 r2 =>
      if nullable r1 then Alt (Seq (deriv c r1) r2) (deriv c r2)
      else Seq (deriv c r1) r2
  | Alt r1 r2 => Alt (deriv c r1) (deriv c r2)
  | Star r1 => Seq (deriv c r1) (Star r1)
  end.

(** [/^r$/.test(s)]. *)
Fixpoint test_anchored (r : re) (s : string) : bool :=
  match s with
  | EmptyString => nullable r
  | String c s' => test_anchored (deriv c r) s'
  end.

Definition any : re := Class (fun _ => true).

(** [/r/.test(s)]: a match anywhere in [s]. *)
Definition test (r : re) (s : string) : bool :=
  test_anchored (Seq (Star any) (Seq r (Star any))) s.

(** The strings a regular expression denotes. *)
Inductive matches : re -> string -> Prop :=
| matches_eps : matches Eps ""
| matches_class (p : ascii -> bool) (c : ascii) :
    p c = true -> matches (Class p) (String c "")
| matches_seq (r1 r2 : re) (s1 s2 : string) :
    matches r1 s1 -> matches r2 s2 -> matches (Seq r1 r2) (String.append s1 s2)
| matches_alt_l (r1 r2 : re) (s : string) :
    matches r1 s -> matches (Alt r1 r2) s
| matches_alt_r (r1 r2 : re) (s : string) :
    matches r2 s -> matches (Alt r1 r2) s
| matches_star_nil (r : re) : matches (Star r) ""
| matches_star_cons (r : re) (s1 s2 : string) :
    matches r s1 -> matches (Star r) s2 ->
    matches (Star r) (String.append s1 s2).

(** Every character of [s] is in the class [p]; some character is. *)
Fixpoint all_chars (p : ascii -> bool) (s : string) : bool :=
  match s with
  | EmptyString => true
  | String c s' => p c && all_chars p s'
  end.

Fixpoint some_char (p : ascii -> bool) (s : string) : bool :=
  match s with
  | EmptyString => false
  | String c s' => p c || some_char p s'
  end.

Definition code (c : ascii) : N := N_of_ascii c.
Definition in_range (lo hi : ascii) (c : ascii) : bool :=
  ((code lo <=? code c) && (code c <=? code hi))%N.

Definition is_lower := in_range "a" "z".
Definition is_upper := in_range "A" "Z".
Definition is_digit := in_range "0" "9".

(** [\s] on code units below 256: TAB, LF, VT, FF, CR, space, NBSP. *)
Definition is_space (c : ascii) : bool :=
  ((9 <=? code c) && (code c <=? 13) || (code c =? 32) || (code c =? 160))%N.

End Regex.

(* ===================================================================== *)
(** ** [lib/auth.ts]: tokens, credentials, validators                     *)
(* ===================================================================== *)

Module Auth.
Import Regex Db.

Record JWTPayload := mkJWTPayload {
  userId : Z;
  jwt_username : string;
  jwt_role : string
}.

Record LoginCredentials := mkLoginCredentials {
  cred_username : option string;
  cred_password : option string
}.

Record AuthResponse := mkAuthResponse {
  auth_success : bool;
  auth_user : option PublicUser;
  auth_token : option string;
  auth_message : string
}.

(** The object literal built twice in the source, every column but
    [password]. *)
Definition userWithoutPassword (user : User) : PublicUser :=
  mkPublicUser (id user) (username user) (email user) (role user)
               (fullName user) (class user) (subject user)
               (createdAt user) (updatedAt user).

(** [!x] for an optional string: [undefined] and [''] are falsy. *)
Definition falsy (x : option string) : bool :=
  match x with
  | None => true
  | Some v => String.eqb v ""
  end.

Section WithLibraries.

(** [jwt.sign(payload, JWT_SECRET, { expiresIn: '7d' })] and
    [jwt.verify(token, JWT_SECRET)] at the time of the call ([None] when
    it throws); [bcrypt.hash(password, 12)] and [bcrypt.compare]. *)
Variable jwt_sign : JWTPayload -> string.
Variable jwt_verify : string -> option JWTPayload.
Variable bcrypt_hash : string -> string.
Variable bcrypt_compare : string -> string -> bool.

Definition hashPassword (password_ : string) : string := bcrypt_hash password_.

Definition comparePassword (password_ hashedPassword : string) : bool :=
  bcrypt_compare password_ hashedPassword.

Definition generateToken (user : PublicUser) : string :=
  jwt_sign (mkJWTPayload (pu_id user) (pu_username user)
                         (role_to_string (pu_role user))).

Definition verifyToken (token : string) : option JWTPayload :=
  jwt_verify token.

Definition authenticateUser (s : Store) (credentials : LoginCredentials)
    : AuthResponse :=
  if falsy (cred_username credentials) || falsy (cred_password credentials)
  then mkAuthResponse false None None "Username and password are required"
  else
    match cred_username credentials, cred_password credentials with
    | Some username_, Some password_ =>
        match userQueries.findByUsername s username_ with
        | None =>
            mkAuthResponse false None None "Invalid username or password"
        | Some user =>
            if negb (comparePassword password_ (password user))
            then mkAuthResponse false None None "Invalid username or password"
            else
              let u := userWithoutPassword user in
              mkAuthResponse true (Some u) (Some (generateToken u))
                             "Login successful"
        end
    | _, _ => mkAuthResponse false None None "Internal server error"
    end.

Definition getUserFromToken (s : Store) (token : string) : option PublicUser :=
  match verifyToken token with
  | None => None
  | Some decoded =>
      match userQueries.findById s (userId decoded) with
      | None => None
      | Some user => Some (userWithoutPassword user)
      end
  end.

End WithLibraries.

(** [authHeader.startsWith('Bearer ')] and [authHeader.substring(7)]. *)
Definition extractTokenFromHeaders (authorization : option string)
    : option string :=
  match authorization with
  | None => None
  | Some authHeader =>
      if falsy (Some authHeader) || negb (String.prefix "Bearer " authHeader)
      then None
      else Some (String.substring 7 (String.length authHeader - 7) authHeader)
  end.

(** [a || b] on optional strings. *)
Definition or_else (a b : option string) : option string :=
  if falsy a then b else a.

Record Validation := mkValidation {
  isValid : bool;
  errors : list string
}.

Definition re_letter : re := Class (fun c => is_upper c || is_lower c).
Definition re_digit : re := Class is_digit.
Definition re_word : re :=
  Plus (Class (fun c => is_lower c || is_upper c || is_digit c
                        || Ascii.eqb c "_")).
Definition not_space_at : re :=
  Class (fun c => negb (is_space c || Ascii.eqb c "@")).
(** [/^[^\s@]+@[^\s@]+\.[^\s@]+$/]. *)
Definition emailRegex : re :=
  Seq (Plus not_space_at)
      (Seq (Class (Ascii.eqb "@"))
           (Seq (Plus not_space_at)
                (Seq (Class (Ascii.eqb ".")) (Plus not_space_at)))).

Definition validatePassword (password_ : string) : Validation :=
  let e1 := if (String.length password_ <? 6)%nat
            then ["Password must be at least 6 characters long"] else [] in
  let e2 := if negb (test re_letter password_)
            then ["Password must contain at least one letter"] else [] in
  let e3 := if negb (test re_digit password_)
            then ["Password must contain at least one number"] else [] in
  let errors := (e1 ++ e2 ++ e3)%list in
  mkValidation (Nat.eqb (List.length errors) 0) errors.

Definition validateEmail (email_ : string) : bool :=
  test_anchored emailRegex email_.

Definition validateUsername (username_ : string) : Validation :=
  let e1 := if (String.length username_ <? 3)%nat
            then ["Username must be at least 3 characters long"] else [] in
  let e2 := if (20 <? String.length username_)%nat
            then ["Username must be less than 20 characters"] else [] in
  let e3 := if negb (test_anchored re_word username_)
            then ["Username can only contain letters, numbers, and underscores"]
            else [] in
  let errors := (e1 ++ e2 ++ e3)%list in
  mkValidation (Nat.eqb (List.length errors) 0) errors.

End Auth.

(* ===================================================================== *)
(** ** [app/api/auth/route.ts]: login and registration                    *)
(* ===================================================================== *)

Module AuthRoute.
Import Db Auth.

(** The JSON body [{ action, ...data }] of a request to [/api/auth],
    together with the two places a token can travel in. *)
Record Request := mkRequest {
  authorization : option string;
  cookie_auth_token : option string;
  action : option string;
  data_username : option string;
  data_email : option string;
  data_password : option string;
  data_role : option string;
  data_fullName : option string;
  data_class : option string;
  data_subject : option string
}.

(** What [NextResponse.json(body, { status })] sends, with the cookie the
    login sets. *)
Record Response := mkResponse {
  status : Z;
  success : bool;
  message : string;
  resp_errors : option (list string);
  resp_user : option PublicUser;
  resp_token : option string;
  resp_userId : option Z;
  set_cookie : option string
}.

Definition fail (st : Z) (msg : string) : Response :=
  mkResponse st false msg None None None None None.

(** [x || null] for the two optional columns. *)
Definition or_null (x : option string) : option string :=
  if falsy x then None else x.

(** The text a regular expression or a bound parameter sees for an
    optional field: [String(undefined)] is "undefined". *)
Definition text_of (x : option string) : string :=
  match x with
  | Some v => v
  | None => "undefined"
  end.

(** The same request with another [Authorization] header and another
    [auth-token] cookie. *)
Definition with_token (authorization' cookie' : option string)
    (request : Request) : Request :=
  mkRequest authorization' cookie' (action request) (data_username request)
            (data_email request) (data_password request) (data_role request)
            (data_fullName request) (data_class request)
            (data_subject request).

(** The body [{ action: 'register', ...data }], sent with no token. *)
Definition register_request (username_ email_ password_ role_ : string)
    (fullName_ : option string) : Request :=
  mkRequest None None (Some "register") (Some username_) (Some email_)
            (Some password_) (Some role_) fullName_ None None.

Section WithLibraries.

Variable jwt_sign : JWTPayload -> string.
Variable jwt_verify : string -> option JWTPayload.
Variable bcrypt_hash : string -> string.
Variable bcrypt_compare : string -> string -> bool.

Definition handleLogin (s : Store) (credentials : LoginCredentials)
    : Response :=
  let result := authenticateUser jwt_sign bcrypt_compare s credentials in
  if auth_success result
  then mkResponse 200 true (auth_message result) None (auth_user result)
                  (auth_token result) None
                  (if falsy (auth_token result) then None
                   else auth_token result)
  else mkResponse 401 false (auth_message result) None (auth_user result)
                  (auth_token result) None None.

(** The body of [handleRegister]: the three validators, the two lookups,
    then the insert; [catch] turns a thrown error into 409 or 500.
    [x.length] on a missing field is the TypeError of the first and third
    validator, and [regex.test(undefined)] tests the text "undefined". *)
Definition handleRegister (s : Store) (data : Request) : Store * Response :=
  match data_username data with
  | None => (s, fail 500 "Registration failed")
  | Some username_ =>
      let usernameValidation := validateUsername username_ in
      if negb (isValid usernameValidation)
      then (s, mkResponse 400 false "Username validation failed"
                          (Some (errors usernameValidation))
                          None None None None)
      else if negb (validateEmail (text_of (data_email data)))
      then (s, fail 400 "Invalid email format")
      else
        match data_password data with
        | None => (s, fail 500 "Registration failed")
        | Some password_ =>
            let passwordValidation := validatePassword password_ in
            if negb (isValid passwordValidation)
            then (s, mkResponse 400 false "Password validation failed"
                                (Some (errors passwordValidation))
                                None None None None)
            else
              match userQueries.findByUsername s username_ with
              | Some _ => (s, fail 409 "Username already exists")
              | None =>
                  match userQueries.findByEmail s
                          (text_of (data_email data)) with
                  | Some _ => (s, fail 409 "Email already exists")
                  | None =>
                      let hashedPassword := hashPassword bcrypt_hash password_ in
                      match userQueries.createUser s
                              (Some username_) (data_email data)
                              (Some hashedPassword) (data_role data)
                              (data_fullName data)
                              (or_null (data_class data))
                              (or_null (data_subject data)) with
                      | inr (s', lastInsertRowid) =>
                          (s', mkResponse 200 true "User created successfully"
                                          None None None
                                          (Some lastInsertRowid) None)
                      | inl SQLITE_CONSTRAINT_UNIQUE =>
                          (s, fail 409 "Username or email already exists")
                      | inl _ => (s, fail 500 "Registration failed")
                      end
                  end
              end
        end
  end.

(** [authHeader?.replace('Bearer ', '')]: the first occurrence is removed,
    wherever it stands. *)
Definition remove_first_Bearer (h : string) : string :=
  match String.index 0 "Bearer " h with
  | None => h
  | Some i =>
      String.append (String.substring 0 i h)
        (String.substring (i + 7) (String.length h - (i + 7)) h)
  end.

Definition handleVerifyToken (s : Store) (request : Request) : Response :=
  let token := or_else (option_map remove_first_Bearer (authorization request))
                       (cookie_auth_token request) in
  match token with
  | None => fail 401 "No token provided"
  | Some token =>
      if String.eqb token "" then fail 401 "No token provided"
      else
        match getUserFromToken jwt_verify s token with
        | None => fail 401 "Invalid or expired token"
        | Some user =>
            mkResponse 200 true "Token valid" None (Some user) None None None
        end
  end.

(** [POST /api/auth]: dispatch on [action]. *)
Definition POST (s : Store) (request : Request) : Store * Response :=
  match action request with
  | Some a =>
      if String.eqb a "login"
      then (s, handleLogin s (mkLoginCredentials (data_username request)
                                                 (data_password request)))
      else if String.eqb a "register" then handleRegister s request
      else if String.eqb a "verify-token"
      then (s, handleVerifyToken s request)
      else (s, fail 400 "Invalid action")
  | None => (s, fail 400 "Invalid action")
  end.

End WithLibraries.

End AuthRoute.

(* ===================================================================== *)
(** ** JavaScript numbers that are not integers                           *)
(* ===================================================================== *)

Module Number.

(** The number an integer is in JavaScript: the binary64 value nearest to
    it, ties to even, and an infinity beyond the largest finite one. *)
Definition of_Z (z : Z) : float :=
  SF2Prim (binary_normalize prec emax z 0 false).

(** [a >= b]. *)
Definition ge (a b : float) : bool := PrimFloat.leb b a.

(** [Math.round]: the integer nearest to [x], ties towards +infinity;
    infinities, NaN and integral values are returned as they are. *)
Definition Math_round (x : float) : float :=
  match Prim2SF x with
  | S754_finite sgn m e =>
      if 0 <=? e then x
      else
        let d := 2 ^ (- e) in
        let mz := if sgn then Z.neg m else Z.pos m in
        let n := (2 * mz + d) / (2 * d) in
        if (n =? 0) && sgn then PrimFloat.opp 0%float else of_Z n
  | _ => x
  end.

End Number.

(* ===================================================================== *)
(** ** [app/api/exams/[id]/route.ts]: fetch, start, submit                *)
(* ===================================================================== *)

Module ExamRoute.
Import Db Auth Policy.

(** A value of the [answers] object of a submission: [null], a boolean,
    a number (a binary64 value) or a string; arrays and nested objects are
    left out. *)
Inductive JsValue :=
| JsNull
| JsBool (b : bool)
| JsNumber (x : float)
| JsString (s : string).

Section Texts.

(** [Number.prototype.toString], which belongs to the language and not to
    the sources. *)
Variable Number_toString : float -> string.

(** [v.toString()]; [None] is the TypeError of [null.toString()]. *)
Definition toString (v : JsValue) : option string :=
  match v with
  | JsNull => None
  | JsBool true => Some "true"
  | JsBool false => Some "false"
  | JsNumber x => Some (Number_toString x)
  | JsString s => Some s
  end.

End Texts.

(** The body [{ attemptId, answers, timeSpent }] of a submission;
    [answers] is keyed by question id. *)
Record SubmitBody := mkSubmitBody {
  attemptId : option Z;
  answers : option (gmap Z JsValue);
  timeSpent : option Z
}.

(** A request to [/api/exams/[id]]: headers, cookie, query string, body
    ([None] when [request.json()] throws) and the reading of the clock
    that [new Date()] makes while the request is handled. *)
Record Request := mkRequest {
  authorization : option string;
  cookie_auth_token : option string;
  ip : option string;
  x_forwarded_for : option string;
  user_agent : option string;
  includeQuestions : option string;
  includeAnswers : option string;
  json : option SubmitBody;
  now : Z
}.

(** A question as it is serialised in a response: the seven keys picked
    for a student, or the whole row with [options] parsed. *)
Inductive QuestionJson :=
| StudentQuestion (id_ : Z) (questionText_ : string)
    (questionType_ : QuestionType) (options_ : list string) (points_ : Z)
    (imageUrl_ : option string) (order_ : Z)
| FullQuestion (q : Question) (options_ : list string).

(** Whether the serialised object has a [correctAnswer] key. *)
Definition has_correctAnswer (j : QuestionJson) : bool :=
  match j with
  | StudentQuestion _ _ _ _ _ _ _ => false
  | FullQuestion _ _ => true
  end.

Record ExamSummary := mkExamSummary {
  sum_id : Z;
  sum_title : string;
  sum_description : string;
  sum_duration : Z;
  sum_totalQuestions : Z
}.

Record SubmitData := mkSubmitData {
  resultId : Z;
  score : Z;
  d_totalPoints : Z;
  percentage : float;
  grade : string;
  passed : bool;
  d_correctAnswers : Z;
  d_wrongAnswers : Z;
  d_skippedAnswers : Z
}.

Inductive Data :=
| ExamData (exam : Exam) (questions_ : option (list QuestionJson))
| AttemptRef (attemptId_ : Z)
| StartData (attemptId_ : Z) (exam : ExamSummary)
    (questions_ : list QuestionJson) (startTime_ : Z)
| SubmitResult (d : SubmitData).

Record Response := mkResponse {
  status : Z;
  success : bool;
  message : string;
  data : option Data
}.

Definition fail (st : Z) (msg : string) : Response :=
  mkResponse st false msg None.

(** The question objects a response carries, if any. *)
Definition questions_of (r : Response) : list QuestionJson :=
  match data r with
  | Some (ExamData _ (Some qs)) => qs
  | Some (StartData _ _ qs _) => qs
  | _ => []
  end.

(** *** Exceptions over a store that keeps what was written *)

Inductive Exn :=
| TypeError
| SyntaxError
| SqliteErr (e : SqliteError).

Inductive Outcome (A : Type) :=
| Returned (s : Store) (a : A)
| Thrown (s : Store) (e : Exn).
Arguments Returned {A} s a.
Arguments Thrown {A} s e.

Definition Exec (A : Type) : Type := Store -> Outcome A.

Definition ret {A} (a : A) : Exec A := fun s => Returned s a.
Definition throw {A} (e : Exn) : Exec A := fun s => Thrown s e.
Definition bind {A B} (c : Exec A) (k : A -> Exec B) : Exec B :=
  fun s => match c s with
           | Returned s' a => k a s'
           | Thrown s' e => Thrown s' e
           end.

Notation "x <- c ;; k" := (bind c (fun x => k))
  (at level 100, c at next level, right associativity).

(** [statement.run(...)]. *)
Definition run (stmt : Store -> RunResult) : Exec Z :=
  fun s => match stmt s with
           | inr (s', lastInsertRowid) => Returned s' lastInsertRowid
           | inl e => Thrown s (SqliteErr e)
           end.

(** [statement.run(...)] where the driver has parameters to bind first. *)
Definition run_bound (stmt : Store -> Bound) : Exec Z :=
  fun s => match stmt s with
           | BindTypeError => Thrown s TypeError
           | Executed (inr (s', lastInsertRowid)) =>
               Returned s' lastInsertRowid
           | Executed (inl e) => Thrown s (SqliteErr e)
           end.

(** [try { body } catch (error) { return handler }]. *)
Definition try_catch (body : Exec Response) (handler : Response)
    (s : Store) : Store * Response :=
  match body s with
  | Returned s' r => (s', r)
  | Thrown s' _ => (s', handler)
  end.

(** *** Scoring *)

Record Tally := mkTally {
  totalScore : Z;
  totalPoints : Z;
  correctAnswers : Z;
  wrongAnswers : Z;
  skippedAnswers : Z
}.

(** [studentAnswer === undefined || studentAnswer === '']. *)
Definition is_skipped (studentAnswer : option JsValue) : bool :=
  match studentAnswer with
  | None => true
  | Some (JsString s) => String.eqb s ""
  | Some _ => false
  end.

Section Scoring.

Variable Number_toString : float -> string.

(** The body of [for (const question of questions)]. *)
Definition score_question (attemptId_ : Z) (answers_ : gmap Z JsValue)
    (t : Tally) (question : Question) : Exec Tally :=
  let totalPoints' := totalPoints t + points question in
  let studentAnswer := answers_ !! q_id question in
  if is_skipped studentAnswer
  then
    _ <- run_bound (fun s => answerQueries.createAnswer s attemptId_
                               (q_id question) "" false 0 0) ;;
    ret (mkTally (totalScore t) totalPoints' (correctAnswers t)
                 (wrongAnswers t) (skippedAnswers t + 1))
  else
    match studentAnswer ≫= toString Number_toString with
    | None => throw TypeError
    | Some str =>
        let isCorrect := String.eqb str (correctAnswer question) in
        let pointsEarned := if isCorrect then points question else 0 in
        _ <- run_bound (fun s => answerQueries.createAnswer s attemptId_
                                   (q_id question) str isCorrect
                                   pointsEarned 0) ;;
        ret (mkTally (totalScore t + pointsEarned) totalPoints'
                     (if isCorrect then correctAnswers t + 1
                      else correctAnswers t)
                     (if isCorrect then wrongAnswers t
                      else wrongAnswers t + 1)
                     (skippedAnswers t))
    end.

Fixpoint score_questions (attemptId_ : Z) (answers_ : gmap Z JsValue)
    (questions_ : list Question) (t : Tally) : Exec Tally :=
  match questions_ with
  | [] => ret t
  | question :: rest =>
      t' <- score_question attemptId_ answers_ t question ;;
      score_questions attemptId_ answers_ rest t'
  end.

End Scoring.

(** [totalPoints > 0 ? (totalScore / totalPoints) * 100 : 0]. *)
Definition percentage_of (totalScore_ totalPoints_ : Z) : float :=
  if 0 <? totalPoints_
  then PrimFloat.mul (PrimFloat.div (Number.of_Z totalScore_)
                                    (Number.of_Z totalPoints_))
                     (Number.of_Z 100)
  else Number.of_Z 0.

Definition getGrade (percentage_ : float) : string :=
  if Number.ge percentage_ (Number.of_Z 90) then "A"
  else if Number.ge percentage_ (Number.of_Z 80) then "B"
  else if Number.ge percentage_ (Number.of_Z 70) then "C"
  else if Number.ge percentage_ (Number.of_Z 60) then "D"
  else "E".

(** [Math.round(percentage * 100) / 100]. *)
Definition round2 (percentage_ : float) : float :=
  PrimFloat.div
    (Number.Math_round (PrimFloat.mul percentage_ (Number.of_Z 100)))
    (Number.of_Z 100).

(** [x || 'unknown'] and [timeSpent || 0]. *)
Definition or_unknown (x : option string) : string :=
  if falsy x then "unknown" else default "unknown" x.
Definition or_zero (x : option Z) : Z := default 0 x.

Definition param_is_true (p : option string) : bool :=
  match p with
  | Some v => String.eqb v "true"
  | None => false
  end.

(** The response to a start when [existingAttempt] is found. *)
Definition already_taken (existingAttempt : ExamAttempt) : Response :=
  mkResponse 400 false "You have already taken this exam"
             (Some (AttemptRef (a_id existingAttempt))).

(** [request.ip || request.headers.get('x-forwarded-for') || 'unknown']. *)
Definition clientIP_of (request : Request) : string :=
  or_unknown (or_else (ip request) (x_forwarded_for request)).

(** The row a start inserts. *)
Definition new_attempt (s : Store) (request : Request)
    (examId studentId : Z) : ExamAttempt :=
  mkAttempt (attempts_seq s + 1) examId studentId (now request) None
            in_progress None None None 0 (clientIP_of request)
            (or_unknown (user_agent request)).

(** Some row of [exam_attempts], whatever its status, is for this pair. *)
Definition has_attempt (s : Store) (studentId examId : Z) : Prop :=
  exists a, In a (attempts s)
            /\ a_studentId a = studentId /\ a_examId a = examId.

(** The handler's local variables at [await import('@/lib/db')] in
    [POST]. *)
Record Suspended := mkSuspended {
  sus_user : PublicUser;
  sus_exam : Exam;
  sus_now : Z
}.

Section WithLibraries.

(** [jwt.verify] at the time of the request; [JSON.parse] on a stored
    [options] text ([None] when it throws); the order in which
    [examQuestions.sort(() => Math.random() - 0.5)] leaves the array;
    [Number.prototype.toString]. *)
Variable jwt_verify : string -> option JWTPayload.
Variable JSON_parse : string -> option (list string).
Variable shuffle : list QuestionJson -> list QuestionJson.
Variable Number_toString : float -> string.

(** [q.options ? JSON.parse(q.options) : []]. *)
Definition parse_options (o : option string) : option (list string) :=
  match o with
  | None => Some []
  | Some text => if String.eqb text "" then Some [] else JSON_parse text
  end.

(** The object literal with the seven picked keys. *)
Definition for_student (q : Question) : option QuestionJson :=
  opts ← parse_options (options q);
  Some (StudentQuestion (q_id q) (questionText q) (questionType q) opts
                        (points q) (imageUrl q) (order q)).

(** [{ ...q, options: ... }]. *)
Definition with_answers (q : Question) : option QuestionJson :=
  opts ← parse_options (options q);
  Some (FullQuestion q opts).

(** [token ? getUserFromToken(token) : null] on the token of the header
    or, failing that, of the cookie. *)
Definition current_user (s : Store) (request : Request) : option PublicUser :=
  let token := or_else (extractTokenFromHeaders (authorization request))
                       (cookie_auth_token request) in
  if falsy token then None
  else getUserFromToken jwt_verify s (default "" token).

(** [GET /api/exams/[id]]. *)
Definition GET (s : Store) (request : Request) (examId : Z) : Response :=
  let includeQuestions_ := param_is_true (includeQuestions request) in
  let includeAnswers_ := param_is_true (includeAnswers request) in
  match current_user s request with
  | None => fail 401 "Authentication required"
  | Some user =>
      match examQueries.findById s examId with
      | None => fail 404 "Exam not found"
      | Some exam =>
          if negb (canAccessExam user (Some (teacherId exam)))
          then fail 403 "Unauthorized to access this exam"
          else if includeQuestions_
          then
            let questions_ := questionQueries.findByExam s examId in
            let mapped :=
              if Role_eqb (pu_role user) student && negb includeAnswers_
              then mapM for_student questions_
              else mapM with_answers questions_ in
            match mapped with
            | None => fail 500 "Failed to retrieve exam"
            | Some qs =>
                mkResponse 200 true "Exam retrieved successfully"
                           (Some (ExamData exam (Some qs)))
            end
          else mkResponse 200 true "Exam retrieved successfully"
                          (Some (ExamData exam None))
      end
  end.

(** [POST /api/exams/[id]] up to [await import('@/lib/db')]: either an
    early response, or the locals the rest of the handler resumes with. *)
Definition POST_until_import (s : Store) (request : Request) (examId : Z)
    : Response + Suspended :=
  match current_user s request with
  | None => inl (fail 403 "Student access required")
  | Some user =>
      if negb (Role_eqb (pu_role user) student)
      then inl (fail 403 "Student access required")
      else
        match examQueries.findById s examId with
        | None => inl (fail 404 "Exam not found")
        | Some exam =>
            if negb (isActive exam)
            then inl (fail 400 "This exam is not active")
            else if now request <? startTime exam
            then inl (fail 400 "Exam has not started yet")
            else if endTime exam <? now request
            then inl (fail 400 "Exam has ended")
            else inr (mkSuspended user exam (now request))
        end
  end.

(** The rest of [POST]: the lookup of an existing attempt, the insert,
    the response.  No [await] separates the lookup from the insert. *)
Definition POST_after_import (request : Request) (examId : Z)
    (k : Suspended) : Exec Response :=
  fun s =>
    let user := sus_user k in
    let exam := sus_exam k in
    match attemptQueries.findByStudentAndExam s (pu_id user) examId with
    | Some existingAttempt => Returned s (already_taken existingAttempt)
    | None =>
        let clientIP := clientIP_of request in
        let userAgent := or_unknown (user_agent request) in
        (attemptId_ <- run (fun s => attemptQueries.createAttempt s examId
                                       (pu_id user) (sus_now k) clientIP
                                       userAgent) ;;
         fun s =>
           let questions_ := questionQueries.findByExam s examId in
           match mapM for_student questions_ with
           | None => Thrown s SyntaxError
           | Some examQuestions =>
               let examQuestions :=
                 if shuffleQuestions exam then shuffle examQuestions
                 else examQuestions in
               Returned s
                 (mkResponse 200 true "Exam attempt started successfully"
                    (Some (StartData attemptId_
                             (mkExamSummary (exam_id exam) (title exam)
                                (description exam) (duration exam)
                                (totalQuestions exam))
                             examQuestions (sus_now k))))
           end) s
    end.

Definition POST (s : Store) (request : Request) (examId : Z)
    : Store * Response :=
  match POST_until_import s request examId with
  | inl early => (s, early)
  | inr k =>
      try_catch (POST_after_import request examId k)
                (fail 500 "Failed to start exam") s
  end.

(** [PUT /api/exams/[id]] from "Get exam and questions" on: the scoring
    loop, the update of the attempt, the insert of the result, the
    response. *)
Definition PUT_record (request : Request) (examId : Z) (user : PublicUser)
    (body : SubmitBody) (attemptId_ : Z) (answers_ : gmap Z JsValue)
    : Exec Response :=
  fun s =>
    let exam := examQueries.findById s examId in
    let questions_ := questionQueries.findByExam s examId in
    (t <- score_questions Number_toString attemptId_ answers_ questions_
            (mkTally 0 0 0 0 0) ;;
     let percentage_ := percentage_of (totalScore t) (totalPoints t) in
     match exam with
     | None => throw TypeError
     | Some exam =>
         let passed_ :=
           Number.ge percentage_ (Number.of_Z (passingScore exam)) in
         let grade_ := getGrade percentage_ in
         _ <- run (fun s =>
                attemptQueries.updateAttempt s (now request) completed
                  (totalScore t) (totalPoints t) percentage_
                  (or_zero (timeSpent body)) attemptId_) ;;
         resultId_ <- run_bound (fun s =>
                resultQueries.createResult s attemptId_ (pu_id user) examId
                  (totalScore t) (totalPoints t) percentage_ grade_ passed_
                  (or_zero (timeSpent body)) (correctAnswers t)
                  (wrongAnswers t) (skippedAnswers t)
                  (if passed_
                   then "Selamat! Anda lulus ujian ini."
                   else "Maaf, Anda belum lulus ujian ini. Silakan belajar lebih giat.")) ;;
         ret (mkResponse 200 true "Exam submitted successfully"
                (Some (SubmitResult
                   (mkSubmitData resultId_ (totalScore t) (totalPoints t)
                      (round2 percentage_) grade_ passed_ (correctAnswers t)
                      (wrongAnswers t) (skippedAnswers t)))))
     end) s.

(** The [try] block of [PUT /api/exams/[id]]: the checks, then
    [PUT_record]. *)
Definition PUT_body (request : Request) (examId : Z) : Exec Response :=
  fun s =>
    match current_user s request with
    | None => Returned s (fail 403 "Student access required")
    | Some user =>
        if negb (Role_eqb (pu_role user) student)
        then Returned s (fail 403 "Student access required")
        else
          match json request with
          | None => Thrown s SyntaxError
          | Some body =>
              match attemptId body, answers body with
              | Some attemptId_, Some answers_ =>
                  if attemptId_ =? 0
                  then Returned s
                         (fail 400 "Attempt ID and answers are required")
                  else
                    match attemptQueries.findById s attemptId_ with
                    | None => Returned s (fail 400 "Invalid attempt")
                    | Some attempt =>
                        if negb (a_studentId attempt =? pu_id user)
                           || negb (a_examId attempt =? examId)
                        then Returned s (fail 400 "Invalid attempt")
                        else if negb (AttemptStatus_eqb (a_status attempt)
                                                        in_progress)
                        then Returned s (fail 400 "Attempt already completed")
                        else PUT_record request examId user body attemptId_
                                        answers_ s
                    end
              | _, _ =>
                  Returned s (fail 400 "Attempt ID and answers are required")
              end
          end
    end.

Definition PUT (s : Store) (request : Request) (examId : Z)
    : Store * Response :=
  try_catch (PUT_body request examId) (fail 500 "Failed to submit exam") s.

(** *** Requests in flight

    A handler runs without interruption from one [await] to the next.
    [POST] has one [await], so a start request is in one of three
    phases, and the server advances one request by one segment at a
    time, in any order. *)

Inductive Phase :=
| Arrived
| AtImport (k : Suspended)
| Responded (r : Response).

Record Task := mkTask {
  task_request : Request;
  task_examId : Z;
  task_phase : Phase
}.

Definition advance (s : Store) (t : Task) : Store * Task :=
  match task_phase t with
  | Arrived =>
      match POST_until_import s (task_request t) (task_examId t) with
      | inl early => (s, mkTask (task_request t) (task_examId t)
                                (Responded early))
      | inr k => (s, mkTask (task_request t) (task_examId t) (AtImport k))
      end
  | AtImport k =>
      let '(s', r) := try_catch (POST_after_import (task_request t)
                                   (task_examId t) k)
                                (fail 500 "Failed to start exam") s in
      (s', mkTask (task_request t) (task_examId t) (Responded r))
  | Responded _ => (s, t)
  end.

(** Task number [i] runs its next segment. *)
Fixpoint step (i : nat) (s : Store) (ts : list Task) : Store * list Task :=
  match ts, i with
  | [], _ => (s, [])
  | t :: rest, O => let '(s', t') := advance s t in (s', t' :: rest)
  | t :: rest, S j => let '(s', rest') := step j s rest in (s', t :: rest')
  end.

Fixpoint run_schedule (schedule : list nat) (s : Store) (ts : list Task)
    : Store * list Task :=
  match schedule with
  | [] => (s, ts)
  | i :: later => let '(s', ts') := step i s ts in run_schedule later s' ts'
  end.

End WithLibraries.

Definition responded (t : Task) : option Response :=
  match task_phase t with
  | Responded r => Some r
  | _ => None
  end.

Definition arrive (examId : Z) (request : Request) : Task :=
  mkTask request examId Arrived.

End ExamRoute.

(* ===================================================================== *)
(** ** The scoring rule of the specification, in exact arithmetic         *)
(* ===================================================================== *)

Module ScoringSpec.
Import ExamRoute.

(** "If the submitted answer is missing or empty, count as skipped with
    zero points; otherwise compare the submitted value's string form to the
    question's canonical correct-answer string and award the full question
    weight on match, zero otherwise." *)
Definition skipped (submitted : option JsValue) : bool :=
  match submitted with
  | None => true
  | Some (JsString s) => String.eqb s ""
  | Some _ => false
  end.

Section StringForm.

(** The string form of a number. *)
Variable Number_toString : float -> string.

Definition matches (q : Question) (submitted : option JsValue) : bool :=
  match submitted ≫= toString Number_toString with
  | Some str => String.eqb str (correctAnswer q)
  | None => false
  end.

Definition earned (q : Question) (submitted : option JsValue) : Z :=
  if skipped submitted then 0
  else if matches q submitted then points q else 0.

Definition b2z (b : bool) : Z := if b then 1 else 0.

(** The five totals over a question list. *)
Fixpoint tally (questions_ : list Question) (answers_ : gmap Z JsValue)
    : Tally :=
  match questions_ with
  | [] => mkTally 0 0 0 0 0
  | q :: rest =>
      let t := tally rest answers_ in
      let a := answers_ !! q_id q in
      mkTally (totalScore t + earned q a)
              (totalPoints t + points q)
              (correctAnswers t + b2z (negb (skipped a) && matches q a))
              (wrongAnswers t + b2z (negb (skipped a) && negb (matches q a)))
              (skippedAnswers t + b2z (skipped a))
  end.

End StringForm.

(** "percentage = 100 x totalScore / totalPoints, defined as 0 when
    totalPoints = 0", as a fraction of integers: numerator and
    denominator. *)
Definition percentage (totalScore_ totalPoints_ : Z) : Z * Z :=
  if 0 <? totalPoints_ then (100 * totalScore_, totalPoints_) else (0, 1).

(** [percentage >= threshold] on that fraction. *)
Definition at_least (p : Z * Z) (threshold : Z) : bool :=
  threshold * snd p <=? fst p.

(** "passed = percentage >= exam.passingScore". *)
Definition passed (totalScore_ totalPoints_ passingScore_ : Z) : bool :=
  at_least (percentage totalScore_ totalPoints_) passingScore_.

(** "Grade thresholds (inclusive lower bounds)". *)
Definition grade (totalScore_ totalPoints_ : Z) : string :=
  let p := percentage totalScore_ totalPoints_ in
  if at_least p 90 then "A"
  else if at_least p 80 then "B"
  else if at_least p 70 then "C"
  else if at_least p 60 then "D"
  else "E".

End ScoringSpec.

(* ===================================================================== *)
(** ** Attempts and results over the life of the store                    *)
(* ===================================================================== *)

Module Lifecycle.
Import Db ExamRoute.

(** "A Result exists iff its Attempt is completed." *)
Definition result_iff_completed (s : Store) : Prop :=
  forall a, In a (attempts s) ->
    (exists r, In r (results s) /\ r_attemptId r = a_id a)
    <-> a_status a = completed.

(** One half of it: a Result exists for an Attempt only if the Attempt is
    completed. *)
Definition results_of_completed (s : Store) : Prop :=
  forall a, In a (attempts s) ->
    (exists r, In r (results s) /\ r_attemptId r = a_id a) ->
    a_status a = completed.

(** What the foreign key of [exam_results] and the AUTOINCREMENT counter of
    [exam_attempts] maintain. *)
Definition results_reference_attempts (s : Store) : Prop :=
  forall r, In r (results s) ->
    exists a, In a (attempts s) /\ a_id a = r_attemptId r.

Definition attempt_ids_issued (s : Store) : Prop :=
  forall a, In a (attempts s) -> a_id a <= attempts_seq s.

Record consistent (s : Store) : Prop := mkConsistent {
  cons_results : results_of_completed s;
  cons_references : results_reference_attempts s;
  cons_ids : attempt_ids_issued s
}.

(** The stores that starts and submissions lead to from [s0], whatever
    the storage layer does with their writes. *)
Inductive reaches (s0 : Store) : Store -> Prop :=
| reaches_here : reaches s0 s0
| reaches_start (jwt_verify : string -> option Auth.JWTPayload)
    (JSON_parse : string -> option (list string))
    (shuffle : list QuestionJson -> list QuestionJson)
    (s : Store) (request : Request) (examId : Z) :
    reaches s0 s ->
    reaches s0 (fst (POST jwt_verify JSON_parse shuffle s request examId))
| reaches_submit (jwt_verify : string -> option Auth.JWTPayload)
    (Number_toString : float -> string)
    (s : Store) (request : Request) (examId : Z) :
    reaches s0 s ->
    reaches s0 (fst (PUT jwt_verify Number_toString s request examId)).

(** What [updateAttempt] makes of the row with id [aid], and of the
    others. *)
Definition complete (aid endTime_ score_ totalPoints_ : Z) (percentage_ : float)
    (timeSpent_ : Z) (a : ExamAttempt) : ExamAttempt :=
  if a_id a =? aid
  then mkAttempt (a_id a) (a_examId a) (a_studentId a) (a_startTime a)
                 (Some endTime_) completed (Some score_) (Some totalPoints_)
                 (Some percentage_) timeSpent_ (a_ipAddress a) (a_userAgent a)
  else a.

(** A submission that passes every check of [PUT]: made by the student of
    an in-progress attempt of this exam. *)
Record passes_checks (jwt_verify : string -> option Auth.JWTPayload)
    (s : Store) (request : Request) (examId : Z) (user : PublicUser)
    (body : SubmitBody) (aid : Z) (submitted : gmap Z JsValue)
    (attempt : ExamAttempt) : Prop := mkPassesChecks {
  chk_user : current_user jwt_verify s request = Some user;
  chk_role : pu_role user = student;
  chk_body : json request = Some body;
  chk_id : attemptId body = Some aid;
  chk_nonzero : aid <> 0;
  chk_answers : ExamRoute.answers body = Some submitted;
  chk_attempt : attemptQueries.findById s aid = Some attempt;
  chk_student : a_studentId attempt = pu_id user;
  chk_exam : a_examId attempt = examId;
  chk_status : a_status attempt = in_progress
}.

End Lifecycle.

(* ===================================================================== *)
(** ** Counting the outcomes of starts in flight                          *)
(* ===================================================================== *)

Module Concurrency.
Import Db ExamRoute.

Definition has_responded (t : Task) : bool :=
  match responded t with
  | Some _ => true
  | None => false
  end.

Definition is_success (t : Task) : bool :=
  match responded t with
  | Some r => success r
  | None => false
  end.

(** The task was answered 400 "You have already taken this exam". *)
Definition is_conflict (t : Task) : bool :=
  match responded t with
  | Some r => negb (success r) && (status r =? 400)
              && String.eqb (message r) "You have already taken this exam"
  | None => false
  end.

Definition count (p : Task -> bool) (ts : list Task) : nat :=
  List.length (List.filter p ts).

Definition for_pair (studentId examId : Z) (a : ExamAttempt) : bool :=
  (a_studentId a =? studentId) && (a_examId a =? examId).

(** The number of rows of [exam_attempts] for a (student, exam) pair. *)
Definition rows_for (s : Store) (studentId examId : Z) : nat :=
  List.length (List.filter (for_pair studentId examId) (attempts s)).

Section OnePair.

(** The store the requests arrive at, and the student and the exam they
    are all for. *)
Variable jwt_verify : string -> option Auth.JWTPayload.
Variable s0 : Store.
Variable user : PublicUser.
Variable exam : Exam.
Variable examId : Z.

(** A request of that student, made inside the window of the exam. *)
Definition admissible (request : Request) : Prop :=
  current_user jwt_verify s0 request = Some user
  /\ startTime exam <= now request <= endTime exam.

Definition good_store (s : Store) : Prop :=
  users s = users s0 /\ exams s = exams s0 /\ questions s = questions s0
  /\ io_budget s = None.

Definition good_task (t : Task) : Prop :=
  task_examId t = examId
  /\ admissible (task_request t)
  /\ match task_phase t with
     | Arrived => True
     | AtImport k => k = mkSuspended user exam (now (task_request t))
     | Responded r => xorb (is_success t) (is_conflict t) = true
     end.

(** What holds between the store and the tasks at every moment: each row
    of the pair was inserted by the one task that succeeded, and nobody has
    been answered while the pair has no row. *)
Definition balanced (s : Store) (ts : list Task) : Prop :=
  good_store s
  /\ Forall good_task ts
  /\ count is_success ts = rows_for s (pu_id user) examId
  /\ (rows_for s (pu_id user) examId <= 1)%nat
  /\ (rows_for s (pu_id user) examId = 0%nat -> count has_responded ts = 0%nat).

End OnePair.

End Concurrency.

(* ===================================================================== *)
(** ** What the attempt table keeps                                       *)
(* ===================================================================== *)

Module Ledger.
Import Db.

(** At most one row of [exam_attempts] for each (student, exam) pair. *)
Definition one_attempt_per_pair (s : Store) : Prop :=
  forall studentId examId,
    (Concurrency.rows_for s studentId examId <= 1)%nat.

Definition attempt_ids_distinct (s : Store) : Prop :=
  List.NoDup (List.map a_id (attempts s)).

(** What a store keeps of its attempts: one per pair, under distinct ids
    that the AUTOINCREMENT counter has issued. *)
Record sound (s : Store) : Prop := mkSound {
  snd_pairs : one_attempt_per_pair s;
  snd_ids : attempt_ids_distinct s;
  snd_issued : Lifecycle.attempt_ids_issued s
}.

End Ledger.

(* ===================================================================== *)
(** ** Sample data                                                        *)
(* ===================================================================== *)

Module Sample.
Import Db Auth.

(** Stand-ins for the libraries, used to evaluate the handlers. *)
Definition bcrypt_hash (password_ : string) : string :=
  String.append "$2a$12$" password_.
Definition bcrypt_compare (password_ hashedPassword : string) : bool :=
  String.eqb (bcrypt_hash password_) hashedPassword.
Definition jwt_sign (p : JWTPayload) : string :=
  String.append "jwt." (pretty (userId p)).
Definition jwt_verify (token : string) : option JWTPayload :=
  if String.eqb token "jwt.1" then Some (mkJWTPayload 1 "admin" "admin")
  else if String.eqb token "jwt.2" then Some (mkJWTPayload 2 "teacher1" "teacher")
  else if String.eqb token "jwt.3" then Some (mkJWTPayload 3 "siswa1" "student")
  else if String.eqb token "jwt.4" then Some (mkJWTPayload 4 "siswa2" "student")
  else None.
Definition JSON_parse (text : string) : option (list string) := Some [text].
Definition shuffle (l : list ExamRoute.QuestionJson) := rev l.

(** The decimal numeral of the integer part; right on the integers below
    2^53 in absolute value. *)
Definition Number_toString (x : float) : string :=
  match Prim2SF x with
  | S754_zero _ => "0"
  | S754_finite sgn m e =>
      let n := if 0 <=? e then Z.pos m * 2 ^ e else Z.pos m / 2 ^ (- e) in
      String.append (if sgn then "-" else "") (pretty n)
  | S754_infinity sgn => if sgn then "-Infinity" else "Infinity"
  | S754_nan => "NaN"
  end.

(** The rows [seedDatabase] inserts: the administrator, one teacher, four
    students, one exam of five questions worth 10 points each, open for
    seven days from [t0]. *)
Definition seed_users : list User :=
  [ mkUser 1 "admin" "admin@school.com" (bcrypt_hash "admin123") admin
           "Administrator" None None "t0" "t0";
    mkUser 2 "teacher1" "teacher@school.com" (bcrypt_hash "teacher123") teacher
           "Budi Santoso" None (Some "Matematika") "t0" "t0";
    mkUser 3 "siswa1" "siswa1@school.com" (bcrypt_hash "student123") student
           "Andi Wijaya" (Some "10A") None "t0" "t0";
    mkUser 4 "siswa2" "siswa2@school.com" (bcrypt_hash "student123") student
           "Sari Dewi" (Some "10A") None "t0" "t0";
    mkUser 5 "siswa3" "siswa3@school.com" (bcrypt_hash "student123") student
           "Rizki Pratama" (Some "10B") None "t0" "t0";
    mkUser 6 "siswa4" "siswa4@school.com" (bcrypt_hash "student123") student
           "Maya Sari" (Some "10B") None "t0" "t0" ].

Definition t0 : Z := 1700000000000.
Definition week : Z := 7 * 24 * 60 * 60 * 1000.

Definition seed_exam (passingScore_ : Z) : Exam :=
  mkExam 1 "Ujian Matematika - Aljabar"
         "Ujian tentang konsep dasar aljabar untuk kelas 10" "Matematika"
         2 90 5 passingScore_ t0 (t0 + week) true true false.

Definition seed_question (n : Z) (answer : string) (points_ : Z) : Question :=
  mkQuestion n 1 "soal" multiple_choice (Some "[]") answer points_ None None n.

Definition seed_questions : list Question :=
  [ seed_question 1 "1" 10; seed_question 2 "1" 10; seed_question 3 "0" 10;
    seed_question 4 "0" 10; seed_question 5 "0" 10 ].

Definition seeded : Store :=
  mkStore seed_users 6 [seed_exam 70] seed_questions [] 0 [] 0 [] 0 "t0" None.

(** The seeded store with an exam whose passing score is 57 and whose two
    questions are worth 57 and 43 points. *)
Definition store57 : Store :=
  mkStore seed_users 6 [seed_exam 57]
          [seed_question 1 "1" 57; seed_question 2 "0" 43]
          [] 0 [] 0 [] 0 "t0" None.

(** The seeded store before any question has been added to the exam. *)
Definition without_questions : Store :=
  mkStore seed_users 6 [seed_exam 70] [] [] 0 [] 0 [] 0 "t0" None.

(** The same, with the completed attempt of [siswa2] and its result. *)
Definition with_history : Store :=
  mkStore seed_users 6 [seed_exam 70] []
          [mkAttempt 1 1 4 t0 (Some (t0 + 5000)) completed (Some 0) (Some 0)
                     (Some 0%float) 5 "unknown" "unknown"] 1
          [] 0
          [mkResult 1 1 4 1 0 0 0%float "E" false 5 0 0 0 "Maaf"] 1
          "t0" None.

Definition attempt_of (status_ : AttemptStatus) : ExamAttempt :=
  mkAttempt 1 1 3 t0 None status_ None None None 0 "unknown" "unknown".

Definition with_attempt (s : Store) (a : ExamAttempt) : Store :=
  mkStore (users s) (users_seq s) (exams s) (questions s) [a] (a_id a)
          (answers s) (answers_seq s) (results s) (results_seq s) (clock s)
          (io_budget s).

(** A request of student [siswa1] (id 3) one second after the exam opened. *)
Definition request_of_siswa1 (body : option ExamRoute.SubmitBody)
    : ExamRoute.Request :=
  ExamRoute.mkRequest (Some "Bearer jwt.3") None None None None None None
                      body (t0 + 1000).

(** The same student fetching the exam with
    [?includeQuestions=true&includeAnswers=true]. *)
Definition fetch_with_answers : ExamRoute.Request :=
  ExamRoute.mkRequest (Some "Bearer jwt.3") None None None None
                      (Some "true") (Some "true") None (t0 + 1000).

(** A submission of [siswa1] for attempt 1 that answers question 1 with
    the number 1 and question 2 with the text "1". *)
Definition submitted_answers : gmap Z ExamRoute.JsValue :=
  {[ 1 := ExamRoute.JsNumber 1%float; 2 := ExamRoute.JsString "1" ]}.

Definition submission : ExamRoute.Request :=
  request_of_siswa1
    (Some (ExamRoute.mkSubmitBody (Some 1) (Some submitted_answers)
                                  (Some 120))).

(** The same student asking for the questions only. *)
Definition fetch_without_answers : ExamRoute.Request :=
  ExamRoute.mkRequest (Some "Bearer jwt.3") None None None None
                      (Some "true") None None (t0 + 1000).

(** Three starts of [siswa1] for exam 1, one millisecond apart. *)
Definition three_starts : list ExamRoute.Request :=
  [ ExamRoute.mkRequest (Some "Bearer jwt.3") None None None None None None
                        None (t0 + 1000);
    ExamRoute.mkRequest (Some "Bearer jwt.3") None None None None None None
                        None (t0 + 1001);
    ExamRoute.mkRequest None (Some "jwt.3") None None None None None
                        None (t0 + 1002) ].

End Sample.

(* ===================================================================== *)
(** * Properties                                                          *)
(* ===================================================================== *)

(** ** Lookups in a table *)

Module TableFacts.

Lemma find_none_existsb {A} (f : A -> bool) (l : list A) :
  find f l = None -> existsb f l = false.
Proof.
  induction l as [|x l IH]; simpl; [reflexivity|].
  destruct (f x); [discriminate|]. exact IH.
Qed.

Lemma find_some_existsb {A} (f : A -> bool) (l : list A) (x : A) :
  find f l = Some x -> existsb f l = true.
Proof.
  intros H. apply find_some in H. apply existsb_exists. exists x. exact H.
Qed.

End TableFacts.

(** ** Access policy *)

Module PolicyFacts.
Import Policy.

Lemma Role_eqb_eq (a b : Role) : Role_eqb a b = true <-> a = b.
Proof. destruct a, b; simpl; split; congruence. Qed.

(** C7. [canManageExam] answers true exactly for an administrator, whoever
    owns the exam, and for the teacher whose id is the owner id; it
    answers false for every other teacher and for every student. *)
Theorem canManageExam_spec (user : PublicUser) (owner : option Z) :
  canManageExam user owner = true <->
  pu_role user = admin \/ (pu_role user = teacher /\ owner = Some (pu_id user)).
Proof.
  unfold canManageExam, isAdmin, isTeacher, teacherId_is.
  destruct (pu_role user) eqn:Hrole; simpl.
  - split; auto.
  - destruct owner as [t|].
    + destruct (Z.eqb_spec t (pu_id user)) as [->|Hne].
      * split; auto.
      * split; [discriminate|].
        intros [H|[_ H]]; [discriminate|congruence].
    + split; [discriminate|]. intros [H|[_ H]]; discriminate.
  - split; [discriminate|]. intros [H|[H _]]; discriminate.
Qed.

End PolicyFacts.

(** ** Login *)

Module LoginFacts.
Import Db Auth AuthRoute.

Lemma falsy_Some (v : string) : v <> "" -> falsy (Some v) = false.
Proof.
  intros H. unfold falsy. destruct (String.eqb_spec v ""); congruence.
Qed.

(** C9. When both fields are present, a login that fails because the
    username is unknown and a login that fails because the password is
    wrong for a known username receive the same response: status 401 with
    the one message "Invalid username or password". *)
Theorem login_failures_identical
    (jwt_sign : JWTPayload -> string)
    (bcrypt_compare : string -> string -> bool)
    (s : Store) (u1 p1 u2 p2 : string) (user : User) :
  u1 <> "" -> p1 <> "" -> u2 <> "" -> p2 <> "" ->
  userQueries.findByUsername s u1 = None ->
  userQueries.findByUsername s u2 = Some user ->
  bcrypt_compare p2 (password user) = false ->
  handleLogin jwt_sign bcrypt_compare s
              (mkLoginCredentials (Some u1) (Some p1))
  = handleLogin jwt_sign bcrypt_compare s
                (mkLoginCredentials (Some u2) (Some p2))
  /\ handleLogin jwt_sign bcrypt_compare s
                 (mkLoginCredentials (Some u2) (Some p2))
     = fail 401 "Invalid username or password".
Proof.
  intros Hu1 Hp1 Hu2 Hp2 Hunknown Hknown Hwrong.
  unfold handleLogin, authenticateUser, comparePassword.
  cbn [cred_username cred_password].
  rewrite !falsy_Some by assumption.
  rewrite Hunknown, Hknown, Hwrong. split; reflexivity.
Qed.

Lemma login_failures_identical_witness :
  handleLogin Sample.jwt_sign Sample.bcrypt_compare Sample.seeded
              (mkLoginCredentials (Some "nobody") (Some "student123"))
  = handleLogin Sample.jwt_sign Sample.bcrypt_compare Sample.seeded
                (mkLoginCredentials (Some "siswa1") (Some "salah999"))
  /\ handleLogin Sample.jwt_sign Sample.bcrypt_compare Sample.seeded
                 (mkLoginCredentials (Some "siswa1") (Some "salah999"))
     = fail 401 "Invalid username or password".
Proof.
  apply (login_failures_identical Sample.jwt_sign Sample.bcrypt_compare
           Sample.seeded "nobody" "student123" "siswa1" "salah999"
           (mkUser 3 "siswa1" "siswa1@school.com"
                   (Sample.bcrypt_hash "student123") student "Andi Wijaya"
                   (Some "10A") None "t0" "t0"));
    solve [ discriminate | reflexivity ].
Defined.

(** The half of the token round trip that rests on the sources alone: if
    the library verifies what it has just signed, and the row found by
    username is the row of its id, the token of a successful login
    resolves to the identity the login returned.  What [jwt.verify] makes
    of a token with one bit flipped is a property of the library. *)
Lemma login_token_resolves
    (jwt_sign : JWTPayload -> string)
    (jwt_verify : string -> option JWTPayload)
    (bcrypt_compare : string -> string -> bool)
    (s : Store) (u p : string) (user : User) :
  (forall payload, jwt_verify (jwt_sign payload) = Some payload) ->
  u <> "" -> p <> "" ->
  userQueries.findByUsername s u = Some user ->
  userQueries.findById s (id user) = Some user ->
  bcrypt_compare p (password user) = true ->
  exists token,
    authenticateUser jwt_sign bcrypt_compare s
                     (mkLoginCredentials (Some u) (Some p))
    = mkAuthResponse true (Some (userWithoutPassword user)) (Some token)
                     "Login successful"
    /\ getUserFromToken jwt_verify s token = Some (userWithoutPassword user).
Proof.
  intros Hlib Hu Hp Hname Hid Hpw.
  exists (generateToken jwt_sign (userWithoutPassword user)). split.
  - unfold authenticateUser, comparePassword.
    cbn [cred_username cred_password].
    rewrite !falsy_Some by assumption. rewrite Hname, Hpw. reflexivity.
  - unfold getUserFromToken, verifyToken, generateToken.
    rewrite Hlib. cbn [userId userWithoutPassword pu_id].
    rewrite Hid. reflexivity.
Qed.

End LoginFacts.

(** ** Registration *)

Module RegisterFacts.
Import TableFacts Db Auth AuthRoute.

Lemma createUser_accepts (s : Store) (un em pw ro fn : string) (r : Role)
    (class_ subject_ : option string) :
  io_budget s <> Some 0%nat ->
  role_of_string ro = Some r ->
  userQueries.findByUsername s un = None ->
  userQueries.findByEmail s em = None ->
  exists s',
    userQueries.createUser s (Some un) (Some em) (Some pw) (Some ro) (Some fn)
                           class_ subject_ = inr (s', users_seq s + 1)
    /\ users s' = (users s ++ [mkUser (users_seq s + 1) un em pw r fn class_
                                      subject_ (clock s) (clock s)])%list.
Proof.
  intros Hio Hrole Nun Nem.
  unfold userQueries.findByUsername in Nun.
  unfold userQueries.findByEmail in Nem.
  apply find_none_existsb in Nun. apply find_none_existsb in Nem.
  unfold userQueries.createUser, write.
  destruct (io_budget s) as [[|n]|] eqn:E; [congruence| |];
    cbn [set_io users users_seq clock]; rewrite Hrole, Nun, Nem;
    cbn [orb]; eexists; split; reflexivity.
Qed.

(** C10 as stated fails: a request whose username, email and password pass
    the validators and collide with nobody is answered 500, and no user is
    created, when its role is not one the [users] table allows. *)
Lemma register_unknown_role_rejected :
  let request := register_request "budi_2" "budi@school.com" "rahasia1"
                                  "principal" (Some "Budi") in
  isValid (validateUsername "budi_2") = true
  /\ validateEmail "budi@school.com" = true
  /\ isValid (validatePassword "rahasia1") = true
  /\ userQueries.findByUsername Sample.seeded "budi_2" = None
  /\ userQueries.findByEmail Sample.seeded "budi@school.com" = None
  /\ POST Sample.jwt_sign Sample.jwt_verify Sample.bcrypt_hash
          Sample.bcrypt_compare Sample.seeded request
     = (Sample.seeded, fail 500 "Registration failed").
Proof. vm_compute. repeat split. Qed.

(** C10, amended. A registration request whose username, email and
    password pass the validators and collide with no existing user, whose
    role is one of admin, teacher and student and whose full name is
    present, creates the user with the role of the request and succeeds,
    provided the store accepts the insert; the handler never looks at the
    caller's token, so the outcome is the same whatever Authorization
    header or cookie the request carries. *)
Theorem register_needs_no_identity
    (jwt_sign : JWTPayload -> string)
    (jwt_verify : string -> option JWTPayload)
    (bcrypt_hash : string -> string)
    (bcrypt_compare : string -> string -> bool)
    (s : Store) (request : Request) (un em pw ro fn : string) (r : Role) :
  action request = Some "register" ->
  data_username request = Some un ->
  data_email request = Some em ->
  data_password request = Some pw ->
  data_role request = Some ro ->
  data_fullName request = Some fn ->
  isValid (validateUsername un) = true ->
  validateEmail em = true ->
  isValid (validatePassword pw) = true ->
  userQueries.findByUsername s un = None ->
  userQueries.findByEmail s em = None ->
  role_of_string ro = Some r ->
  io_budget s <> Some 0%nat ->
  let post := POST jwt_sign jwt_verify bcrypt_hash bcrypt_compare s in
  snd (post request)
  = mkResponse 200 true "User created successfully" None None None
               (Some (users_seq s + 1)) None
  /\ users (fst (post request))
     = (users s ++ [mkUser (users_seq s + 1) un em (bcrypt_hash pw) r fn
                           (or_null (data_class request))
                           (or_null (data_subject request))
                           (clock s) (clock s)])%list
  /\ forall authorization' cookie',
       post (with_token authorization' cookie' request) = post request.
Proof.
  intros Hact Hun Hem Hpw Hro Hfn Vun Vem Vpw Nun Nem Hrole Hio post.
  assert (Hreg : forall req, action req = Some "register" ->
            post req = handleRegister bcrypt_hash s req).
  { intros req H. unfold post, POST. rewrite H. reflexivity. }
  destruct (createUser_accepts s un em (hashPassword bcrypt_hash pw) ro fn r
              (or_null (data_class request)) (or_null (data_subject request))
              Hio Hrole Nun Nem) as (s' & Hcreate & Husers).
  assert (Hpost : post request
                  = (s', mkResponse 200 true "User created successfully" None
                                    None None (Some (users_seq s + 1)) None)).
  { rewrite (Hreg request Hact). unfold handleRegister.
    rewrite Hun, Hem, Hpw, Hro, Hfn. cbn [text_of].
    rewrite Vun, Vem, Vpw, Nun, Nem. cbn [negb].
    rewrite Hcreate. reflexivity. }
  split; [|split].
  - rewrite Hpost. reflexivity.
  - rewrite Hpost. exact Husers.
  - intros a c. rewrite !Hreg by (simpl; assumption). reflexivity.
Qed.

Lemma register_needs_no_identity_witness :
  let post := POST Sample.jwt_sign Sample.jwt_verify Sample.bcrypt_hash
                   Sample.bcrypt_compare Sample.seeded in
  let request := register_request "budi_2" "budi@school.com" "rahasia1"
                                  "admin" (Some "Budi") in
  snd (post request)
  = mkResponse 200 true "User created successfully" None None None (Some 7)
               None
  /\ users (fst (post request))
     = (users Sample.seeded
        ++ [mkUser 7 "budi_2" "budi@school.com"
                   (Sample.bcrypt_hash "rahasia1") admin "Budi" None None
                   "t0" "t0"])%list
  /\ forall authorization' cookie',
       post (with_token authorization' cookie' request) = post request.
Proof.
  apply (register_needs_no_identity Sample.jwt_sign Sample.jwt_verify
           Sample.bcrypt_hash Sample.bcrypt_compare Sample.seeded
           (register_request "budi_2" "budi@school.com" "rahasia1" "admin"
                             (Some "Budi"))
           "budi_2" "budi@school.com" "rahasia1" "admin" "Budi" admin);
    solve [ reflexivity | discriminate ].
Defined.

End RegisterFacts.

(** ** Starting an attempt *)

Module StartFacts.
Import TableFacts Db Auth Policy ExamRoute.

Lemma createAttempt_accepts (s : Store) (examId studentId start : Z)
    (ipAddress userAgent : string) :
  io_budget s <> Some 0%nat ->
  existsb (fun e => exam_id e =? examId) (exams s) = true ->
  existsb (fun u => id u =? studentId) (users s) = true ->
  exists s',
    attemptQueries.createAttempt s examId studentId start ipAddress userAgent
    = inr (s', attempts_seq s + 1)
    /\ attempts s' = (attempts s
                      ++ [mkAttempt (attempts_seq s + 1) examId studentId start
                                    None in_progress None None None 0
                                    ipAddress userAgent])%list
    /\ attempts_seq s' = attempts_seq s + 1
    /\ same_catalog s s'
    /\ (io_budget s = None -> io_budget s' = None).
Proof.
  intros Hio He Hu. unfold attemptQueries.createAttempt, write.
  destruct (io_budget s) as [[|n]|] eqn:E; [congruence| |];
    cbn [set_io users exams attempts_seq]; rewrite He, Hu; cbn [andb];
    eexists; (split; [reflexivity|]); unfold same_catalog; cbn;
    repeat split; congruence.
Qed.

Section WithLibraries.

Variable jwt_verify : string -> option JWTPayload.
Variable JSON_parse : string -> option (list string).
Variable shuffle : list QuestionJson -> list QuestionJson.

Lemma current_user_in_store (s : Store) (request : Request)
    (user : PublicUser) :
  current_user jwt_verify s request = Some user ->
  existsb (fun u => id u =? pu_id user) (users s) = true.
Proof.
  unfold current_user, getUserFromToken, verifyToken.
  destruct (falsy _); [discriminate|].
  destruct (jwt_verify _) as [decoded|]; [|discriminate].
  destruct (userQueries.findById s (userId decoded)) as [u|] eqn:E;
    [|discriminate].
  intros [= <-]. unfold userQueries.findById in E.
  apply find_some in E. destruct E as [Hin Heq].
  apply existsb_exists. exists u. split; [exact Hin|].
  simpl. apply Z.eqb_refl.
Qed.

(** A student's request for an exam that exists, is active and is inside
    its window reaches the [await]. *)
Lemma POST_reaches_import (s : Store) (request : Request) (examId : Z)
    (user : PublicUser) (exam : Exam) :
  current_user jwt_verify s request = Some user ->
  pu_role user = student ->
  examQueries.findById s examId = Some exam ->
  isActive exam = true ->
  startTime exam <= now request <= endTime exam ->
  POST_until_import jwt_verify s request examId
  = inr (mkSuspended user exam (now request)).
Proof.
  intros Hu Hr He Ha [Hlo Hhi]. unfold POST_until_import.
  rewrite Hu, Hr, He, Ha. cbn [Role_eqb negb].
  destruct (Z.ltb_spec (now request) (startTime exam)); [lia|].
  destruct (Z.ltb_spec (endTime exam) (now request)); [lia|].
  reflexivity.
Qed.

Lemma findByStudentAndExam_Some (s : Store) (studentId examId : Z) :
  has_attempt s studentId examId <->
  exists a, attemptQueries.findByStudentAndExam s studentId examId = Some a.
Proof.
  unfold has_attempt, attemptQueries.findByStudentAndExam. split.
  - intros (a & Hin & Hs & He).
    destruct (find _ (attempts s)) as [b|] eqn:E; [eauto|].
    exfalso. pose proof (find_none _ _ E a Hin) as H. cbn in H.
    rewrite Hs, He, !Z.eqb_refl in H. discriminate.
  - intros (a & E). apply find_some in E. destruct E as [Hin H].
    apply andb_prop in H. destruct H as [H1 H2].
    exists a. repeat split; [exact Hin| |]; apply Z.eqb_eq; assumption.
Qed.

Lemma findByStudentAndExam_None (s : Store) (studentId examId : Z) :
  ~ has_attempt s studentId examId ->
  attemptQueries.findByStudentAndExam s studentId examId = None.
Proof.
  intros H.
  destruct (attemptQueries.findByStudentAndExam s studentId examId) eqn:E;
    [|reflexivity].
  exfalso. apply H. apply findByStudentAndExam_Some. eauto.
Qed.

(** The second segment when a row for the pair exists. *)
Lemma POST_after_import_existing (s : Store) (request : Request) (examId : Z)
    (k : Suspended) (a : ExamAttempt) :
  attemptQueries.findByStudentAndExam s (pu_id (sus_user k)) examId = Some a ->
  POST_after_import JSON_parse shuffle request examId k s
  = Returned s (already_taken a).
Proof. intros H. unfold POST_after_import. rewrite H. reflexivity. Qed.

(** The second segment when no row for the pair exists. *)
Lemma POST_after_import_fresh (s : Store) (request : Request) (examId : Z)
    (k : Suspended) (qs : list QuestionJson) :
  attemptQueries.findByStudentAndExam s (pu_id (sus_user k)) examId = None ->
  io_budget s <> Some 0%nat ->
  existsb (fun e => exam_id e =? examId) (exams s) = true ->
  existsb (fun u => id u =? pu_id (sus_user k)) (users s) = true ->
  sus_now k = now request ->
  mapM (for_student JSON_parse) (questionQueries.findByExam s examId)
  = Some qs ->
  exists s',
    POST_after_import JSON_parse shuffle request examId k s
    = Returned s'
        (mkResponse 200 true "Exam attempt started successfully"
           (Some (StartData (attempts_seq s + 1)
                    (mkExamSummary (exam_id (sus_exam k)) (title (sus_exam k))
                       (description (sus_exam k)) (duration (sus_exam k))
                       (totalQuestions (sus_exam k)))
                    (if shuffleQuestions (sus_exam k) then shuffle qs else qs)
                    (now request))))
    /\ attempts s'
       = (attempts s
          ++ [new_attempt s request examId (pu_id (sus_user k))])%list
    /\ attempts_seq s' = attempts_seq s + 1
    /\ same_catalog s s'
    /\ (io_budget s = None -> io_budget s' = None).
Proof.
  intros Hnone Hio He Hu Hnow Hqs.
  destruct (createAttempt_accepts s examId (pu_id (sus_user k)) (sus_now k)
              (clientIP_of request) (or_unknown (user_agent request))
              Hio He Hu) as (s' & Hrun & Hatt & Hseq & Hcat & Hio').
  exists s'. unfold POST_after_import. rewrite Hnone.
  unfold bind, run. rewrite Hrun.
  assert (Hq : questionQueries.findByExam s' examId
               = questionQueries.findByExam s examId).
  { unfold questionQueries.findByExam. destruct Hcat as (_ & _ & -> & _).
    reflexivity. }
  rewrite Hq, Hqs, Hnow. split; [reflexivity|].
  unfold new_attempt. rewrite <- Hnow. auto.
Qed.

(** The whole handler when a row for the pair exists. *)
Lemma POST_existing_attempt (s : Store) (request : Request) (examId : Z)
    (user : PublicUser) (exam : Exam) (a : ExamAttempt) :
  current_user jwt_verify s request = Some user ->
  pu_role user = student ->
  examQueries.findById s examId = Some exam ->
  isActive exam = true ->
  startTime exam <= now request <= endTime exam ->
  attemptQueries.findByStudentAndExam s (pu_id user) examId = Some a ->
  POST jwt_verify JSON_parse shuffle s request examId = (s, already_taken a).
Proof.
  intros Hu Hr He Ha Hw Hfind. unfold POST.
  rewrite (POST_reaches_import s request examId user exam Hu Hr He Ha Hw).
  unfold try_catch.
  rewrite (POST_after_import_existing s request examId _ a) by exact Hfind.
  reflexivity.
Qed.

(** C1, amended. For a start request of a student for an exam that exists,
    is active and whose window contains the current time, the response is
    "You have already taken this exam" exactly when some attempt row exists
    for the (student, exam) pair, whatever its status; when no row exists,
    the store accepts the insert and the stored options parse, a new
    in-progress attempt is created and the start succeeds. *)
Theorem start_conflict_iff_attempt_exists
    (s : Store) (request : Request) (examId : Z)
    (user : PublicUser) (exam : Exam) :
  current_user jwt_verify s request = Some user ->
  pu_role user = student ->
  examQueries.findById s examId = Some exam ->
  isActive exam = true ->
  startTime exam <= now request <= endTime exam ->
  let out := POST jwt_verify JSON_parse shuffle s request examId in
  ((exists a, snd out = already_taken a) <-> has_attempt s (pu_id user) examId)
  /\ (~ has_attempt s (pu_id user) examId ->
      io_budget s <> Some 0%nat ->
      mapM (for_student JSON_parse) (questionQueries.findByExam s examId)
        <> None ->
      success (snd out) = true
      /\ status (snd out) = 200
      /\ attempts (fst out)
         = (attempts s ++ [new_attempt s request examId (pu_id user)])%list).
Proof.
  intros Hu Hr He Ha Hw out.
  assert (Hexam : existsb (fun e => exam_id e =? examId) (exams s) = true).
  { unfold examQueries.findById in He. eapply find_some_existsb, He. }
  pose proof (current_user_in_store _ _ _ Hu) as Huser.
  assert (Hout : out = try_catch
                   (POST_after_import JSON_parse shuffle request examId
                      (mkSuspended user exam (now request)))
                   (fail 500 "Failed to start exam") s).
  { unfold out, POST.
    rewrite (POST_reaches_import s request examId user exam Hu Hr He Ha Hw).
    reflexivity. }
  assert (Hfresh : ~ has_attempt s (pu_id user) examId ->
            forall a, snd out <> already_taken a).
  { intros Hno a. apply findByStudentAndExam_None in Hno.
    rewrite Hout. unfold try_catch, POST_after_import. cbn [sus_user].
    rewrite Hno. unfold bind, run.
    destruct (attemptQueries.createAttempt _ _ _ _ _ _) as [e|[s' rowid]];
      [discriminate|].
    destruct (mapM _ _); discriminate. }
  split; [split|].
  - intros [a Hresp].
    destruct (attemptQueries.findByStudentAndExam s (pu_id user) examId)
      as [b|] eqn:E.
    + apply findByStudentAndExam_Some. eauto.
    + exfalso. eapply Hfresh; [|exact Hresp].
      intros H. apply findByStudentAndExam_Some in H. destruct H as [b H].
      congruence.
  - intros H. apply findByStudentAndExam_Some in H. destruct H as [a H].
    exists a. unfold out.
    rewrite (POST_existing_attempt s request examId user exam a) by assumption.
    reflexivity.
  - intros Hno Hio Hparse.
    apply findByStudentAndExam_None in Hno.
    destruct (mapM _ _) as [qs|] eqn:Hqs; [|congruence].
    destruct (POST_after_import_fresh s request examId
                (mkSuspended user exam (now request)) qs Hno Hio Hexam Huser
                eq_refl Hqs) as (s' & Hrun & Hatt & _).
    rewrite Hout. unfold try_catch. rewrite Hrun. cbn [fst snd success status].
    repeat split. exact Hatt.
Qed.

End WithLibraries.

(** C1 as stated fails: when the only attempt of the pair is abandoned,
    the start is still answered "You have already taken this exam" and no
    attempt is created. *)
Lemma start_blocked_by_abandoned_attempt :
  let s := Sample.with_attempt Sample.seeded (Sample.attempt_of abandoned) in
  Forall (fun a => a_status a = abandoned) (attempts s)
  /\ POST Sample.jwt_verify Sample.JSON_parse Sample.shuffle s
          (Sample.request_of_siswa1 None) 1
     = (s, already_taken (Sample.attempt_of abandoned)).
Proof. split; [repeat constructor | vm_compute; reflexivity]. Qed.

Lemma start_conflict_iff_attempt_exists_witness :
  let out := POST Sample.jwt_verify Sample.JSON_parse Sample.shuffle
                  Sample.seeded (Sample.request_of_siswa1 None) 1 in
  ((exists a, snd out = already_taken a) <-> has_attempt Sample.seeded 3 1)
  /\ (~ has_attempt Sample.seeded 3 1 ->
      io_budget Sample.seeded <> Some 0%nat ->
      mapM (for_student Sample.JSON_parse)
           (questionQueries.findByExam Sample.seeded 1) <> None ->
      success (snd out) = true
      /\ status (snd out) = 200
      /\ attempts (fst out)
         = (attempts Sample.seeded
            ++ [new_attempt Sample.seeded (Sample.request_of_siswa1 None)
                            1 3])%list).
Proof.
  apply (start_conflict_iff_attempt_exists Sample.jwt_verify Sample.JSON_parse
           Sample.shuffle Sample.seeded (Sample.request_of_siswa1 None) 1
           (userWithoutPassword
              (mkUser 3 "siswa1" "siswa1@school.com"
                      (Sample.bcrypt_hash "student123") student "Andi Wijaya"
                      (Some "10A") None "t0" "t0"))
           (Sample.seed_exam 70));
    solve [ reflexivity | vm_compute; split; discriminate ].
Defined.

End StartFacts.

(** ** Answer keys and status codes *)

Module ResponseFacts.
Import Db Auth Policy ExamRoute.

Section WithLibraries.

Variable jwt_verify : string -> option JWTPayload.
Variable JSON_parse : string -> option (list string).
Variable shuffle : list QuestionJson -> list QuestionJson.
Variable Number_toString : float -> string.
Hypothesis shuffle_permutes : forall l, Permutation (shuffle l) l.

Lemma for_student_omits_key (q : Question) (j : QuestionJson) :
  for_student JSON_parse q = Some j -> has_correctAnswer j = false.
Proof.
  unfold for_student. destruct (parse_options JSON_parse (options q));
    simpl; [|discriminate]. intros [= <-]. reflexivity.
Qed.

Lemma with_answers_keeps_key (q : Question) (j : QuestionJson) :
  with_answers JSON_parse q = Some j -> has_correctAnswer j = true.
Proof.
  unfold with_answers. destruct (parse_options JSON_parse (options q));
    simpl; [|discriminate]. intros [= <-]. reflexivity.
Qed.

Lemma mapM_for_student_omits_key (l : list Question) (js : list QuestionJson) :
  mapM (for_student JSON_parse) l = Some js ->
  Forall (fun j => has_correctAnswer j = false) js.
Proof.
  intros H. apply mapM_Some_1 in H.
  induction H as [|q j l js Hq _ IH]; constructor;
    eauto using for_student_omits_key.
Qed.

(** The question list of every start carries no [correctAnswer] key,
    shuffled or not. *)
Lemma start_omits_answer_key (s : Store) (request : Request) (examId : Z) :
  Forall (fun j => has_correctAnswer j = false)
         (questions_of (snd (POST jwt_verify JSON_parse shuffle s request
                                  examId))).
Proof.
  unfold POST. destruct (POST_until_import _ _ _ _) as [early|k] eqn:E1.
  - unfold POST_until_import in E1.
    repeat match type of E1 with
           | context [match ?x with _ => _ end] => destruct x
           end; inversion E1; subst; constructor.
  - unfold try_catch, POST_after_import.
    destruct (attemptQueries.findByStudentAndExam _ _ _); [constructor|].
    unfold bind, run.
    destruct (attemptQueries.createAttempt _ _ _ _ _ _) as [e|[s' rowid]];
      [constructor|].
    destruct (mapM _ _) as [js|] eqn:Hjs; [|constructor].
    cbn. apply mapM_for_student_omits_key in Hjs.
    destruct (shuffleQuestions (sus_exam k)); [|exact Hjs].
    eapply Permutation_Forall; [|exact Hjs].
    apply Permutation_sym, shuffle_permutes.
Qed.

(** A student who fetches an exam without [includeAnswers=true] gets no
    [correctAnswer] key either. *)
Lemma GET_omits_answer_key (s : Store) (request : Request) (examId : Z)
    (user : PublicUser) :
  current_user jwt_verify s request = Some user ->
  pu_role user = student ->
  includeAnswers request <> Some "true" ->
  Forall (fun j => has_correctAnswer j = false)
         (questions_of (GET jwt_verify JSON_parse s request examId)).
Proof.
  intros Hu Hr Hflag. unfold GET. rewrite Hu.
  destruct (examQueries.findById s examId) as [exam|]; [|constructor].
  destruct (negb _); [constructor|].
  destruct (param_is_true (includeQuestions request)); [|constructor].
  assert (Hno : param_is_true (includeAnswers request) = false).
  { unfold param_is_true. destruct (includeAnswers request) as [v|];
      [|reflexivity].
    destruct (String.eqb_spec v "true"); [congruence|reflexivity]. }
  rewrite Hr, Hno. cbn [Role_eqb negb andb].
  destruct (mapM _ _) as [js|] eqn:Hjs; [|constructor].
  cbn. eapply mapM_for_student_omits_key, Hjs.
Qed.

(** Where the answer key is withheld from a student: always when starting
    an attempt, and when fetching an exam with anything but
    [includeAnswers=true] in the query string. *)
Theorem student_content_omits_answer_key
    (s : Store) (request : Request) (examId : Z) (user : PublicUser) :
  current_user jwt_verify s request = Some user ->
  pu_role user = student ->
  Forall (fun j => has_correctAnswer j = false)
         (questions_of (snd (POST jwt_verify JSON_parse shuffle s request
                                  examId)))
  /\ (includeAnswers request <> Some "true" ->
      Forall (fun j => has_correctAnswer j = false)
             (questions_of (GET jwt_verify JSON_parse s request examId))).
Proof.
  intros Hu Hr. split.
  - apply start_omits_answer_key.
  - intros Hflag. eapply GET_omits_answer_key; eassumption.
Qed.

(** What a student gets from [GET] with [includeQuestions=true] and
    [includeAnswers=true]: every question with its [correctAnswer] key. *)
Lemma GET_includeAnswers_keeps_key (s : Store) (request : Request)
    (examId : Z) (user : PublicUser) (exam : Exam) :
  current_user jwt_verify s request = Some user ->
  pu_role user = student ->
  examQueries.findById s examId = Some exam ->
  includeQuestions request = Some "true" ->
  includeAnswers request = Some "true" ->
  forall js, mapM (with_answers JSON_parse) (questionQueries.findByExam s examId)
             = Some js ->
  GET jwt_verify JSON_parse s request examId
  = mkResponse 200 true "Exam retrieved successfully"
               (Some (ExamData exam (Some js)))
  /\ Forall (fun j => has_correctAnswer j = true) js.
Proof.
  intros Hu Hr He Hq Ha js Hjs. unfold GET.
  rewrite Hu, He, Hq, Ha. unfold canAccessExam, isAdmin, isTeacher, isStudent.
  rewrite Hr. cbn. rewrite Hjs. split; [reflexivity|].
  apply mapM_Some_1 in Hjs.
  induction Hjs; constructor; eauto using with_answers_keeps_key.
Qed.

(** A submission for an attempt of the caller that is no longer in
    progress. *)
Lemma PUT_not_in_progress (s : Store) (request : Request) (examId : Z)
    (user : PublicUser) (body : SubmitBody) (aid : Z)
    (submitted : gmap Z JsValue) (attempt : ExamAttempt) :
  current_user jwt_verify s request = Some user ->
  pu_role user = student ->
  json request = Some body ->
  attemptId body = Some aid -> aid <> 0 ->
  answers body = Some submitted ->
  attemptQueries.findById s aid = Some attempt ->
  a_studentId attempt = pu_id user ->
  a_examId attempt = examId ->
  a_status attempt <> in_progress ->
  PUT jwt_verify Number_toString s request examId
  = (s, fail 400 "Attempt already completed").
Proof.
  intros Hu Hr Hj Hid Hnz Hans Hfind Hs He Hst.
  unfold PUT, try_catch, PUT_body.
  rewrite Hu, Hr, Hj, Hid, Hans. cbn [Role_eqb negb].
  destruct (Z.eqb_spec aid 0); [contradiction|].
  rewrite Hfind, Hs, He, !Z.eqb_refl. cbn [negb orb].
  destruct (a_status attempt); [contradiction| | |]; reflexivity.
Qed.

End WithLibraries.

(** C5 fails on a request parameter: student [siswa1], who has no attempt
    yet, fetches the seeded exam with [includeQuestions=true] and
    [includeAnswers=true] and receives every question row in full,
    [correctAnswer] included.  The branch that answers is the one the
    source comments "Teachers and admins get full question data";
    [exam.allowReview] is not consulted, and a start of the same student
    strips the key. *)
Example student_fetch_with_includeAnswers_gets_answer_key :
  attempts Sample.seeded = []
  /\ GET Sample.jwt_verify Sample.JSON_parse Sample.seeded
         Sample.fetch_with_answers 1
     = mkResponse 200 true "Exam retrieved successfully"
         (Some (ExamData (Sample.seed_exam 70)
                  (Some (List.map (fun q => FullQuestion q ["[]"])
                                  Sample.seed_questions))))
  /\ List.map correctAnswer Sample.seed_questions = ["1"; "1"; "0"; "0"; "0"].
Proof. vm_compute. repeat split. Qed.

Lemma student_content_omits_answer_key_witness :
  let request := Sample.fetch_without_answers in
  Forall (fun j => has_correctAnswer j = false)
         (questions_of (snd (POST Sample.jwt_verify Sample.JSON_parse
                                  Sample.shuffle Sample.seeded request 1)))
  /\ (includeAnswers request <> Some "true" ->
      Forall (fun j => has_correctAnswer j = false)
             (questions_of (GET Sample.jwt_verify Sample.JSON_parse
                                Sample.seeded request 1))).
Proof.
  apply (student_content_omits_answer_key Sample.jwt_verify Sample.JSON_parse
           Sample.shuffle
           (fun l => Permutation_sym (Permutation_rev l))
           Sample.seeded Sample.fetch_without_answers 1
           (userWithoutPassword
              (mkUser 3 "siswa1" "siswa1@school.com"
                      (Sample.bcrypt_hash "student123") student "Andi Wijaya"
                      (Some "10A") None "t0" "t0")));
    reflexivity.
Defined.

(** The two responses of that request do carry the five questions. *)
Example fetch_without_answers_has_questions :
  let request := Sample.fetch_without_answers in
  List.length (questions_of (snd (POST Sample.jwt_verify Sample.JSON_parse
                                       Sample.shuffle Sample.seeded request 1)))
  = 5%nat
  /\ List.length (questions_of (GET Sample.jwt_verify Sample.JSON_parse
                                    Sample.seeded request 1)) = 5%nat.
Proof. vm_compute. split; reflexivity. Qed.




(** The same registration under a username that is taken as well. *)
Example register_taken_username_is_409 :
  snd (AuthRoute.POST Sample.jwt_sign Sample.jwt_verify Sample.bcrypt_hash
         Sample.bcrypt_compare Sample.seeded
         (AuthRoute.register_request "siswa1" "siswa1@school.com" "rahasia1"
                                     "student" (Some "Andi")))
  = AuthRoute.fail 409 "Username already exists".
Proof. vm_compute. reflexivity. Qed.

End ResponseFacts.

(** ** Submitting an attempt: scoring *)

Module ScoringFacts.
Import TableFacts Db Auth ExamRoute Lifecycle.

(** The grade boundaries are inclusive where the quotient is exact or
    rounds back to the boundary. *)
Example grades_at_the_thresholds :
  getGrade (percentage_of 9 10) = "A" /\ getGrade (percentage_of 8 10) = "B"
  /\ getGrade (percentage_of 7 10) = "C" /\ getGrade (percentage_of 6 10) = "D"
  /\ getGrade (percentage_of 59 100) = "E"
  /\ getGrade (percentage_of 0 0) = "E".
Proof. vm_compute. repeat split. Qed.

Lemma percentage_of_no_points (totalScore_ : Z) :
  percentage_of totalScore_ 0 = 0%float.
Proof. reflexivity. Qed.

(** The driver refuses the parameters of [createAnswer.run] and of
    [createResult.run], whatever they are, for the boolean among them. *)
Lemma createAnswer_refused (s : Store) (attemptId_ questionId : Z)
    (answer : string) (isCorrect : bool) (pointsEarned timeSpent_ : Z) :
  answerQueries.createAnswer s attemptId_ questionId answer isCorrect
                             pointsEarned timeSpent_
  = BindTypeError.
Proof. reflexivity. Qed.

Lemma createResult_refused (s : Store) (attemptId_ studentId examId : Z)
    (score_ totalPoints_ : Z) (percentage_ : float) (grade_ : string)
    (passed_ : bool) (completionTime correct wrong skipped : Z)
    (feedback : string) :
  resultQueries.createResult s attemptId_ studentId examId score_ totalPoints_
    percentage_ grade_ passed_ completionTime correct wrong skipped feedback
  = BindTypeError.
Proof. reflexivity. Qed.

Section WithLibraries.

Variable Number_toString : float -> string.

(** One turn of the loop ends in a TypeError and has written nothing: that
    of [createAnswer.run], or before it that of [null.toString()]. *)
Lemma score_question_throws (aid : Z) (submitted : gmap Z JsValue) (t : Tally)
    (q : Question) (s : Store) :
  score_question Number_toString aid submitted t q s = Thrown s TypeError.
Proof.
  unfold score_question, bind, run_bound, throw.
  destruct (is_skipped _); [rewrite createAnswer_refused; reflexivity|].
  destruct (_ ≫= toString Number_toString) as [str|]; [|reflexivity].
  rewrite createAnswer_refused. reflexivity.
Qed.

Lemma score_questions_throws (aid : Z) (submitted : gmap Z JsValue)
    (q : Question) (rest : list Question) (t : Tally) (s : Store) :
  score_questions Number_toString aid submitted (q :: rest) t s
  = Thrown s TypeError.
Proof.
  cbn [score_questions]. unfold bind. rewrite score_question_throws.
  reflexivity.
Qed.

(** The recording block never returns.  With a question it throws before
    any write; without one it throws at [createResult.run], after the
    update of the attempt if the storage layer has accepted it. *)
Lemma PUT_record_throws (request : Request) (examId : Z) (user : PublicUser)
    (body : SubmitBody) (aid : Z) (submitted : gmap Z JsValue) (s : Store) :
  PUT_record Number_toString request examId user body aid submitted s
  = match questionQueries.findByExam s examId with
    | _ :: _ => Thrown s TypeError
    | [] =>
        match examQueries.findById s examId with
        | None => Thrown s TypeError
        | Some _ =>
            match attemptQueries.updateAttempt s (now request) completed 0 0
                    (percentage_of 0 0) (or_zero (timeSpent body)) aid with
            | inl e => Thrown s (SqliteErr e)
            | inr (s', _) => Thrown s' TypeError
            end
        end
    end.
Proof.
  unfold PUT_record. unfold bind at 1.
  destruct (questionQueries.findByExam s examId) as [|q rest].
  - cbn [score_questions ret totalScore totalPoints].
    destruct (examQueries.findById s examId) as [exam|]; [|reflexivity].
    unfold bind, run, run_bound.
    destruct (attemptQueries.updateAttempt _ _ _ _ _ _ _ _) as [e|[s' x]];
      [reflexivity|].
    rewrite createResult_refused. reflexivity.
  - rewrite score_questions_throws. reflexivity.
Qed.

(** What the update of the attempt leaves when it is accepted. *)
Lemma updateAttempt_inr (s s' : Store) (endTime_ : Z) (score_ totalPoints_ : Z)
    (percentage_ : float) (timeSpent_ aid x : Z) :
  attemptQueries.updateAttempt s endTime_ completed score_ totalPoints_
                               percentage_ timeSpent_ aid = inr (s', x) ->
  attempts s'
  = List.map (complete aid endTime_ score_ totalPoints_ percentage_ timeSpent_)
             (attempts s)
  /\ users s' = users s /\ exams s' = exams s /\ questions s' = questions s
  /\ Db.answers s' = Db.answers s /\ results s' = results s
  /\ attempts_seq s' = attempts_seq s.
Proof.
  unfold attemptQueries.updateAttempt, write.
  destruct (io_budget s) as [[|n]|]; [discriminate| |];
    intros [= <- _]; cbn; auto 10.
Qed.

(** A submission changes the table of attempts at most, and there only by
    completing the submitted attempt. *)
Lemma PUT_outcome (jwt_verify : string -> option JWTPayload)
    (s : Store) (request : Request) (examId : Z) :
  let out := PUT jwt_verify Number_toString s request examId in
  (status (snd out) = 400 \/ status (snd out) = 403 \/ status (snd out) = 500)
  /\ users (fst out) = users s /\ exams (fst out) = exams s
  /\ questions (fst out) = questions s
  /\ Db.answers (fst out) = Db.answers s /\ results (fst out) = results s
  /\ attempts_seq (fst out) = attempts_seq s
  /\ (fst out = s
      \/ exists aid endTime_ timeSpent_,
           questionQueries.findByExam s examId = []
           /\ attempts (fst out)
              = List.map (complete aid endTime_ 0 0 (percentage_of 0 0)
                                   timeSpent_) (attempts s)).
Proof.
  cbv zeta. unfold PUT, try_catch, PUT_body.
  destruct (current_user jwt_verify s request) as [user|]; [|cbn; auto 12].
  destruct (negb _); [cbn; auto 12|].
  destruct (json request) as [body|]; [|cbn; auto 12].
  destruct (attemptId body) as [aid|]; [|cbn; auto 12].
  destruct (answers body) as [submitted|]; [|cbn; auto 12].
  destruct (aid =? 0); [cbn; auto 12|].
  destruct (attemptQueries.findById s aid) as [attempt|]; [|cbn; auto 12].
  destruct (_ || _); [cbn; auto 12|].
  destruct (negb _); [cbn; auto 12|].
  rewrite PUT_record_throws.
  destruct (questionQueries.findByExam s examId) as [|q rest];
    [|cbn; auto 12].
  destruct (examQueries.findById s examId) as [exam|]; [|cbn; auto 12].
  destruct (attemptQueries.updateAttempt _ _ _ _ _ _ _ _) as [e|[s' x]] eqn:E;
    [cbn; auto 12|].
  apply updateAttempt_inr in E.
  destruct E as (Ha & Hu & He & Hq & Hans & Hr & Hseq).
  cbn [fst snd status fail].
  repeat (split; [solve [auto]|]).
  right. exists aid, (now request), (or_zero (timeSpent body)).
  split; [reflexivity|exact Ha].
Qed.

End WithLibraries.

(** C2 fails at its first answer row.  An exam with passing score 57 whose
    two questions are worth 57 and 43 points; the student's in-progress
    attempt is submitted with the first question right and the second
    wrong.  By the specification the totals are 57 of 100, which is 57
    percent, a pass, grade E.  The handler passes the JavaScript boolean
    [isCorrect] to [createAnswer.run]; the driver throws, the [catch]
    answers 500, and no answer, no result and no change of the attempt is
    stored.  The percentage the handler would go on to compute,
    (57 / 100) * 100 in binary64, is below 57. *)
Theorem submit_57_of_100_is_answered_500 :
  let s := Sample.with_attempt Sample.store57 (Sample.attempt_of in_progress) in
  let out := PUT Sample.jwt_verify Sample.Number_toString s
                 Sample.submission 1 in
  ScoringSpec.tally Sample.Number_toString (questionQueries.findByExam s 1)
                    Sample.submitted_answers
  = mkTally 57 100 1 1 0
  /\ ScoringSpec.percentage 57 100 = (5700, 100)
  /\ ScoringSpec.passed 57 100 57 = true
  /\ ScoringSpec.grade 57 100 = "E"
  /\ out = (s, fail 500 "Failed to submit exam")
  /\ PrimFloat.ltb (percentage_of 57 100) (Number.of_Z 57) = true.
Proof. vm_compute. repeat split. Qed.

End ScoringFacts.

(** ** Attempts and their results *)

Module LifecycleFacts.
Import TableFacts Db Auth ExamRoute Lifecycle.

Lemma complete_keeps (aid e sc tp : Z) (p : float) (ts : Z) (a : ExamAttempt) :
  a_id (complete aid e sc tp p ts a) = a_id a
  /\ a_studentId (complete aid e sc tp p ts a) = a_studentId a
  /\ a_examId (complete aid e sc tp p ts a) = a_examId a
  /\ (a_status a = completed ->
      a_status (complete aid e sc tp p ts a) = completed).
Proof. unfold complete. destruct (a_id a =? aid); cbn; auto. Qed.

(** A start leaves the store as it is, or appends one in-progress attempt
    under the next id, for a pair that had none. *)
Lemma POST_outcome (jwt_verify : string -> option JWTPayload)
    (JSON_parse : string -> option (list string))
    (shuffle : list QuestionJson -> list QuestionJson)
    (s : Store) (request : Request) (examId : Z) :
  let s' := fst (POST jwt_verify JSON_parse shuffle s request examId) in
  s' = s
  \/ exists row,
       attempts s' = (attempts s ++ [row])%list
       /\ a_id row = attempts_seq s + 1
       /\ attempts_seq s' = attempts_seq s + 1
       /\ a_status row = in_progress
       /\ attemptQueries.findByStudentAndExam s (a_studentId row)
                                              (a_examId row) = None
       /\ results s' = results s /\ Db.answers s' = Db.answers s.
Proof.
  cbv zeta. unfold POST.
  destruct (POST_until_import _ _ _ _) as [early|k]; [left; reflexivity|].
  unfold try_catch, POST_after_import.
  destruct (attemptQueries.findByStudentAndExam _ _ _) eqn:Hnone;
    [left; reflexivity|].
  unfold bind, run.
  destruct (attemptQueries.createAttempt _ _ _ _ _ _) as [e|[s' rowid]] eqn:E;
    [left; reflexivity|].
  right.
  assert (Hs' : exists row,
            attempts s' = (attempts s ++ [row])%list
            /\ a_id row = attempts_seq s + 1
            /\ attempts_seq s' = attempts_seq s + 1
            /\ a_status row = in_progress
            /\ attemptQueries.findByStudentAndExam s (a_studentId row)
                                                   (a_examId row) = None
            /\ results s' = results s /\ Db.answers s' = Db.answers s).
  { unfold attemptQueries.createAttempt, write in E.
    destruct (io_budget s) as [[|n]|]; [discriminate| |];
      cbn [set_io exams users attempts attempts_seq] in E;
      (destruct (_ && _); [|discriminate]); injection E as <- _;
      eexists; cbn; repeat split; exact Hnone. }
  destruct (mapM _ _); exact Hs'.
Qed.

Lemma POST_consistent (jwt_verify : string -> option JWTPayload)
    (JSON_parse : string -> option (list string))
    (shuffle : list QuestionJson -> list QuestionJson)
    (s : Store) (request : Request) (examId : Z) :
  consistent s ->
  consistent (fst (POST jwt_verify JSON_parse shuffle s request examId)).
Proof.
  intros [H1 H2 H3].
  destruct (POST_outcome jwt_verify JSON_parse shuffle s request examId)
    as [->|(row & Ha & Hid & Hseq & Hst & _ & Hr & _)];
    [constructor; assumption|].
  constructor;
    unfold results_of_completed, results_reference_attempts,
      attempt_ids_issued; rewrite ?Ha, ?Hr, ?Hseq.
  - intros a Hin Hres. apply in_app_or in Hin.
    destruct Hin as [Hin|[<-|[]]]; [apply H1; assumption|].
    destruct Hres as (r & Hrin & Hrid).
    destruct (H2 r Hrin) as (b & Hb & Hbid). specialize (H3 b Hb).
    exfalso. lia.
  - intros r Hrin. destruct (H2 r Hrin) as (b & Hb & Hbid).
    exists b. split; [apply in_or_app; left; exact Hb|exact Hbid].
  - intros a Hin. apply in_app_or in Hin. destruct Hin as [Hin|[<-|[]]].
    + specialize (H3 a Hin). lia.
    + lia.
Qed.

Lemma PUT_consistent (jwt_verify : string -> option JWTPayload)
    (Number_toString : float -> string)
    (s : Store) (request : Request) (examId : Z) :
  consistent s ->
  consistent (fst (PUT jwt_verify Number_toString s request examId)).
Proof.
  intros [H1 H2 H3].
  destruct (ScoringFacts.PUT_outcome Number_toString jwt_verify s request
              examId)
    as (_ & _ & _ & _ & _ & Hr & Hseq
        & [->|(aid & e & ts & _ & Ha)]);
    [constructor; assumption|].
  constructor;
    unfold results_of_completed, results_reference_attempts,
      attempt_ids_issued; rewrite ?Ha, ?Hr, ?Hseq.
  - intros a' Hin Hres. apply in_map_iff in Hin.
    destruct Hin as (a & <- & Hin).
    destruct (complete_keeps aid e 0 0 (percentage_of 0 0) ts a)
      as (Hid & _ & _ & Hkeep).
    apply Hkeep, (H1 a Hin). rewrite <- Hid. exact Hres.
  - intros r Hrin. destruct (H2 r Hrin) as (b & Hb & Hbid).
    exists (complete aid e 0 0 (percentage_of 0 0) ts b).
    split; [apply in_map, Hb|].
    destruct (complete_keeps aid e 0 0 (percentage_of 0 0) ts b) as (-> & _).
    exact Hbid.
  - intros a' Hin. apply in_map_iff in Hin. destruct Hin as (a & <- & Hin).
    destruct (complete_keeps aid e 0 0 (percentage_of 0 0) ts a) as (-> & _).
    apply H3, Hin.
Qed.




End LifecycleFacts.

(** ** Starts in flight *)

Module ConcurrencyFacts.
Import TableFacts Db Auth ExamRoute Concurrency.

(** The two segments run back to back are the handler. *)
Lemma POST_is_two_segments (jwt_verify : string -> option JWTPayload)
    (JSON_parse : string -> option (list string))
    (shuffle : list QuestionJson -> list QuestionJson)
    (s : Store) (request : Request) (examId : Z) :
  let '(s1, t1) := advance jwt_verify JSON_parse shuffle s
                           (arrive examId request) in
  let '(s2, t2) := advance jwt_verify JSON_parse shuffle s1 t1 in
  (s2, responded t2)
  = (fst (POST jwt_verify JSON_parse shuffle s request examId),
     Some (snd (POST jwt_verify JSON_parse shuffle s request examId))).
Proof.
  unfold advance, arrive, POST. cbn [task_phase task_request task_examId].
  destruct (POST_until_import _ _ _ _) as [early|k]; cbn.
  - reflexivity.
  - destruct (try_catch _ _ s) as [s' r]. reflexivity.
Qed.

Lemma rows_for_zero (s : Store) (studentId examId : Z) :
  rows_for s studentId examId = 0%nat <->
  attemptQueries.findByStudentAndExam s studentId examId = None.
Proof.
  unfold rows_for, attemptQueries.findByStudentAndExam.
  change (fun a => (a_studentId a =? studentId) && (a_examId a =? examId))
    with (for_pair studentId examId).
  induction (attempts s) as [|a l IH]; cbn; [tauto|].
  destruct (for_pair studentId examId a); cbn; [|exact IH].
  split; discriminate.
Qed.

Lemma count_app (p : Task -> bool) (l1 l2 : list Task) :
  count p (l1 ++ l2) = (count p l1 + count p l2)%nat.
Proof. unfold count. rewrite List.filter_app, List.length_app. reflexivity. Qed.

Lemma count_cons (p : Task -> bool) (t : Task) (l : list Task) :
  count p (t :: l) = ((if p t then 1 else 0) + count p l)%nat.
Proof. unfold count. cbn. destruct (p t); reflexivity. Qed.

Section OnePair.

Variable jwt_verify : string -> option JWTPayload.
Variable JSON_parse : string -> option (list string).
Variable shuffle : list QuestionJson -> list QuestionJson.

(** The store the requests arrive at, the student and the exam they are
    all for. *)
Variable s0 : Store.
Variable user : PublicUser.
Variable exam : Exam.
Variable examId : Z.

Hypothesis user_is_student : pu_role user = student.
Hypothesis exam_found : examQueries.findById s0 examId = Some exam.
Hypothesis exam_active : isActive exam = true.
Hypothesis store_accepts : io_budget s0 = None.
Hypothesis options_parse :
  mapM (for_student JSON_parse) (questionQueries.findByExam s0 examId) <> None.

Local Abbreviation admissible := (Concurrency.admissible jwt_verify s0 user exam).
Local Abbreviation good_store := (Concurrency.good_store s0).
Local Abbreviation good_task :=
  (Concurrency.good_task jwt_verify s0 user exam examId).
Local Abbreviation balanced :=
  (Concurrency.balanced jwt_verify s0 user exam examId).

Lemma current_user_same_users (s : Store) (request : Request) :
  users s = users s0 ->
  current_user jwt_verify s request = current_user jwt_verify s0 request.
Proof.
  intros H. unfold current_user, getUserFromToken, userQueries.findById.
  rewrite H. reflexivity.
Qed.

(** One segment of one task. *)
Lemma advance_balanced (s : Store) (t : Task) :
  good_store s -> good_task t ->
  (rows_for s (pu_id user) examId <= 1)%nat ->
  let s' := fst (advance jwt_verify JSON_parse shuffle s t) in
  let t' := snd (advance jwt_verify JSON_parse shuffle s t) in
  good_store s' /\ good_task t'
  /\ (rows_for s' (pu_id user) examId <= 1)%nat
  /\ (rows_for s' (pu_id user) examId
      + (if is_success t then 1 else 0)
      = rows_for s (pu_id user) examId + (if is_success t' then 1 else 0))%nat
  /\ (has_responded t = true -> t' = t)
  /\ (has_responded t' = true -> rows_for s' (pu_id user) examId <> 0%nat
                                 \/ has_responded t = true).
Proof.
  intros (Hu & He & Hq & Hio) (Hid & [Hcur Hwin] & Hphase) Hrows.
  unfold advance. destruct t as [request eid phase]. cbn in Hid, Hcur, Hwin.
  cbn [task_phase task_request task_examId] in *. subst eid.
  destruct phase as [|k|r].
  - (* the first segment reads, and reaches the await *)
    assert (E : POST_until_import jwt_verify s request examId
                = inr (mkSuspended user exam (now request))).
    { apply StartFacts.POST_reaches_import; auto.
      - rewrite current_user_same_users; assumption.
      - unfold examQueries.findById in *. rewrite He. assumption. }
    rewrite E. cbn. repeat split; cbn; auto; try discriminate; try lia.
  - (* the second segment looks the pair up and inserts *)
    subst k. unfold try_catch.
    destruct (attemptQueries.findByStudentAndExam s (pu_id user) examId)
      as [a|] eqn:Hfind.
    + rewrite (StartFacts.POST_after_import_existing JSON_parse shuffle s
                 request examId _ a) by exact Hfind.
      cbn. repeat split; cbn; auto; try discriminate; try lia.
      intros _. left. intros H0. apply rows_for_zero in H0. congruence.
    + assert (Hparse : exists qs,
                mapM (for_student JSON_parse)
                     (questionQueries.findByExam s examId) = Some qs).
      { unfold questionQueries.findByExam in *. rewrite Hq.
        destruct (mapM _ _) as [qs|]; [eauto|congruence]. }
      destruct Hparse as [qs Hqs].
      destruct (StartFacts.POST_after_import_fresh JSON_parse shuffle s request
                  examId (mkSuspended user exam (now request)) qs Hfind)
        as (s' & -> & Hatt & _ & Hcat & Hio'); auto.
      * congruence.
      * rewrite He. unfold examQueries.findById in exam_found.
        eapply find_some_existsb, exam_found.
      * rewrite Hu. eapply StartFacts.current_user_in_store, Hcur.
      * cbn [fst snd]. destruct Hcat as (Hu' & He' & Hq' & _).
        assert (Hnew : rows_for s' (pu_id user) examId = 1%nat).
        { apply rows_for_zero in Hfind. unfold rows_for in *.
          rewrite Hatt, List.filter_app, List.length_app, Hfind. cbn.
          unfold for_pair. cbn. rewrite !Z.eqb_refl. reflexivity. }
        apply rows_for_zero in Hfind.
        repeat split; cbn; auto; try congruence; try discriminate; try lia.
  - cbn. repeat split; cbn; auto; try lia.
Qed.

(** A step advances one task and leaves the others as they are. *)
Lemma step_decompose (i : nat) :
  forall (s : Store) (ts : list Task),
    step jwt_verify JSON_parse shuffle i s ts = (s, ts)
    \/ exists pre t post,
         ts = (pre ++ t :: post)%list
         /\ step jwt_verify JSON_parse shuffle i s ts
            = (fst (advance jwt_verify JSON_parse shuffle s t),
               (pre ++ snd (advance jwt_verify JSON_parse shuffle s t)
                    :: post)%list).
Proof.
  induction i as [|j IH]; intros s [|t rest]; cbn; auto.
  - right. exists [], t, rest. split; [reflexivity|].
    destruct (advance _ _ _ s t). reflexivity.
  - destruct (IH s rest) as [E|(pre & x & post & -> & E)]; rewrite E.
    + left. reflexivity.
    + right. exists (t :: pre), x, post. split; reflexivity.
Qed.

Lemma step_balanced (i : nat) (s : Store) (ts : list Task) :
  balanced s ts ->
  balanced (fst (step jwt_verify JSON_parse shuffle i s ts))
           (snd (step jwt_verify JSON_parse shuffle i s ts)).
Proof.
  intros Hb.
  destruct (step_decompose i s ts) as [E|(pre & t & post & -> & E)];
    rewrite E; [exact Hb|].
  cbn [fst snd].
  destruct Hb as (Hs & Hts & Hsucc & Hle & Hzero).
  apply Forall_app in Hts. destruct Hts as [Hpre Hts].
  inversion Hts as [|? ? Ht Hpost]; subst.
  destruct (advance_balanced s t Hs Ht Hle)
    as (Hs' & Ht' & Hle' & Heq & Hsame & Hresp).
  set (s' := fst (advance jwt_verify JSON_parse shuffle s t)) in *.
  set (t' := snd (advance jwt_verify JSON_parse shuffle s t)) in *.
  unfold Concurrency.balanced. rewrite !count_app, !count_cons in *.
  split; [exact Hs'|]. split; [|split; [|split; [exact Hle'|]]].
  - apply Forall_app. split; [exact Hpre|]. constructor; assumption.
  - destruct (is_success t), (is_success t'); lia.
  - intros H0.
    assert (Hnot : has_responded t' = true -> has_responded t = true).
    { intros Hr'. destruct (Hresp Hr') as [Hne|Hr]; [contradiction|exact Hr]. }
    destruct (has_responded t) eqn:Hr.
    + rewrite (Hsame eq_refl) in *. rewrite Hr.
      assert (rows_for s (pu_id user) examId = 0%nat) by lia.
      specialize (Hzero ltac:(assumption)). lia.
    + destruct (has_responded t') eqn:Hr'; [specialize (Hnot eq_refl); congruence|].
      assert (Hst : is_success t = false).
      { unfold is_success, has_responded in *.
        destruct (responded t); [discriminate|reflexivity]. }
      assert (Hst' : is_success t' = false).
      { unfold is_success, has_responded in *.
        destruct (responded t'); [discriminate|reflexivity]. }
      rewrite Hst, Hst' in Heq.
      assert (rows_for s (pu_id user) examId = 0%nat) by lia.
      specialize (Hzero ltac:(assumption)). lia.
Qed.

Lemma run_schedule_balanced (schedule : list nat) :
  forall (s : Store) (ts : list Task),
    balanced s ts ->
    balanced (fst (run_schedule jwt_verify JSON_parse shuffle schedule s ts))
             (snd (run_schedule jwt_verify JSON_parse shuffle schedule s ts)).
Proof.
  induction schedule as [|i later IH]; intros s ts Hb; cbn; [exact Hb|].
  pose proof (step_balanced i s ts Hb) as H.
  destruct (step jwt_verify JSON_parse shuffle i s ts) as [s' ts'].
  apply IH, H.
Qed.

Lemma run_schedule_length (schedule : list nat) :
  forall (s : Store) (ts : list Task),
    List.length (snd (run_schedule jwt_verify JSON_parse shuffle schedule s ts))
    = List.length ts.
Proof.
  induction schedule as [|i later IH]; intros s ts; cbn; [reflexivity|].
  destruct (step_decompose i s ts) as [E|(pre & t & post & -> & E)]; rewrite E.
  - apply IH.
  - rewrite IH, !List.length_app. reflexivity.
Qed.

(** Every answered task of a balanced system succeeded or was told of the
    existing attempt, never both. *)
Lemma count_responded (ts : list Task) :
  Forall good_task ts ->
  Forall (fun t => has_responded t = true) ts ->
  (count is_success ts + count is_conflict ts = List.length ts)%nat.
Proof.
  induction 1 as [|t rest Ht _ IH]; intros Hall; [reflexivity|].
  inversion Hall as [|? ? Hr Hrest]; subst.
  rewrite !count_cons. cbn [List.length]. specialize (IH Hrest).
  destruct Ht as (_ & _ & Hphase).
  unfold has_responded, responded in Hr.
  destruct (task_phase t) eqn:Hp; try discriminate.
  destruct (is_success t), (is_conflict t); cbn in Hphase;
    try discriminate; lia.
Qed.

Lemma count_all_responded (ts : list Task) :
  Forall (fun t => has_responded t = true) ts ->
  count has_responded ts = List.length ts.
Proof.
  induction 1 as [|t rest Ht _ IH]; [reflexivity|].
  rewrite count_cons, Ht, IH. reflexivity.
Qed.

Lemma arrivals_balanced (requests : list Request) :
  Forall admissible requests ->
  ~ has_attempt s0 (pu_id user) examId ->
  balanced s0 (List.map (arrive examId) requests).
Proof.
  intros Hchk Hnone.
  assert (Hrows : rows_for s0 (pu_id user) examId = 0%nat).
  { apply rows_for_zero, StartFacts.findByStudentAndExam_None, Hnone. }
  unfold Concurrency.balanced. rewrite Hrows.
  assert (Hcount : forall p, (forall rq, p (arrive examId rq) = false) ->
            count p (List.map (arrive examId) requests) = 0%nat).
  { intros p Hp. induction requests as [|rq l IH]; [reflexivity|].
    cbn [List.map]. rewrite count_cons, Hp. apply IH.
    inversion Hchk; assumption. }
  repeat split; auto.
  clear Hcount.
  induction Hchk as [|rq l Hrq _ IH]; cbn [List.map]; constructor;
    [|exact IH].
  repeat split; apply Hrq.
Qed.


End OnePair.



End ConcurrencyFacts.

(** ** The validators *)

Module ValidatorFacts.
Import Regex Auth.

Local Arguments String.append !s1 s2 : simpl nomatch.

Lemma append_nil_r (s : string) : String.append s "" = s.
Proof. induction s as [|c s IH]; simpl; [reflexivity|]. f_equal. exact IH. Qed.

Lemma append_assoc (a b c : string) :
  String.append (String.append a b) c = String.append a (String.append b c).
Proof. induction a as [|x a IH]; simpl; [reflexivity|]. f_equal. exact IH. Qed.

Lemma append_eq_nil (a b : string) :
  String.append a b = "" -> a = "" /\ b = "".
Proof. destruct a; cbn; [auto|discriminate]. Qed.

Lemma matches_seq_inv (r1 r2 : re) (s : string) :
  matches (Seq r1 r2) s ->
  exists s1 s2, s = String.append s1 s2 /\ matches r1 s1 /\ matches r2 s2.
Proof. intros H. inversion H; subst. eauto. Qed.

Lemma nullable_matches (r : re) : nullable r = true <-> matches r "".
Proof.
  induction r as [| |p|r1 IH1 r2 IH2|r1 IH1 r2 IH2|r IH]; cbn.
  - split; [discriminate|]. intros H. inversion H.
  - split; [constructor|reflexivity].
  - split; [discriminate|]. intros H. inversion H.
  - rewrite andb_true_iff, IH1, IH2. split.
    + intros [H1 H2]. apply (matches_seq r1 r2 "" "" H1 H2).
    + intros H. apply matches_seq_inv in H.
      destruct H as (s1 & s2 & E & H1 & H2). symmetry in E.
      apply append_eq_nil in E. destruct E; subst. auto.
  - rewrite orb_true_iff, IH1, IH2. split.
    + intros [H|H]; [apply matches_alt_l|apply matches_alt_r]; exact H.
    + intros H. inversion H; subst; auto.
  - split; [constructor|reflexivity].
Qed.

(** A match of [Star r] on a string that starts with [c] splits into a
    first piece that starts with [c] and the rest. *)
Lemma matches_star_head (r : re) (c : ascii) (s : string) :
  matches (Star r) (String c s) ->
  exists s1 s2, s = String.append s1 s2
                /\ matches r (String c s1) /\ matches (Star r) s2.
Proof.
  intros H. remember (Star r) as r' eqn:Er. remember (String c s) as t eqn:Et.
  revert c s Et.
  induction H as [| | | | | |r0 s1 s2 H1 _ H2 IH2]; intros c0 s0 Et;
    try discriminate.
  injection Er as ->. destruct s1 as [|c1 s1'].
  - simpl in Et. apply (IH2 eq_refl c0 s0 Et).
  - simpl in Et. injection Et as Hc Hs. subst. eauto.
Qed.

Lemma deriv_matches (r : re) :
  forall (c : ascii) (s : string),
    matches (deriv c r) s <-> matches r (String c s).
Proof.
  induction r as [| |p|r1 IH1 r2 IH2|r1 IH1 r2 IH2|r IH]; intros c s; cbn.
  - split; intros H; inversion H.
  - split; intros H; inversion H.
  - destruct (p c) eqn:Hp; split; intros H.
    + inversion H; subst. constructor. exact Hp.
    + inversion H; subst. constructor.
    + inversion H.
    + inversion H; subst. congruence.
  - assert (Hseq : matches (Seq (deriv c r1) r2) s ->
                   matches (Seq r1 r2) (String c s)).
    { intros H. apply matches_seq_inv in H.
      destruct H as (s1 & s2 & -> & H1 & H2).
      apply IH1 in H1. apply (matches_seq r1 r2 (String c s1) s2 H1 H2). }
    assert (Hback : matches (Seq r1 r2) (String c s) ->
              matches (Seq (deriv c r1) r2) s
              \/ (matches r1 "" /\ matches r2 (String c s))).
    { intros H. apply matches_seq_inv in H.
      destruct H as (s1 & s2 & E & H1 & H2). symmetry in E.
      destruct s1 as [|c1 s1'].
      - simpl in E. subst. right. auto.
      - simpl in E. injection E as Hc Hs. subst. left.
        apply matches_seq; [apply IH1; exact H1|exact H2]. }
    destruct (nullable r1) eqn:Hn.
    + split.
      * intros H. inversion H; subst; [auto|].
        apply nullable_matches in Hn.
        apply (matches_seq r1 r2 "" (String c s) Hn). apply IH2. assumption.
      * intros H. destruct (Hback H) as [H1|[_ H2]].
        -- apply matches_alt_l. exact H1.
        -- apply matches_alt_r. apply IH2. exact H2.
    + split; [exact Hseq|].
      intros H. destruct (Hback H) as [H1|[H1 _]]; [exact H1|].
      apply nullable_matches in H1. congruence.
  - split; intros H.
    + inversion H; subst; [apply matches_alt_l|apply matches_alt_r];
        [apply IH1|apply IH2]; assumption.
    + inversion H; subst; [apply matches_alt_l|apply matches_alt_r];
        [apply IH1|apply IH2]; assumption.
  - split; intros H.
    + apply matches_seq_inv in H. destruct H as (s1 & s2 & -> & H1 & H2).
      apply IH in H1. apply (matches_star_cons r (String c s1) s2 H1 H2).
    + apply matches_star_head in H. destruct H as (s1 & s2 & -> & H1 & H2).
      apply matches_seq; [apply IH; exact H1|exact H2].
Qed.

(** The matcher decides the language. *)
Lemma test_anchored_matches (s : string) :
  forall r, test_anchored r s = true <-> matches r s.
Proof.
  induction s as [|c s IH]; intros r; cbn.
  - apply nullable_matches.
  - rewrite IH. apply deriv_matches.
Qed.

Lemma matches_star_class (p : ascii -> bool) (s : string) :
  matches (Star (Class p)) s <-> all_chars p s = true.
Proof.
  split.
  - intros H. remember (Star (Class p)) as r eqn:Er.
    induction H as [| | | | | |r0 s1 s2 H1 _ H2 IH2]; try discriminate;
      [reflexivity|].
    injection Er as ->. inversion H1; subst. simpl.
    rewrite (IH2 eq_refl). rewrite andb_true_r. assumption.
  - induction s as [|c s IH]; simpl; [constructor|].
    intros H. apply andb_prop in H. destruct H as [Hc Hs].
    apply (matches_star_cons (Class p) (String c "") s);
      [constructor; exact Hc|exact (IH Hs)].
Qed.

Lemma matches_plus_class (p : ascii -> bool) (s : string) :
  matches (Plus (Class p)) s <-> s <> "" /\ all_chars p s = true.
Proof.
  unfold Plus. split.
  - intros H. apply matches_seq_inv in H.
    destruct H as (s1 & s2 & -> & H1 & H2). inversion H1; subst.
    apply matches_star_class in H2. simpl. split; [discriminate|].
    rewrite H2, andb_true_r. assumption.
  - intros [Hne H]. destruct s as [|c s]; [congruence|]. simpl in H.
    apply andb_prop in H. destruct H as [Hc Hs].
    apply (matches_seq (Class p) (Star (Class p)) (String c "") s);
      [constructor; exact Hc|apply matches_star_class; exact Hs].
Qed.

Lemma all_chars_any (s : string) : all_chars (fun _ => true) s = true.
Proof. induction s; simpl; auto. Qed.

(** [/[class]/.test(s)]: some character of [s] is in the class. *)
Lemma test_class (p : ascii -> bool) (s : string) :
  test (Class p) s = some_char p s.
Proof.
  apply eq_true_iff_eq. unfold test. rewrite test_anchored_matches. split.
  - intros H. apply matches_seq_inv in H.
    destruct H as (s1 & s2 & -> & H1 & H2).
    apply matches_seq_inv in H2. destruct H2 as (s3 & s4 & -> & H3 & _).
    inversion H3 as [|? c Hc| | | | |]; subst. clear H1 H3. simpl.
    induction s1 as [|c1 s1 IH]; simpl.
    + rewrite Hc. reflexivity.
    + rewrite IH. apply orb_true_r.
  - induction s as [|c s IH]; simpl; [discriminate|].
    intros H. apply orb_prop in H. destruct H as [Hc|Hs].
    + apply (matches_seq (Star any) _ "" (String c s)); [constructor|].
      apply (matches_seq (Class p) (Star any) (String c "") s);
        [constructor; exact Hc|].
      apply matches_star_class, all_chars_any.
    + specialize (IH Hs). apply matches_seq_inv in IH.
      destruct IH as (s1 & s2 & -> & H1 & H2).
      apply (matches_seq (Star any) _ (String c s1) s2); [|exact H2].
      apply matches_star_class. simpl.
      apply matches_star_class in H1. exact H1.
Qed.

Lemma test_plus_class (p : ascii -> bool) (s : string) :
  test_anchored (Plus (Class p)) s
  = negb (String.eqb s "") && all_chars p s.
Proof.
  apply eq_true_iff_eq.
  rewrite test_anchored_matches, matches_plus_class, andb_true_iff,
    negb_true_iff.
  destruct (String.eqb_spec s ""); split; intros [H1 H2]; split;
    congruence.
Qed.

(** [validateUsername] accepts exactly the names of 3 to 20 characters,
    both bounds included, made of ASCII letters, digits and underscores. *)
Theorem validateUsername_accepts (username_ : string) :
  isValid (validateUsername username_)
  = (3 <=? String.length username_)%nat
    && (String.length username_ <=? 20)%nat
    && all_chars (fun c => is_lower c || is_upper c || is_digit c
                           || Ascii.eqb c "_") username_.
Proof.
  unfold validateUsername. cbn [isValid]. unfold re_word.
  rewrite test_plus_class.
  destruct (String.eqb_spec username_ "") as [E|E].
  - rewrite E. reflexivity.
  - cbn [negb andb].
    destruct (Nat.ltb_spec (String.length username_) 3);
      destruct (Nat.ltb_spec 20 (String.length username_));
      destruct (Nat.leb_spec 3 (String.length username_));
      destruct (Nat.leb_spec (String.length username_) 20);
      try lia; destruct (all_chars _ username_); reflexivity.
Qed.

(** [validatePassword] accepts exactly the passwords of at least 6
    characters that contain an ASCII letter and a digit. *)
Theorem validatePassword_accepts (password_ : string) :
  isValid (validatePassword password_)
  = (6 <=? String.length password_)%nat
    && some_char (fun c => is_upper c || is_lower c) password_
    && some_char is_digit password_.
Proof.
  unfold validatePassword. cbn [isValid]. unfold re_letter, re_digit.
  rewrite !test_class.
  destruct (Nat.ltb_spec (String.length password_) 6);
    destruct (Nat.leb_spec 6 (String.length password_)); try lia;
    destruct (some_char _ password_);
    destruct (some_char is_digit password_); reflexivity.
Qed.

Lemma matches_char (c : ascii) (s : string) :
  matches (Class (Ascii.eqb c)) s <-> s = String c "".
Proof.
  split.
  - intros H. inversion H as [|? c' Hc| | | | |]; subst.
    apply Ascii.eqb_eq in Hc. subst. reflexivity.
  - intros ->. constructor. apply Ascii.eqb_refl.
Qed.

(** [validateEmail] accepts exactly the texts local@domain.tail in which
    the three parts are non-empty and free of white space and of "@"; the
    domain and the tail may themselves contain dots. *)
Theorem validateEmail_accepts (email_ : string) :
  validateEmail email_ = true <->
  exists local_ domain tail,
    email_ = String.append local_
               (String "@" (String.append domain (String "." tail)))
    /\ local_ <> "" /\ domain <> "" /\ tail <> ""
    /\ all_chars (fun c => negb (is_space c || Ascii.eqb c "@"))
                 (String.append local_ (String.append domain tail)) = true.
Proof.
  assert (Hall : forall p a b,
            all_chars p (String.append a b) = all_chars p a && all_chars p b).
  { intros p a b. induction a as [|c a IH]; simpl; [reflexivity|].
    rewrite IH. apply andb_assoc. }
  unfold validateEmail, emailRegex, not_space_at.
  rewrite test_anchored_matches. split.
  - intros H. apply matches_seq_inv in H.
    destruct H as (l & s1 & -> & Hl & H).
    apply matches_seq_inv in H. destruct H as (a & s2 & -> & Ha & H).
    apply matches_seq_inv in H. destruct H as (d & s3 & -> & Hd & H).
    apply matches_seq_inv in H. destruct H as (b & t & -> & Hb & Ht).
    apply matches_char in Ha, Hb. subst a b.
    apply matches_plus_class in Hl, Hd, Ht.
    destruct Hl as [Hl1 Hl2], Hd as [Hd1 Hd2], Ht as [Ht1 Ht2].
    exists l, d, t. simpl. repeat split; auto.
    rewrite !Hall, Hl2, Hd2, Ht2. reflexivity.
  - intros (l & d & t & -> & Hl & Hd & Ht & H).
    rewrite !Hall in H. apply andb_prop in H. destruct H as [H1 H].
    apply andb_prop in H. destruct H as [H2 H3].
    apply matches_seq; [apply matches_plus_class; auto|].
    apply (matches_seq _ _ (String "@" "") _); [apply matches_char; reflexivity|].
    apply matches_seq; [apply matches_plus_class; auto|].
    apply (matches_seq _ _ (String "." "") _); [apply matches_char; reflexivity|].
    apply matches_plus_class; auto.
Qed.

End ValidatorFacts.

(** ** Tokens in transit and the policy *)

Module TokenFacts.
Import TableFacts Db Auth Policy.

Local Arguments String.append !s1 s2 : simpl nomatch.

Lemma substring_all (t : string) : String.substring 0 (String.length t) t = t.
Proof. induction t as [|c t IH]; simpl; [reflexivity|]. f_equal. exact IH. Qed.

Lemma prefix_split (p : string) :
  forall a, String.prefix p a = true ->
    a = String.append p (String.substring (String.length p)
                           (String.length a - String.length p) a).
Proof.
  induction p as [|x p IH]; intros a H; simpl.
  - rewrite Nat.sub_0_r, substring_all. reflexivity.
  - destruct a as [|b a]; simpl in H; [discriminate|].
    destruct (ascii_dec x b) as [<-|]; [|discriminate].
    simpl. f_equal. apply IH, H.
Qed.

Lemma prefix_append (p t : string) : String.prefix p (String.append p t) = true.
Proof.
  induction p as [|x p IH]; simpl; [destruct t; reflexivity|].
  destruct (ascii_dec x x); [exact IH|congruence].
Qed.

Lemma substring_append (p t : string) :
  String.substring (String.length p)
    (String.length (String.append p t) - String.length p) (String.append p t)
  = t.
Proof.
  induction p as [|x p IH]; simpl.
  - rewrite Nat.sub_0_r. apply substring_all.
  - exact IH.
Qed.

Lemma extract_bearer (t : string) :
  extractTokenFromHeaders (Some (String.append "Bearer " t)) = Some t.
Proof.
  unfold extractTokenFromHeaders. rewrite (prefix_append "Bearer " t).
  cbn [negb].
  replace (falsy (Some (String.append "Bearer " t))) with false
    by reflexivity.
  cbn [orb]. f_equal. apply (substring_append "Bearer " t).
Qed.

(** [extractTokenFromHeaders] returns [t] exactly for the header
    "Bearer " followed by [t]; any other header, and no header, give
    nothing. *)
Theorem extractTokenFromHeaders_bearer (header : option string) (t : string) :
  extractTokenFromHeaders header = Some t
  <-> header = Some (String.append "Bearer " t).
Proof.
  split.
  - unfold extractTokenFromHeaders. destruct header as [h|]; [|discriminate].
    destruct (falsy (Some h)); [discriminate|].
    destruct (String.prefix "Bearer " h) eqn:Hp; [|discriminate].
    cbn [negb orb]. intros [= <-]. f_equal.
    apply (prefix_split "Bearer " h Hp).
  - intros ->. apply extract_bearer.
Qed.

(** Access is management or being a student. *)
Theorem canAccessExam_is_manage_or_student (user : PublicUser)
    (teacherId_ : option Z) :
  canAccessExam user teacherId_
  = canManageExam user teacherId_ || isStudent user.
Proof.
  unfold canAccessExam, canManageExam, isAdmin, isTeacher, isStudent.
  destruct (pu_role user); cbn; [reflexivity| |reflexivity].
  destruct (teacherId_is teacherId_ user); reflexivity.
Qed.

Section WithLibraries.

Variable jwt_verify : string -> option JWTPayload.

(** [getUserFromToken] answers with the stored row of the id the token
    carries; the username and the role inside the token play no part. *)
Theorem getUserFromToken_reads_store (s : Store) (token : string)
    (user : PublicUser) :
  getUserFromToken jwt_verify s token = Some user
  <-> exists decoded row,
        jwt_verify token = Some decoded
        /\ userQueries.findById s (userId decoded) = Some row
        /\ In row (users s) /\ id row = userId decoded
        /\ user = userWithoutPassword row.
Proof.
  unfold getUserFromToken, verifyToken. split.
  - destruct (jwt_verify token) as [decoded|]; [|discriminate].
    destruct (userQueries.findById s (userId decoded)) as [row|] eqn:E;
      [|discriminate].
    intros [= <-]. exists decoded, row.
    unfold userQueries.findById in E. pose proof (find_some _ _ E) as [Hin Hid].
    apply Z.eqb_eq in Hid. auto 6.
  - intros (decoded & row & -> & -> & _ & _ & ->). reflexivity.
Qed.

(** In the exam routes a non-empty Bearer token in the header is the one
    that is resolved, whatever the cookie holds. *)
Theorem bearer_header_precedes_cookie (s : Store) (t : string)
    (cookie ip_ forwarded agent q1 q2 : option string)
    (body : option ExamRoute.SubmitBody) (now_ : Z) :
  t <> "" ->
  ExamRoute.current_user jwt_verify s
    (ExamRoute.mkRequest (Some (String.append "Bearer " t)) cookie ip_
                         forwarded agent q1 q2 body now_)
  = getUserFromToken jwt_verify s t.
Proof.
  intros Ht. unfold ExamRoute.current_user. cbn [ExamRoute.authorization
    ExamRoute.cookie_auth_token].
  rewrite extract_bearer.
  unfold or_else, falsy.
  destruct (String.eqb_spec t ""); [contradiction|].
  destruct (String.eqb_spec t ""); [contradiction|].
  reflexivity.
Qed.

End WithLibraries.

Lemma bearer_header_precedes_cookie_witness :
  ExamRoute.current_user Sample.jwt_verify Sample.seeded
    (ExamRoute.mkRequest (Some (String.append "Bearer " "jwt.3"))
                         (Some "jwt.1") None None None None None None 0)
  = getUserFromToken Sample.jwt_verify Sample.seeded "jwt.3".
Proof.
  apply (bearer_header_precedes_cookie Sample.jwt_verify Sample.seeded "jwt.3").
  discriminate.
Defined.

End TokenFacts.

(** ** Accounts: login, verification, registration *)

Module AccountFacts.
Import TableFacts Db Auth AuthRoute.

(** Lookup by a key without duplicates finds the row itself. *)
Lemma find_by_key {A K : Type} (key : A -> K) (eqb : K -> K -> bool)
    (l : list A) (x : A) :
  (forall a b, eqb a b = true <-> a = b) ->
  List.NoDup (List.map key l) -> In x l ->
  find (fun y => eqb (key y) (key x)) l = Some x.
Proof.
  intros Heqb. induction l as [|y l IH]; intros Hnd Hin; [destruct Hin|].
  cbn in Hnd |- *. inversion Hnd as [|? ? Hnot Hnd']; subst.
  destruct (eqb (key y) (key x)) eqn:E.
  - apply Heqb in E. destruct Hin as [->|Hin]; [reflexivity|].
    exfalso. apply Hnot. rewrite E. apply in_map, Hin.
  - destruct Hin as [->|Hin].
    + assert (eqb (key x) (key x) = true) by (apply Heqb; reflexivity).
      congruence.
    + apply IH; assumption.
Qed.

Lemma existsb_false_not_in {A K : Type} (key : A -> K) (eqb : K -> K -> bool)
    (l : list A) (k : K) :
  (forall a b, eqb a b = true <-> a = b) ->
  existsb (fun y => eqb (key y) k) l = false -> ~ In k (List.map key l).
Proof.
  intros Heqb H Hin. apply in_map_iff in Hin. destruct Hin as (y & <- & Hy).
  assert (existsb (fun y0 => eqb (key y0) (key y)) l = true).
  { apply existsb_exists. exists y. split; [exact Hy|]. apply Heqb. reflexivity. }
  congruence.
Qed.

Lemma String_eqb_iff (a b : string) : String.eqb a b = true <-> a = b.
Proof. apply String.eqb_eq. Qed.

(** What an accepted [createUser] has done. *)
Lemma createUser_inr (s s' : Store) (rowid : Z)
    (un em pw ro fn class_ subject_ : option string) :
  userQueries.createUser s un em pw ro fn class_ subject_ = inr (s', rowid) ->
  exists un' em' pw' ro' fn' r,
    un = Some un' /\ em = Some em' /\ pw = Some pw' /\ ro = Some ro'
    /\ fn = Some fn' /\ role_of_string ro' = Some r
    /\ existsb (fun u => String.eqb (username u) un') (users s) = false
    /\ existsb (fun u => String.eqb (email u) em') (users s) = false
    /\ rowid = users_seq s + 1
    /\ users s' = (users s ++ [mkUser rowid un' em' pw' r fn' class_ subject_
                                      (clock s) (clock s)])%list
    /\ users_seq s' = rowid
    /\ exams s' = exams s /\ questions s' = questions s
    /\ attempts s' = attempts s /\ results s' = results s
    /\ answers s' = answers s.
Proof.
  unfold userQueries.createUser, write.
  destruct un as [un'|], em as [em'|], pw as [pw'|], ro as [ro'|],
    fn as [fn'|];
    try (destruct (io_budget s) as [[|n]|]; discriminate).
  destruct (io_budget s) as [[|n]|]; [discriminate| |];
    cbn [set_io users users_seq clock exams questions attempts results answers];
    (destruct (role_of_string ro') as [r|] eqn:Hr; [|discriminate]);
    (destruct (existsb _ (users s)) eqn:E1; [discriminate|]);
    (destruct (existsb (fun u => String.eqb (email u) em') (users s)) eqn:E2;
       [discriminate|]);
    cbn [orb]; intros [= <- <-];
    exists un', em', pw', ro', fn', r; cbn; auto 20.
Qed.

Section WithLibraries.

Variable jwt_sign : JWTPayload -> string.
Variable jwt_verify : string -> option JWTPayload.
Variable bcrypt_hash : string -> string.
Variable bcrypt_compare : string -> string -> bool.

(** What a login with good credentials returns. *)
Lemma handleLogin_good (s : Store) (u p : string) (user : User) :
  u <> "" -> p <> "" ->
  userQueries.findByUsername s u = Some user ->
  bcrypt_compare p (password user) = true ->
  handleLogin jwt_sign bcrypt_compare s (mkLoginCredentials (Some u) (Some p))
  = let token := generateToken jwt_sign (userWithoutPassword user) in
    mkResponse 200 true "Login successful" None
               (Some (userWithoutPassword user)) (Some token) None
               (if String.eqb token "" then None else Some token).
Proof.
  intros Hu Hp Hfind Hpw. unfold handleLogin, authenticateUser, comparePassword.
  cbn [cred_username cred_password].
  rewrite !LoginFacts.falsy_Some by assumption. rewrite Hfind, Hpw.
  cbn. unfold falsy. reflexivity.
Qed.

(** A login succeeds exactly when both fields are non-empty, the username
    is that of a stored user and the library accepts the password against
    the stored hash. *)
Theorem login_succeeds_iff (s : Store) (credentials : LoginCredentials) :
  success (handleLogin jwt_sign bcrypt_compare s credentials) = true
  <-> exists u p user,
        cred_username credentials = Some u /\ u <> ""
        /\ cred_password credentials = Some p /\ p <> ""
        /\ userQueries.findByUsername s u = Some user
        /\ bcrypt_compare p (password user) = true.
Proof.
  destruct credentials as [ou op]. cbn [cred_username cred_password]. split.
  - unfold handleLogin, authenticateUser, comparePassword.
    cbn [cred_username cred_password].
    destruct ou as [u|]; [|discriminate].
    destruct (String.eqb_spec u "") as [->|Hu]; [discriminate|].
    destruct op as [p|];
      [|rewrite LoginFacts.falsy_Some by assumption; discriminate].
    destruct (String.eqb_spec p "") as [->|Hp];
      [rewrite LoginFacts.falsy_Some by assumption; discriminate|].
    rewrite !LoginFacts.falsy_Some by assumption. cbn [orb].
    destruct (userQueries.findByUsername s u) as [user|] eqn:E;
      [|discriminate].
    destruct (bcrypt_compare p (password user)) eqn:Hpw; [|discriminate].
    intros _. exists u, p, user. auto 10.
  - intros (u & p & user & [= ->] & Hu & [= ->] & Hp & Hfind & Hpw).
    rewrite (handleLogin_good s u p user Hu Hp Hfind Hpw). reflexivity.
Qed.

(** The token a login has put in the cookie is accepted by verify-token and
    resolves to the identity the login returned, provided the library
    verifies the token it signed for this user and that token is not the
    empty text. *)
Theorem login_then_verify (s : Store) (u p : string) (user : User) :
  (let payload := mkJWTPayload (id user) (username user)
                               (role_to_string (role user)) in
   jwt_verify (jwt_sign payload) = Some payload
   /\ jwt_sign payload <> "") ->
  users_keyed s ->
  u <> "" -> p <> "" ->
  userQueries.findByUsername s u = Some user ->
  bcrypt_compare p (password user) = true ->
  let logged := handleLogin jwt_sign bcrypt_compare s
                            (mkLoginCredentials (Some u) (Some p)) in
  exists token,
    set_cookie logged = Some token
    /\ handleVerifyToken jwt_verify s
         (mkRequest None (Some token) (Some "verify-token") None None None
                    None None None None)
       = mkResponse 200 true "Token valid" None (resp_user logged) None None
                    None.
Proof.
  intros Hsig (Hids & _) Hu Hp Hfind Hpw logged.
  cbv zeta in Hsig. destruct Hsig as [Hlib Hne].
  unfold logged. rewrite (handleLogin_good s u p user Hu Hp Hfind Hpw).
  cbv zeta. set (token := generateToken jwt_sign (userWithoutPassword user)).
  assert (Htok : token <> "") by exact Hne.
  destruct (String.eqb_spec token ""); [contradiction|].
  exists token. split; [reflexivity|].
  unfold handleVerifyToken. cbn [authorization cookie_auth_token option_map].
  unfold or_else. cbn [falsy].
  destruct (String.eqb_spec token ""); [contradiction|].
  unfold getUserFromToken, verifyToken, token, generateToken.
  cbn [userWithoutPassword pu_id pu_username pu_role].
  rewrite Hlib. cbn [userId resp_user].
  unfold userQueries.findByUsername in Hfind.
  apply find_some in Hfind. destruct Hfind as [Hin _].
  unfold userQueries.findById.
  rewrite (find_by_key id Z.eqb (users s) user Z.eqb_eq Hids Hin).
  reflexivity.
Qed.

(** The two ways a registration ends. *)
Lemma handleRegister_cases (s : Store) (data : Request) :
  let out := handleRegister bcrypt_hash s data in
  (fst out = s /\ success (snd out) = false
   /\ (status (snd out) = 400 \/ status (snd out) = 409
       \/ status (snd out) = 500))
  \/ (exists un pw rowid,
        data_username data = Some un /\ data_password data = Some pw
        /\ isValid (validateUsername un) = true
        /\ isValid (validatePassword pw) = true
        /\ userQueries.findByUsername s un = None
        /\ userQueries.createUser s (Some un) (data_email data)
             (Some (bcrypt_hash pw)) (data_role data) (data_fullName data)
             (or_null (data_class data)) (or_null (data_subject data))
           = inr (fst out, rowid)
        /\ snd out = mkResponse 200 true "User created successfully" None
                                None None (Some rowid) None).
Proof.
  unfold handleRegister.
  destruct (data_username data) as [un|]; [|left; cbn; auto].
  destruct (isValid (validateUsername un)) eqn:Vun; [|left; cbn; auto].
  destruct (negb (validateEmail _)); [left; cbn; auto|].
  destruct (data_password data) as [pw|]; [|left; cbn; auto].
  destruct (isValid (validatePassword pw)) eqn:Vpw; [|left; cbn; auto].
  cbn [negb].
  destruct (userQueries.findByUsername s un) eqn:Nun; [left; cbn; auto|].
  destruct (userQueries.findByEmail s _); [left; cbn; auto|].
  unfold hashPassword.
  destruct (userQueries.createUser _ _ _ _ _ _ _ _) as [e|[s' rowid]] eqn:E.
  - left. destruct e; cbn; auto.
  - right. exists un, pw, rowid. cbn. auto 10.
Qed.

(** A registration either leaves the store as it was and answers 400, 409
    or 500, or answers 200 and has appended exactly one user, under a
    fresh id, with the hash of the password, to an otherwise unchanged
    store. *)
Theorem handleRegister_outcome (s : Store) (data : Request) :
  let out := handleRegister bcrypt_hash s data in
  (fst out = s /\ success (snd out) = false
   /\ (status (snd out) = 400 \/ status (snd out) = 409
       \/ status (snd out) = 500))
  \/ (exists row pw,
        status (snd out) = 200 /\ success (snd out) = true
        /\ resp_userId (snd out) = Some (id row)
        /\ id row = users_seq s + 1
        /\ data_username data = Some (username row)
        /\ data_email data = Some (email row)
        /\ data_password data = Some pw
        /\ password row = bcrypt_hash pw
        /\ users (fst out) = (users s ++ [row])%list
        /\ exams (fst out) = exams s /\ questions (fst out) = questions s
        /\ attempts (fst out) = attempts s /\ results (fst out) = results s
        /\ answers (fst out) = answers s).
Proof.
  intros out.
  destruct (handleRegister_cases s data)
    as [H|(un & pw & rowid & Hun & Hpw & _ & _ & _ & E & Hresp)];
    [left; exact H|right].
  fold out in E, Hresp. apply createUser_inr in E.
  destruct E as (un' & em' & pw' & ro' & fn' & r & [= <-] & Hem & [= <-]
                 & _ & _ & _ & _ & _ & -> & Husers & _ & He & Hq & Ha & Hr
                 & Hans).
  exists (mkUser (users_seq s + 1) un em' (bcrypt_hash pw) r fn'
                 (or_null (data_class data)) (or_null (data_subject data))
                 (clock s) (clock s)), pw.
  rewrite Hresp, Husers. cbn. rewrite Hem. repeat split; auto.
Qed.

Lemma NoDup_snoc {K : Type} (l : list K) (x : K) :
  List.NoDup l -> ~ In x l -> List.NoDup (l ++ [x]).
Proof.
  induction 1 as [|y l Hy Hl IH]; intros Hx; cbn.
  - constructor; [intros []|constructor].
  - constructor.
    + intros Hin. apply in_app_or in Hin. destruct Hin as [Hin|[->|[]]].
      * contradiction.
      * apply Hx. left. reflexivity.
    + apply IH. intros Hin. apply Hx. right. exact Hin.
Qed.

(** Registration keeps ids, usernames and emails free of duplicates, and
    every id at or below the AUTOINCREMENT counter. *)
Theorem handleRegister_keeps_users_keyed (s : Store) (data : Request) :
  users_keyed s -> users_keyed (fst (handleRegister bcrypt_hash s data)).
Proof.
  intros Hk.
  destruct (handleRegister_cases s data)
    as [(-> & _)|(un & pw & rowid & _ & _ & _ & _ & _ & E & _)];
    [exact Hk|].
  apply createUser_inr in E.
  destruct E as (un' & em' & pw' & ro' & fn' & r & _ & _ & _ & _ & _ & _
                 & Eu & Ee & -> & Husers & Hseq & _).
  destruct Hk as (Hid & Hun & Hem & Hle).
  unfold users_keyed. rewrite Husers, Hseq, !List.map_app. cbn [List.map].
  cbn [id username email]. repeat split.
  - apply NoDup_snoc; [exact Hid|]. intros Hin. apply in_map_iff in Hin.
    destruct Hin as (u & Hu & Huin).
    rewrite List.Forall_forall in Hle. specialize (Hle u Huin). lia.
  - apply NoDup_snoc; [exact Hun|].
    apply (existsb_false_not_in username String.eqb _ _ String_eqb_iff Eu).
  - apply NoDup_snoc; [exact Hem|].
    apply (existsb_false_not_in email String.eqb _ _ String_eqb_iff Ee).
  - apply List.Forall_app. split.
    + eapply List.Forall_impl; [|exact Hle]. intros u Hu. cbn in Hu. lia.
    + constructor; [cbn; lia|constructor].
Qed.

Lemma find_app_none {A : Type} (f : A -> bool) (l : list A) (x : A) :
  find f l = None -> f x = true -> find f (l ++ [x]) = Some x.
Proof.
  induction l as [|y l IH]; cbn; intros Hn Hx.
  - rewrite Hx. reflexivity.
  - destruct (f y); [discriminate|]. apply IH; assumption.
Qed.

(** A user who has just registered can log in with the same username and
    password, and is given the role the registration asked for, provided
    the library accepts a password against its own hash. *)
Theorem register_then_login (s : Store) (data : Request) :
  (forall pw, bcrypt_compare pw (bcrypt_hash pw) = true) ->
  status (snd (handleRegister bcrypt_hash s data)) = 200 ->
  let s' := fst (handleRegister bcrypt_hash s data) in
  let logged := handleLogin jwt_sign bcrypt_compare s'
                  (mkLoginCredentials (data_username data)
                                      (data_password data)) in
  success logged = true
  /\ option_map (fun u => role_to_string (pu_role u)) (resp_user logged)
     = option_map
         (fun r => role_to_string (default student (role_of_string r)))
         (data_role data).
Proof.
  intros Hlib Hok s' logged.
  destruct (handleRegister_cases s data)
    as [(_ & _ & Hst)|(un & pw & rowid & Hun & Hpw & Vun & Vpw & Nun & E & _)].
  { rewrite Hok in Hst. destruct Hst as [H|[H|H]]; discriminate. }
  fold s' in E. apply createUser_inr in E.
  destruct E as (un' & em' & pw' & ro' & fn' & r & [= <-] & _ & [= <-]
                 & Hro & _ & Hr & _ & _ & -> & Husers & _).
  assert (Hune : un <> "").
  { intros ->. vm_compute in Vun. discriminate. }
  assert (Hpwe : pw <> "").
  { intros ->. vm_compute in Vpw. discriminate. }
  assert (Hfind : userQueries.findByUsername s' un
                  = Some (mkUser (users_seq s + 1) un em' (bcrypt_hash pw) r
                                 fn' (or_null (data_class data))
                                 (or_null (data_subject data))
                                 (clock s) (clock s))).
  { unfold userQueries.findByUsername. rewrite Husers.
    apply find_app_none; [exact Nun|]. cbn. apply String.eqb_refl. }
  unfold logged. rewrite Hun, Hpw.
  rewrite (handleLogin_good s' un pw _ Hune Hpwe Hfind (Hlib pw)).
  cbn. rewrite Hro. cbn. rewrite Hr. split; reflexivity.
Qed.

End WithLibraries.

Ltac no_duplicates :=
  repeat (constructor; [cbn; intuition (discriminate || congruence)|]);
  constructor.

Lemma seeded_users_keyed : users_keyed Sample.seeded.
Proof.
  unfold users_keyed. cbn. repeat split; try no_duplicates.
Qed.

Lemma login_then_verify_witness :
  let logged := handleLogin Sample.jwt_sign Sample.bcrypt_compare Sample.seeded
                  (mkLoginCredentials (Some "siswa1") (Some "student123")) in
  exists token,
    set_cookie logged = Some token
    /\ handleVerifyToken Sample.jwt_verify Sample.seeded
         (mkRequest None (Some token) (Some "verify-token") None None None
                    None None None None)
       = mkResponse 200 true "Token valid" None (resp_user logged) None None
                    None.
Proof.
  apply (login_then_verify Sample.jwt_sign Sample.jwt_verify
           Sample.bcrypt_compare Sample.seeded "siswa1" "student123"
           (mkUser 3 "siswa1" "siswa1@school.com"
                   (Sample.bcrypt_hash "student123") student "Andi Wijaya"
                   (Some "10A") None "t0" "t0"));
    try solve [ reflexivity | discriminate | exact seeded_users_keyed ].
  split; [reflexivity|discriminate].
Defined.

Lemma handleRegister_keeps_users_keyed_witness :
  users_keyed
    (fst (handleRegister Sample.bcrypt_hash Sample.seeded
            (register_request "budi_2" "budi@school.com" "rahasia1"
                              "teacher" (Some "Budi")))).
Proof.
  apply handleRegister_keeps_users_keyed. exact seeded_users_keyed.
Defined.

Lemma register_then_login_witness :
  let data := register_request "budi_2" "budi@school.com" "rahasia1"
                               "teacher" (Some "Budi") in
  let s' := fst (handleRegister Sample.bcrypt_hash Sample.seeded data) in
  let logged := handleLogin Sample.jwt_sign Sample.bcrypt_compare s'
                  (mkLoginCredentials (data_username data)
                                      (data_password data)) in
  success logged = true
  /\ option_map (fun u => role_to_string (pu_role u)) (resp_user logged)
     = option_map
         (fun r => role_to_string (default student (role_of_string r)))
         (data_role data).
Proof.
  apply (register_then_login Sample.jwt_sign Sample.bcrypt_hash
           Sample.bcrypt_compare Sample.seeded).
  - intros pw. apply String.eqb_refl.
  - reflexivity.
Defined.

End AccountFacts.

(** ** Starting and submitting: rejections and what is written *)

Module AttemptFacts.
Import TableFacts Db Auth Policy ExamRoute.

Section WithLibraries.

Variable jwt_verify : string -> option JWTPayload.
Variable JSON_parse : string -> option (list string).
Variable shuffle : list QuestionJson -> list QuestionJson.
Variable Number_toString : float -> string.

(** Only a student can start: without a resolved identity, or with the
    identity of a teacher or an administrator, the answer is 403 and the
    store is untouched, whether or not the exam exists or is open. *)
Theorem start_requires_student (s : Store) (request : Request) (examId : Z) :
  (forall user, current_user jwt_verify s request = Some user ->
                pu_role user <> student) ->
  POST jwt_verify JSON_parse shuffle s request examId
  = (s, fail 403 "Student access required").
Proof.
  intros H. unfold POST, POST_until_import.
  destruct (current_user jwt_verify s request) as [user|]; [|reflexivity].
  specialize (H user eq_refl).
  destruct (pu_role user); try reflexivity. contradiction.
Qed.

(** The reasons for which a student's start is turned away, in the order
    in which they are tested: an inactive exam is reported as such
    whatever the time; an active exam before its start time is "not
    started yet"; an active exam after its end time "has ended".  Each is
    a 400 and leaves the store untouched. *)
Theorem start_rejection_reasons (s : Store) (request : Request) (examId : Z)
    (user : PublicUser) (exam : Exam) :
  current_user jwt_verify s request = Some user ->
  pu_role user = student ->
  examQueries.findById s examId = Some exam ->
  ~ (isActive exam = true /\ startTime exam <= now request <= endTime exam) ->
  POST jwt_verify JSON_parse shuffle s request examId
  = (s, fail 400
          (if negb (isActive exam) then "This exam is not active"
           else if now request <? startTime exam then "Exam has not started yet"
           else "Exam has ended")).
Proof.
  intros Hu Hr He Hout. unfold POST, POST_until_import.
  rewrite Hu, Hr, He. cbn [Role_eqb negb].
  destruct (isActive exam); cbn [negb]; [|reflexivity].
  destruct (Z.ltb_spec (now request) (startTime exam)); [reflexivity|].
  destruct (Z.ltb_spec (endTime exam) (now request)); [reflexivity|].
  exfalso. apply Hout. split; [reflexivity|lia].
Qed.

(** Whatever the request, a start either leaves the store as it is, or
    appends one in-progress attempt of the caller to [exam_attempts] and
    touches no other table; in the second case the answer is 200 or 500. *)
Theorem start_writes_one_attempt_at_most (s : Store) (request : Request)
    (examId : Z) :
  let out := POST jwt_verify JSON_parse shuffle s request examId in
  fst out = s
  \/ exists user,
       current_user jwt_verify s request = Some user
       /\ attempts (fst out)
          = (attempts s ++ [new_attempt s request examId (pu_id user)])%list
       /\ attempts_seq (fst out) = attempts_seq s + 1
       /\ same_catalog s (fst out)
       /\ (status (snd out) = 200 \/ status (snd out) = 500).
Proof.
  unfold POST.
  destruct (POST_until_import jwt_verify s request examId) as [early|k] eqn:E1;
    [left; reflexivity|].
  assert (Hk : current_user jwt_verify s request = Some (sus_user k)
               /\ sus_now k = now request).
  { unfold POST_until_import in E1.
    destruct (current_user jwt_verify s request) as [user|]; [|discriminate].
    destruct (negb _); [discriminate|].
    destruct (examQueries.findById s examId); [|discriminate].
    destruct (negb _); [discriminate|].
    destruct (_ <? _); [discriminate|].
    destruct (_ <? _); [discriminate|].
    injection E1 as <-. auto. }
  destruct Hk as [Hu Hnow].
  unfold try_catch, POST_after_import.
  destruct (attemptQueries.findByStudentAndExam _ _ _); [left; reflexivity|].
  unfold bind, run.
  destruct (attemptQueries.createAttempt _ _ _ _ _ _) as [e|[s' rowid]] eqn:E;
    [left; reflexivity|].
  right. exists (sus_user k).
  assert (Hs' : attempts s'
                = (attempts s
                   ++ [new_attempt s request examId (pu_id (sus_user k))])%list
                /\ attempts_seq s' = attempts_seq s + 1
                /\ same_catalog s s').
  { unfold attemptQueries.createAttempt, write in E. unfold new_attempt.
    rewrite <- Hnow.
    destruct (io_budget s) as [[|n]|]; [discriminate| |];
      cbn [set_io exams users attempts attempts_seq] in E;
      (destruct (_ && _); [|discriminate]); injection E as <- _;
      unfold same_catalog; cbn; auto 10. }
  destruct Hs' as (Ha & Hseq & Hcat).
  destruct (mapM _ _); cbn [fst snd status fail]; auto 10.
Qed.

(** A start whose questions cannot be prepared (a stored [options] text
    does not parse) is answered 500 after the attempt row has been
    inserted; the same request sent again is then answered "You have
    already taken this exam". *)
Theorem failed_start_consumes_attempt (s : Store) (request : Request)
    (examId : Z) (user : PublicUser) (exam : Exam) :
  current_user jwt_verify s request = Some user ->
  pu_role user = student ->
  examQueries.findById s examId = Some exam ->
  isActive exam = true ->
  startTime exam <= now request <= endTime exam ->
  ~ has_attempt s (pu_id user) examId ->
  io_budget s <> Some 0%nat ->
  mapM (for_student JSON_parse) (questionQueries.findByExam s examId) = None ->
  let first := POST jwt_verify JSON_parse shuffle s request examId in
  let again := POST jwt_verify JSON_parse shuffle (fst first) request examId in
  snd first = fail 500 "Failed to start exam"
  /\ attempts (fst first)
     = (attempts s ++ [new_attempt s request examId (pu_id user)])%list
  /\ again = (fst first,
              already_taken (new_attempt s request examId (pu_id user))).
Proof.
  intros Hu Hr He Ha Hw Hno Hio Hparse first again.
  assert (Hexam : existsb (fun e => exam_id e =? examId) (exams s) = true).
  { unfold examQueries.findById in He. eapply find_some_existsb, He. }
  pose proof (StartFacts.current_user_in_store _ _ _ _ Hu) as Huser.
  pose proof (StartFacts.findByStudentAndExam_None _ _ _ Hno) as Hnone.
  destruct (StartFacts.createAttempt_accepts s examId (pu_id user)
              (now request) (clientIP_of request)
              (or_unknown (user_agent request)) Hio Hexam Huser)
    as (s' & Hrun & Hatt & Hseq & Hcat & _).
  assert (Hfirst : first = (s', fail 500 "Failed to start exam")).
  { unfold first, POST.
    rewrite (StartFacts.POST_reaches_import jwt_verify s request examId user
               exam Hu Hr He Ha Hw).
    unfold try_catch, POST_after_import. cbn [sus_user sus_now].
    rewrite Hnone. unfold bind, run. rewrite Hrun.
    unfold questionQueries.findByExam in *.
    destruct Hcat as (_ & _ & -> & _). rewrite Hparse. reflexivity. }
  unfold again. rewrite Hfirst. cbn [fst snd].
  split; [reflexivity|]. split; [exact Hatt|].
  destruct Hcat as (Hu' & He' & _).
  apply (StartFacts.POST_existing_attempt jwt_verify JSON_parse shuffle s'
           request examId user exam); auto.
  - unfold current_user, getUserFromToken, userQueries.findById in *.
    rewrite Hu'. exact Hu.
  - unfold examQueries.findById in *. rewrite He'. exact He.
  - unfold attemptQueries.findByStudentAndExam in *. rewrite Hatt.
    apply AccountFacts.find_app_none; [exact Hnone|].
    cbn. rewrite !Z.eqb_refl. reflexivity.
Qed.

(** A submission that is answered 400 or 403 has written nothing: unless
    the answer is 200 or 500, the store is the one the request found. *)
Theorem submit_rejections_write_nothing (s : Store) (request : Request)
    (examId : Z) :
  let out := PUT jwt_verify Number_toString s request examId in
  fst out = s \/ status (snd out) = 200 \/ status (snd out) = 500.
Proof.
  unfold PUT, try_catch, PUT_body.
  destruct (current_user jwt_verify s request) as [user|]; [|left; reflexivity].
  destruct (negb _); [left; reflexivity|].
  destruct (json request) as [body|]; [|left; reflexivity].
  destruct (attemptId body) as [aid|]; [|left; reflexivity].
  destruct (answers body) as [submitted|]; [|left; reflexivity].
  destruct (aid =? 0); [left; reflexivity|].
  destruct (attemptQueries.findById s aid) as [attempt|]; [|left; reflexivity].
  destruct (_ || _); [left; reflexivity|].
  destruct (negb _); [left; reflexivity|].
  destruct (PUT_record _ _ _ _ _ _ _ s) as [s' r|s' e] eqn:E.
  - rewrite ScoringFacts.PUT_record_throws in E.
    destruct (questionQueries.findByExam s examId); [|discriminate].
    destruct (examQueries.findById s examId); [|discriminate].
    destruct (attemptQueries.updateAttempt _ _ _ _ _ _ _ _) as [?|[? ?]];
      discriminate.
  - right. right. reflexivity.
Qed.

End WithLibraries.

Lemma start_requires_student_witness :
  POST Sample.jwt_verify Sample.JSON_parse Sample.shuffle Sample.seeded
       (mkRequest (Some "Bearer jwt.2") None None None None None None None
                  (Sample.t0 + 1000)) 1
  = (Sample.seeded, fail 403 "Student access required").
Proof.
  apply start_requires_student. intros user. vm_compute.
  intros [= <-]. discriminate.
Defined.

Lemma start_rejection_reasons_witness :
  let request := mkRequest (Some "Bearer jwt.3") None None None None None None
                           None (Sample.t0 - 1) in
  POST Sample.jwt_verify Sample.JSON_parse Sample.shuffle Sample.seeded
       request 1
  = (Sample.seeded,
     fail 400
       (if negb (isActive (Sample.seed_exam 70)) then "This exam is not active"
        else if now request <? startTime (Sample.seed_exam 70)
             then "Exam has not started yet"
             else "Exam has ended")).
Proof.
  apply (start_rejection_reasons Sample.jwt_verify Sample.JSON_parse
           Sample.shuffle Sample.seeded _ 1
           (userWithoutPassword
              (mkUser 3 "siswa1" "siswa1@school.com"
                      (Sample.bcrypt_hash "student123") student "Andi Wijaya"
                      (Some "10A") None "t0" "t0")));
    try reflexivity.
  intros [_ [H _]]. vm_compute in H. apply H. reflexivity.
Defined.

Lemma failed_start_consumes_attempt_witness :
  let request := Sample.request_of_siswa1 None in
  let parse := fun _ : string => @None (list string) in
  let first := POST Sample.jwt_verify parse Sample.shuffle Sample.seeded
                    request 1 in
  let again := POST Sample.jwt_verify parse Sample.shuffle (fst first)
                    request 1 in
  snd first = fail 500 "Failed to start exam"
  /\ attempts (fst first)
     = (attempts Sample.seeded ++ [new_attempt Sample.seeded request 1 3])%list
  /\ again = (fst first, already_taken (new_attempt Sample.seeded request 1 3)).
Proof.
  apply (failed_start_consumes_attempt Sample.jwt_verify
           (fun _ : string => @None (list string)) Sample.shuffle
           Sample.seeded (Sample.request_of_siswa1 None) 1
           (userWithoutPassword
              (mkUser 3 "siswa1" "siswa1@school.com"
                      (Sample.bcrypt_hash "student123") student "Andi Wijaya"
                      (Some "10A") None "t0" "t0"))
           (Sample.seed_exam 70));
    try solve [ reflexivity | discriminate | vm_compute; split; discriminate ].
  intros (a & Hin & _). destruct Hin.
Defined.

End AttemptFacts.

(** ** Submitting: what a submission leaves behind *)

Module SubmitFacts.
Import TableFacts Db Auth ExamRoute Lifecycle.

Lemma find_complete (aid e sc tp : Z) (p : float) (ts : Z)
    (l : list ExamAttempt) (attempt : ExamAttempt) :
  find (fun a => a_id a =? aid) l = Some attempt ->
  find (fun a => a_id a =? aid) (List.map (complete aid e sc tp p ts) l)
  = Some (complete aid e sc tp p ts attempt).
Proof.
  induction l as [|a l IH]; cbn; [discriminate|].
  unfold complete at 1. destruct (a_id a =? aid) eqn:E; cbn; rewrite E.
  - intros [= <-]. unfold complete. rewrite E. reflexivity.
  - exact IH.
Qed.

(** The update of the attempt is accepted unless the storage layer refuses
    the write. *)
Lemma updateAttempt_accepts (s : Store) (endTime_ score_ totalPoints_ : Z)
    (percentage_ : float) (timeSpent_ aid : Z) :
  io_budget s <> Some 0%nat ->
  exists s' x,
    attemptQueries.updateAttempt s endTime_ completed score_ totalPoints_
                                 percentage_ timeSpent_ aid = inr (s', x).
Proof.
  intros Hio. unfold attemptQueries.updateAttempt, write.
  destruct (io_budget s) as [[|n]|]; [contradiction| |]; eauto.
Qed.

Section WithLibraries.

Variable jwt_verify : string -> option JWTPayload.
Variable Number_toString : float -> string.

(** A submission that passes the checks goes on to the recording block. *)
Lemma PUT_passes_checks (s : Store) (request : Request) (examId : Z)
    (user : PublicUser) (body : SubmitBody) (aid : Z)
    (submitted : gmap Z JsValue) (attempt : ExamAttempt) :
  passes_checks jwt_verify s request examId user body aid submitted attempt ->
  PUT jwt_verify Number_toString s request examId
  = try_catch (PUT_record Number_toString request examId user body aid
                          submitted)
              (fail 500 "Failed to submit exam") s.
Proof.
  intros [Hu Hr Hj Hid Hnz Hans Hfind Hs He Hst].
  unfold PUT, try_catch, PUT_body.
  rewrite Hu, Hr, Hj, Hid, Hans. cbn [Role_eqb negb].
  destruct (Z.eqb_spec aid 0); [contradiction|].
  rewrite Hfind, Hs, He, Hst, !Z.eqb_refl. reflexivity.
Qed.

(** What a submission that passes the checks leaves when the exam has no
    question. *)
Lemma PUT_stranded (s : Store) (request : Request) (examId : Z)
    (user : PublicUser) (exam : Exam) (body : SubmitBody) (aid : Z)
    (submitted : gmap Z JsValue) (attempt : ExamAttempt) :
  passes_checks jwt_verify s request examId user body aid submitted attempt ->
  questionQueries.findByExam s examId = [] ->
  examQueries.findById s examId = Some exam ->
  io_budget s <> Some 0%nat ->
  exists s',
    PUT jwt_verify Number_toString s request examId
    = (s', fail 500 "Failed to submit exam")
    /\ attempts s'
       = List.map (complete aid (now request) 0 0 (percentage_of 0 0)
                            (or_zero (timeSpent body))) (attempts s)
    /\ users s' = users s /\ results s' = results s
    /\ Db.answers s' = Db.answers s.
Proof.
  intros Hchk Hqs Hexam Hio.
  rewrite (PUT_passes_checks _ _ _ _ _ _ _ _ Hchk). unfold try_catch.
  rewrite ScoringFacts.PUT_record_throws, Hqs, Hexam.
  destruct (updateAttempt_accepts s (now request) 0 0 (percentage_of 0 0)
              (or_zero (timeSpent body)) aid Hio) as (s' & x & E).
  rewrite E. apply ScoringFacts.updateAttempt_inr in E.
  destruct E as (Ha & Hu & _ & _ & Hans & Hr & _).
  exists s'. auto.
Qed.

(** No submission is accepted: whatever the request and the store, the
    answer is 400, 403 or 500, never 200, and the tables of answers and of
    results are left as they were. *)
Theorem submit_is_never_accepted (s : Store) (request : Request)
    (examId : Z) :
  let out := PUT jwt_verify Number_toString s request examId in
  (status (snd out) = 400 \/ status (snd out) = 403 \/ status (snd out) = 500)
  /\ status (snd out) <> 200
  /\ Db.answers (fst out) = Db.answers s
  /\ results (fst out) = results s.
Proof.
  intros out.
  destruct (ScoringFacts.PUT_outcome Number_toString jwt_verify s request
              examId) as (Hst & _ & _ & _ & Hans & Hr & _).
  fold out in Hst, Hans, Hr.
  split; [exact Hst|]. split; [|split; assumption].
  destruct Hst as [H|[H|H]]; rewrite H; discriminate.
Qed.

(** A submission for an exam that has a question writes nothing at all;
    when it passes every check, it is answered 500 "Failed to submit
    exam", and the attempt stays in progress. *)
Theorem submit_with_questions_writes_nothing (s : Store) (request : Request)
    (examId : Z) :
  questionQueries.findByExam s examId <> [] ->
  let out := PUT jwt_verify Number_toString s request examId in
  fst out = s
  /\ forall user body aid submitted attempt,
       passes_checks jwt_verify s request examId user body aid submitted attempt ->
       snd out = fail 500 "Failed to submit exam".
Proof.
  intros Hqs out. split.
  - destruct (ScoringFacts.PUT_outcome Number_toString jwt_verify s request
                examId) as (_ & _ & _ & _ & _ & _ & _ & [H|H]);
      [exact H|].
    destruct H as (aid & e & ts & Hnil & _). contradiction.
  - intros user body aid submitted attempt Hchk. unfold out.
    rewrite (PUT_passes_checks _ _ _ _ _ _ _ _ Hchk). unfold try_catch.
    rewrite ScoringFacts.PUT_record_throws.
    destruct (questionQueries.findByExam s examId); [contradiction|].
    reflexivity.
Qed.

(** A submission that passes every check for an exam without questions,
    on a store that accepts the write, is answered 500 "Failed to submit
    exam" after the attempt has been set to completed with score 0 of 0:
    the attempt is left completed and without a result. *)
Theorem submit_without_questions_strands_attempt (s : Store)
    (request : Request) (examId : Z) (user : PublicUser) (exam : Exam)
    (body : SubmitBody) (aid : Z) (submitted : gmap Z JsValue)
    (attempt : ExamAttempt) :
  passes_checks jwt_verify s request examId user body aid submitted attempt ->
  questionQueries.findByExam s examId = [] ->
  examQueries.findById s examId = Some exam ->
  io_budget s <> Some 0%nat ->
  let out := PUT jwt_verify Number_toString s request examId in
  snd out = fail 500 "Failed to submit exam"
  /\ attempts (fst out)
     = List.map (complete aid (now request) 0 0 0%float
                          (or_zero (timeSpent body))) (attempts s)
  /\ (exists a', attemptQueries.findById (fst out) aid = Some a'
                 /\ a_status a' = completed /\ a_score a' = Some 0
                 /\ a_endTime a' = Some (now request))
  /\ results (fst out) = results s.
Proof.
  intros Hchk Hqs Hexam Hio out.
  destruct (PUT_stranded _ _ _ _ _ _ _ _ _ Hchk Hqs Hexam Hio)
    as (s' & Hout & Ha & _ & Hr & _).
  unfold out. rewrite Hout. cbn [fst snd].
  change (percentage_of 0 0) with 0%float in Ha.
  split; [reflexivity|]. split; [exact Ha|]. split; [|exact Hr].
  pose proof (chk_attempt _ _ _ _ _ _ _ _ _ Hchk) as Hfind.
  unfold attemptQueries.findById in Hfind |- *.
  eexists. rewrite Ha. split; [apply find_complete, Hfind|].
  apply find_some in Hfind. destruct Hfind as [_ Hid].
  unfold complete. rewrite Hid. cbn. auto.
Qed.

(** After that, the student cannot submit again: the same request is
    answered 400 "Attempt already completed" and writes nothing, so the
    attempt stays without a result. *)
Theorem stranded_attempt_cannot_be_resubmitted (s : Store)
    (request : Request) (examId : Z) (user : PublicUser) (exam : Exam)
    (body : SubmitBody) (aid : Z) (submitted : gmap Z JsValue)
    (attempt : ExamAttempt) :
  passes_checks jwt_verify s request examId user body aid submitted attempt ->
  questionQueries.findByExam s examId = [] ->
  examQueries.findById s examId = Some exam ->
  io_budget s <> Some 0%nat ->
  let s' := fst (PUT jwt_verify Number_toString s request examId) in
  PUT jwt_verify Number_toString s' request examId
  = (s', fail 400 "Attempt already completed").
Proof.
  intros Hchk Hqs Hexam Hio s'.
  destruct (PUT_stranded _ _ _ _ _ _ _ _ _ Hchk Hqs Hexam Hio)
    as (s1 & Hout & Ha & Hu & _).
  unfold s'. rewrite Hout. cbn [fst].
  destruct Hchk as [Hcu Hr Hj Hid Hnz Hans Hfind Hs He Hst].
  assert (Hcu' : current_user jwt_verify s1 request = Some user).
  { rewrite <- Hcu. unfold current_user, getUserFromToken, userQueries.findById.
    rewrite Hu. reflexivity. }
  unfold attemptQueries.findById in Hfind.
  pose proof (find_some _ _ Hfind) as [_ Haid].
  apply (ResponseFacts.PUT_not_in_progress jwt_verify Number_toString s1
           request examId user body aid submitted
           (complete aid (now request) 0 0 (percentage_of 0 0)
              (or_zero (timeSpent body)) attempt)); auto.
  - unfold attemptQueries.findById. rewrite Ha.
    apply find_complete, Hfind.
  - unfold complete. rewrite Haid. exact Hs.
  - unfold complete. rewrite Haid. exact He.
  - unfold complete. rewrite Haid. discriminate.
Qed.

End WithLibraries.

(** The sample submission passes the checks on a store with the attempt of
    [siswa1] in progress, with or without questions. *)
Lemma sample_passes_checks (s : Store) :
  users s = Sample.seed_users ->
  passes_checks Sample.jwt_verify
    (Sample.with_attempt s (Sample.attempt_of in_progress))
    Sample.submission 1
    (userWithoutPassword
       (mkUser 3 "siswa1" "siswa1@school.com"
               (Sample.bcrypt_hash "student123") student "Andi Wijaya"
               (Some "10A") None "t0" "t0"))
    (mkSubmitBody (Some 1) (Some Sample.submitted_answers) (Some 120))
    1 Sample.submitted_answers (Sample.attempt_of in_progress).
Proof.
  intros Hu. constructor; try reflexivity; try discriminate.
  unfold current_user, getUserFromToken, userQueries.findById,
    Sample.with_attempt. cbn [users]. rewrite Hu. reflexivity.
Defined.

Lemma submit_with_questions_writes_nothing_witness :
  let s := Sample.with_attempt Sample.seeded (Sample.attempt_of in_progress) in
  PUT Sample.jwt_verify Sample.Number_toString s Sample.submission 1
  = (s, fail 500 "Failed to submit exam").
Proof.
  cbv zeta.
  destruct (submit_with_questions_writes_nothing Sample.jwt_verify
              Sample.Number_toString
              (Sample.with_attempt Sample.seeded
                                   (Sample.attempt_of in_progress))
              Sample.submission 1) as [H1 H2];
    [vm_compute; discriminate|].
  specialize (H2 _ _ _ _ _ (sample_passes_checks Sample.seeded eq_refl)).
  destruct (PUT _ _ _ _ _) as [s' r]. cbn [fst snd] in *.
  rewrite H1, H2. reflexivity.
Defined.

Lemma submit_without_questions_strands_attempt_witness :
  let s := Sample.with_attempt Sample.without_questions
                               (Sample.attempt_of in_progress) in
  let out := PUT Sample.jwt_verify Sample.Number_toString s
                 Sample.submission 1 in
  snd out = fail 500 "Failed to submit exam"
  /\ List.map a_status (attempts (fst out)) = [completed]
  /\ results (fst out) = [].
Proof.
  destruct (submit_without_questions_strands_attempt Sample.jwt_verify
              Sample.Number_toString _ _ _ _ (Sample.seed_exam 70) _ _ _ _
              (sample_passes_checks Sample.without_questions eq_refl)
              eq_refl eq_refl ltac:(discriminate))
    as (H1 & H2 & _ & H3).
  cbv zeta. rewrite H1, H2, H3. repeat split.
Defined.

Lemma stranded_attempt_cannot_be_resubmitted_witness :
  let s := Sample.with_attempt Sample.without_questions
                               (Sample.attempt_of in_progress) in
  let s' := fst (PUT Sample.jwt_verify Sample.Number_toString s
                     Sample.submission 1) in
  PUT Sample.jwt_verify Sample.Number_toString s' Sample.submission 1
  = (s', fail 400 "Attempt already completed").
Proof.
  exact (stranded_attempt_cannot_be_resubmitted Sample.jwt_verify
           Sample.Number_toString _ _ _ _ (Sample.seed_exam 70) _ _ _ _
           (sample_passes_checks Sample.without_questions eq_refl)
           eq_refl eq_refl ltac:(discriminate)).
Defined.

End SubmitFacts.

(** ** One identity, two resolvers *)

Module VerifyFacts.
Import Db Auth.

Local Arguments String.append !s1 s2 : simpl nomatch.

Lemma index_bearer (t : string) :
  String.index 0 "Bearer " (String.append "Bearer " t) = Some 0%nat.
Proof.
  pose proof (TokenFacts.prefix_append "Bearer " t) as H.
  simpl String.append in *. unfold String.index. rewrite H. reflexivity.
Qed.

Lemma remove_first_Bearer_prefix (t : string) :
  AuthRoute.remove_first_Bearer (String.append "Bearer " t) = t.
Proof.
  unfold AuthRoute.remove_first_Bearer. rewrite index_bearer.
  pose proof (TokenFacts.substring_append "Bearer " t) as H.
  cbn [String.length Nat.add] in *. rewrite H.
  simpl String.append. destruct t; reflexivity.
Qed.

Section WithLibraries.

Variable jwt_verify : string -> option JWTPayload.

(** Token verification in the auth route and the identity check of the
    exam routes read the header differently ([replace] against
    [startsWith] and [substring]), and agree whenever the header is absent
    or starts with "Bearer ": for the same header and cookie, the user that
    [verify-token] reports is the user the exam routes act for, and the
    verification answers 200 exactly when the exam routes resolve a
    user. *)
Theorem verification_agrees_with_exam_routes (s : Store)
    (a : AuthRoute.Request) (r : ExamRoute.Request) :
  ExamRoute.authorization r = AuthRoute.authorization a ->
  ExamRoute.cookie_auth_token r = AuthRoute.cookie_auth_token a ->
  (forall h, AuthRoute.authorization a = Some h ->
             String.prefix "Bearer " h = true) ->
  let response := AuthRoute.handleVerifyToken jwt_verify s a in
  AuthRoute.resp_user response = ExamRoute.current_user jwt_verify s r
  /\ (AuthRoute.status response = 200
      <-> ExamRoute.current_user jwt_verify s r <> None).
Proof.
  intros Hh Hc Hb. cbv zeta.
  unfold AuthRoute.handleVerifyToken, ExamRoute.current_user.
  rewrite Hh, Hc.
  assert (Hsame : or_else (option_map AuthRoute.remove_first_Bearer
                             (AuthRoute.authorization a))
                          (AuthRoute.cookie_auth_token a)
                  = or_else (extractTokenFromHeaders
                               (AuthRoute.authorization a))
                            (AuthRoute.cookie_auth_token a)).
  { destruct (AuthRoute.authorization a) as [h|]; [|reflexivity].
    specialize (Hb h eq_refl).
    rewrite (TokenFacts.prefix_split "Bearer " h Hb).
    rewrite TokenFacts.extract_bearer. cbn [option_map].
    rewrite remove_first_Bearer_prefix. reflexivity. }
  rewrite Hsame. clear Hsame.
  destruct (or_else _ _) as [token|]; cbn [falsy]; [|split; [reflexivity|]].
  - change (default "" (Some token)) with token.
    destruct (String.eqb token "").
    + split; [reflexivity|]. cbn. split; [discriminate|congruence].
    + destruct (getUserFromToken jwt_verify s token) as [user|] eqn:E; cbn.
      * split; [reflexivity|]. split; [discriminate|reflexivity].
      * split; [reflexivity|]. split; [discriminate|congruence].
  - cbn. split; [discriminate|congruence].
Qed.

(** They part on any other header: when the header does not start with
    "Bearer " and what [replace] leaves of it is not empty, the
    verification resolves that remainder and never looks at the cookie,
    while the exam routes ignore the header and resolve the cookie. *)
Theorem other_header_hides_cookie_from_verification (s : Store)
    (a : AuthRoute.Request) (r : ExamRoute.Request) (h : string) :
  AuthRoute.authorization a = Some h ->
  ExamRoute.authorization r = Some h ->
  String.prefix "Bearer " h = false ->
  AuthRoute.remove_first_Bearer h <> "" ->
  AuthRoute.resp_user (AuthRoute.handleVerifyToken jwt_verify s a)
  = getUserFromToken jwt_verify s (AuthRoute.remove_first_Bearer h)
  /\ ExamRoute.current_user jwt_verify s r
     = match ExamRoute.cookie_auth_token r with
       | Some c => if String.eqb c "" then None
                   else getUserFromToken jwt_verify s c
       | None => None
       end.
Proof.
  intros Ha Hr Hp Hne. split.
  - unfold AuthRoute.handleVerifyToken. rewrite Ha. cbn [option_map].
    unfold or_else, falsy.
    destruct (String.eqb_spec (AuthRoute.remove_first_Bearer h) "");
      [contradiction|].
    destruct (String.eqb_spec (AuthRoute.remove_first_Bearer h) "");
      [contradiction|].
    destruct (getUserFromToken _ _ _); reflexivity.
  - unfold ExamRoute.current_user, extractTokenFromHeaders.
    rewrite Hr, Hp. cbn [negb]. rewrite orb_true_r.
    unfold or_else. cbn [falsy].
    destruct (ExamRoute.cookie_auth_token r) as [c|]; cbn [falsy];
      [|reflexivity].
    destruct (String.eqb c ""); reflexivity.
Qed.

End WithLibraries.

Lemma verification_agrees_with_exam_routes_witness :
  let response :=
    AuthRoute.handleVerifyToken Sample.jwt_verify Sample.seeded
      (AuthRoute.mkRequest (Some "Bearer jwt.3") (Some "jwt.1")
         (Some "verify-token") None None None None None None None) in
  AuthRoute.resp_user response
  = ExamRoute.current_user Sample.jwt_verify Sample.seeded
      (ExamRoute.mkRequest (Some "Bearer jwt.3") (Some "jwt.1") None None None
                           None None None 0)
  /\ (AuthRoute.status response = 200
      <-> ExamRoute.current_user Sample.jwt_verify Sample.seeded
            (ExamRoute.mkRequest (Some "Bearer jwt.3") (Some "jwt.1") None
                                 None None None None None 0) <> None).
Proof.
  apply (verification_agrees_with_exam_routes Sample.jwt_verify Sample.seeded
           (AuthRoute.mkRequest (Some "Bearer jwt.3") (Some "jwt.1")
              (Some "verify-token") None None None None None None None)
           (ExamRoute.mkRequest (Some "Bearer jwt.3") (Some "jwt.1") None None
                                None None None None 0));
    try reflexivity.
  intros h [= <-]. reflexivity.
Defined.

Lemma other_header_hides_cookie_from_verification_witness :
  AuthRoute.resp_user
    (AuthRoute.handleVerifyToken Sample.jwt_verify Sample.seeded
       (AuthRoute.mkRequest (Some "Basic c2lzd2Ex") (Some "jwt.3")
          (Some "verify-token") None None None None None None None))
  = None
  /\ option_map pu_id
       (ExamRoute.current_user Sample.jwt_verify Sample.seeded
          (ExamRoute.mkRequest (Some "Basic c2lzd2Ex") (Some "jwt.3") None None
                               None None None None 0))
     = Some 3.
Proof.
  destruct (other_header_hides_cookie_from_verification Sample.jwt_verify
              Sample.seeded
              (AuthRoute.mkRequest (Some "Basic c2lzd2Ex") (Some "jwt.3")
                 (Some "verify-token") None None None None None None None)
              (ExamRoute.mkRequest (Some "Basic c2lzd2Ex") (Some "jwt.3") None
                 None None None None None 0)
              "Basic c2lzd2Ex" eq_refl eq_refl eq_refl)
    as [H1 H2]; [discriminate|].
  rewrite H1, H2. split; reflexivity.
Defined.

End VerifyFacts.

(** ** The table of attempts along sequences of requests *)

Module LedgerFacts.
Import TableFacts Db Auth ExamRoute Lifecycle Concurrency Ledger.

Lemma map_id_complete (aid e sc tp : Z) (p : float) (ts : Z)
    (l : list ExamAttempt) :
  List.map a_id (List.map (complete aid e sc tp p ts) l) = List.map a_id l.
Proof.
  rewrite List.map_map. apply List.map_ext. intros a.
  apply LifecycleFacts.complete_keeps.
Qed.

Lemma filter_pair_complete (aid e sc tp : Z) (p : float) (ts : Z)
    (studentId examId : Z) (l : list ExamAttempt) :
  List.length (List.filter (for_pair studentId examId)
                 (List.map (complete aid e sc tp p ts) l))
  = List.length (List.filter (for_pair studentId examId) l).
Proof.
  induction l as [|a l IH]; cbn [List.map List.filter]; [reflexivity|].
  replace (for_pair studentId examId (complete aid e sc tp p ts a))
    with (for_pair studentId examId a).
  - destruct (for_pair studentId examId a); cbn [List.length]; rewrite IH;
      reflexivity.
  - unfold for_pair.
    destruct (LifecycleFacts.complete_keeps aid e sc tp p ts a)
      as (_ & -> & -> & _).
    reflexivity.
Qed.

Lemma PUT_sound (jwt_verify : string -> option JWTPayload)
    (Number_toString : float -> string)
    (s : Store) (request : Request) (examId : Z) :
  sound s -> sound (fst (PUT jwt_verify Number_toString s request examId)).
Proof.
  intros [Hp Hi Hiss].
  destruct (ScoringFacts.PUT_outcome Number_toString jwt_verify s request
              examId)
    as (_ & _ & _ & _ & _ & _ & Hseq & [->|(aid & e & ts & _ & Ha)]);
    [constructor; assumption|].
  constructor.
  - intros st ex. unfold rows_for. rewrite Ha, filter_pair_complete.
    apply Hp.
  - unfold attempt_ids_distinct. rewrite Ha, map_id_complete. exact Hi.
  - intros a Hain. rewrite Ha in Hain. apply in_map_iff in Hain.
    destruct Hain as (b & <- & Hb). rewrite Hseq.
    destruct (LifecycleFacts.complete_keeps aid e 0 0 (percentage_of 0 0) ts b)
      as (-> & _).
    apply Hiss, Hb.
Qed.

Lemma POST_sound (jwt_verify : string -> option JWTPayload)
    (JSON_parse : string -> option (list string))
    (shuffle : list QuestionJson -> list QuestionJson)
    (s : Store) (request : Request) (examId : Z) :
  sound s -> sound (fst (POST jwt_verify JSON_parse shuffle s request examId)).
Proof.
  intros [Hp Hi Hiss].
  destruct (LifecycleFacts.POST_outcome jwt_verify JSON_parse shuffle s
              request examId)
    as [->|(row & Ha & Hid & Hseq & _ & Hnone & _)];
    [constructor; assumption|].
  apply ConcurrencyFacts.rows_for_zero in Hnone.
  constructor.
  - intros st ex. unfold rows_for in *.
    rewrite Ha, List.filter_app, List.length_app. cbn [List.filter].
    destruct (for_pair st ex row) eqn:E; cbn [List.length];
      [|specialize (Hp st ex); unfold rows_for in Hp; lia].
    unfold for_pair in E. apply andb_true_iff in E. destruct E as [E1 E2].
    apply Z.eqb_eq in E1, E2. subst st ex. lia.
  - unfold attempt_ids_distinct. rewrite Ha, List.map_app. cbn.
    apply AccountFacts.NoDup_snoc; [exact Hi|].
    intros Hin. apply in_map_iff in Hin. destruct Hin as (a & Hida & Hin).
    specialize (Hiss a Hin). lia.
  - intros a Hin. rewrite Ha in Hin. rewrite Hseq.
    apply in_app_or in Hin. destruct Hin as [Hin|[<-|[]]].
    + specialize (Hiss a Hin). lia.
    + lia.
Qed.

(** Along any sequence of starts and submissions, handled one after the
    other, from a store whose attempts are one per (student, exam) pair
    under distinct ids that the counter has issued, and whatever the
    storage layer does with the writes: each pair still has at most one
    attempt, attempt ids are distinct, and the tables of results and of
    answers are what they were at the beginning. *)
Theorem reachable_ledger_sound (s0 s : Store) :
  sound s0 -> reaches s0 s ->
  one_attempt_per_pair s /\ attempt_ids_distinct s
  /\ results s = results s0 /\ Db.answers s = Db.answers s0.
Proof.
  intros H0 H.
  enough (Hs : sound s /\ results s = results s0
               /\ Db.answers s = Db.answers s0)
    by (destruct Hs as ([? ? ?] & ? & ?); auto).
  induction H
    as [|jwt_verify JSON_parse shuffle s request examId _ (IH & Hr & Ha)
        |jwt_verify Number_toString s request examId _ (IH & Hr & Ha)].
  - auto.
  - split; [apply POST_sound, IH|].
    destruct (LifecycleFacts.POST_outcome jwt_verify JSON_parse shuffle s
                request examId)
      as [->|(row & _ & _ & _ & _ & _ & Hr' & Ha')]; [auto|].
    rewrite Hr', Ha'. auto.
  - split; [apply PUT_sound, IH|].
    destruct (ScoringFacts.PUT_outcome Number_toString jwt_verify s request
                examId) as (_ & _ & _ & _ & Ha' & Hr' & _).
    rewrite Hr', Ha'. auto.
Qed.

Lemma reachable_ledger_sound_witness :
  let s := fst (PUT Sample.jwt_verify Sample.Number_toString
                  (fst (POST Sample.jwt_verify Sample.JSON_parse Sample.shuffle
                          Sample.with_history (Sample.request_of_siswa1 None)
                          1))
                  Sample.submission 1) in
  one_attempt_per_pair s /\ attempt_ids_distinct s
  /\ results s = results Sample.with_history
  /\ Db.answers s = Db.answers Sample.with_history.
Proof.
  apply (reachable_ledger_sound Sample.with_history).
  - constructor.
    + intros st ex. unfold rows_for. cbn.
      destruct (for_pair st ex _); cbn; lia.
    + repeat constructor. intros [].
    + intros a [<-|[]]. vm_compute. discriminate.
  - apply reaches_submit, reaches_start, reaches_here.
Defined.

End LedgerFacts.

(** ** Fetching an exam *)

Module FetchFacts.
Import TableFacts Db Auth Policy ExamRoute.

Section WithLibraries.

Variable jwt_verify : string -> option JWTPayload.
Variable JSON_parse : string -> option (list string).

(** For a resolved user and an exam that exists, the fetch is refused with
    403 exactly when the user is a teacher and the exam belongs to someone
    else; administrators, the owner and every student get past the check,
    whether or not the exam is active or open. *)
Theorem fetch_forbidden_iff (s : Store) (request : Request) (examId : Z)
    (user : PublicUser) (exam : Exam) :
  current_user jwt_verify s request = Some user ->
  examQueries.findById s examId = Some exam ->
  status (GET jwt_verify JSON_parse s request examId) = 403
  <-> pu_role user = teacher /\ teacherId exam <> pu_id user.
Proof.
  intros Hu He. unfold GET. rewrite Hu, He.
  unfold canAccessExam, isAdmin, isTeacher, isStudent, teacherId_is.
  assert (Hrest : forall r,
            (r = (if param_is_true (includeQuestions request)
                  then
                    match
                      (if Role_eqb (pu_role user) student
                          && negb (param_is_true (includeAnswers request))
                       then mapM (for_student JSON_parse)
                              (questionQueries.findByExam s examId)
                       else mapM (with_answers JSON_parse)
                              (questionQueries.findByExam s examId))
                    with
                    | Some qs =>
                        mkResponse 200 true "Exam retrieved successfully"
                                   (Some (ExamData exam (Some qs)))
                    | None => fail 500 "Failed to retrieve exam"
                    end
                  else mkResponse 200 true "Exam retrieved successfully"
                                  (Some (ExamData exam None)))) ->
            status r <> 403).
  { intros r ->. destruct (param_is_true (includeQuestions request));
      [|cbn; lia].
    destruct (_ && _); destruct (mapM _ _); cbn; lia. }
  destruct (pu_role user) eqn:Hr; cbn [Role_eqb andb orb negb].
  - split; [intros H; exfalso; eapply Hrest; [reflexivity|exact H]|].
    intros [? _]; discriminate.
  - destruct (Z.eqb_spec (teacherId exam) (pu_id user)) as [Heq|Hne];
      cbn [negb].
    + split; [intros H; exfalso; eapply Hrest; [reflexivity|exact H]|].
      intros [_ ?]; contradiction.
    + split; [auto|reflexivity].
  - split; [intros H; exfalso; eapply Hrest; [reflexivity|exact H]|].
    intros [? _]; discriminate.
Qed.

End WithLibraries.

Lemma fetch_forbidden_iff_witness :
  let exam := mkExam 1 "Ujian Fisika" "Gerak lurus" "Fisika" 1 60 0 70
                     Sample.t0 (Sample.t0 + Sample.week) true true false in
  let s := mkStore Sample.seed_users 6 [exam] [] [] 0 [] 0 [] 0 "t0" None in
  let request := mkRequest (Some "Bearer jwt.2") None None None None None None
                           None (Sample.t0 + 1000) in
  status (GET Sample.jwt_verify Sample.JSON_parse s request 1) = 403
  <-> teacher = teacher /\ 1 <> 2.
Proof.
  apply (fetch_forbidden_iff Sample.jwt_verify Sample.JSON_parse
           (mkStore Sample.seed_users 6
              [mkExam 1 "Ujian Fisika" "Gerak lurus" "Fisika" 1 60 0 70
                      Sample.t0 (Sample.t0 + Sample.week) true true false]
              [] [] 0 [] 0 [] 0 "t0" None)
           (mkRequest (Some "Bearer jwt.2") None None None None None None
                      None (Sample.t0 + 1000))
           1
           (userWithoutPassword
              (mkUser 2 "teacher1" "teacher@school.com"
                      (Sample.bcrypt_hash "teacher123") teacher "Budi Santoso"
                      None (Some "Matematika") "t0" "t0"))
           (mkExam 1 "Ujian Fisika" "Gerak lurus" "Fisika" 1 60 0 70
                   Sample.t0 (Sample.t0 + Sample.week) true true false));
    reflexivity.
Defined.

End FetchFacts.
